(** * Contract-management application: authorization, provisioning and audit model

    A shallow embedding of the database migration (schema, [has_role],
    [get_user_role], [handle_new_user], row-level-security policies), of the
    React handlers of the audit-log, users and document-upload views, and of
    the CNPJ mask of the supplier form with its validation rule, together
    with the properties the specification states about them and further
    properties read off the code. *)

From Stdlib Require Import List String Ascii Bool ZArith Lia Sorted DecimalString.
Import ListNotations.
Open Scope string_scope.
Open Scope list_scope.

(** ** Schema *)

(** UUID columns reach the client as strings. *)
Definition UUID := string.

(** Structured (JSONB) snapshots are opaque to the application. *)
Definition Json := string.

(** Timestamps ([TIMESTAMP WITH TIME ZONE]) as microseconds since the epoch. *)
Definition Timestamp := Z.

(** [CREATE TYPE public.app_role AS ENUM ('admin', 'gestor', 'visualizador')] *)
Inductive app_role : Set := admin | gestor | visualizador.

Scheme Equality for app_role.

(** Equality test on nullable UUID columns against a non-null value
    (SQL [col = v] and JS [a === b] with a [null] operand are both false). *)
Definition opt_uuid_is (o : option UUID) (v : UUID) : bool :=
  match o with
  | Some x => String.eqb x v
  | None => false
  end.

(** [public.profiles] *)
Record profile_row : Set := {
  p_id : UUID;
  p_user_id : UUID;
  p_full_name : string;
  p_email : string;
  p_avatar_url : option string;
  p_department : option string;
  p_phone : option string;
  p_created_at : Timestamp;
  p_updated_at : Timestamp
}.

(** [public.user_roles] *)
Record user_role_row : Set := {
  ur_id : UUID;
  ur_user_id : UUID;
  ur_role : app_role;
  ur_created_at : Timestamp
}.

(** [public.documents]. [file_size] is a BIGINT: the record holds the
    integer of the column. The client receives it as a JavaScript number,
    which is that integer when its magnitude is at most 2^53; statements
    about the sizes the client shows are made within that range. *)
Record document_row : Set := {
  d_id : UUID;
  d_contract_id : UUID;
  d_file_name : string;
  d_file_path : string;
  d_file_type : option string;
  d_file_size : option Z;
  d_extracted_data : option Json;
  d_uploaded_by : option UUID;
  d_created_at : Timestamp
}.

(** [public.audit_logs] *)
Record audit_log_row : Set := {
  al_id : UUID;
  al_user_id : option UUID;
  al_action : string;
  al_table_name : string;
  al_record_id : option UUID;
  al_old_data : option Json;
  al_new_data : option Json;
  al_ip_address : option string;
  al_created_at : Timestamp
}.

(** [public.notification_settings] *)
Record notification_settings_row : Set := {
  ns_id : UUID;
  ns_user_id : UUID;
  ns_email_enabled : option bool;
  ns_days_before_expiry : option (list Z);
  ns_weekly_summary : option bool;
  ns_created_at : Timestamp;
  ns_updated_at : Timestamp
}.

(** An object of [storage.objects]. *)
Record storage_object : Set := {
  so_bucket_id : string;
  so_name : string
}.

(** The part of the database the authorization, provisioning and audit
    logic reads or writes. *)
Record Database : Set := {
  tbl_profiles : list profile_row;
  tbl_user_roles : list user_role_row;
  tbl_documents : list document_row;
  tbl_audit_logs : list audit_log_row;
  tbl_notification_settings : list notification_settings_row;
  tbl_storage_objects : list storage_object
}.

Definition empty_db : Database :=
  {| tbl_profiles := []; tbl_user_roles := []; tbl_documents := [];
     tbl_audit_logs := []; tbl_notification_settings := [];
     tbl_storage_objects := [] |}.

(** ** Role functions of the migration *)

(** [SELECT EXISTS (SELECT 1 FROM public.user_roles
                    WHERE user_id = _user_id AND role = _role)] *)
Definition has_role (roles : list user_role_row) (_user_id : UUID) (_role : app_role) : bool :=
  existsb (fun r => String.eqb (ur_user_id r) _user_id && app_role_beq (ur_role r) _role) roles.

(** The rows [SELECT role FROM public.user_roles WHERE user_id = _user_id LIMIT 1]
    produces. The query has no ORDER BY, so which of several rows of a user
    it keeps is not fixed by the source; the first in table order is taken
    here, and every property that would depend on the choice is stated for
    users with at most one role row. *)
Definition get_user_role_rows (roles : list user_role_row) (_user_id : UUID) : list app_role :=
  firstn 1 (map ur_role (filter (fun r => String.eqb (ur_user_id r) _user_id) roles)).

(** [public.get_user_role]: the single value of the query, SQL NULL when
    the query has no row. *)
Definition get_user_role (roles : list user_role_row) (_user_id : UUID) : option app_role :=
  hd_error (get_user_role_rows roles _user_id).

(** ** Row-level security *)

Module RLS.

(** The tables with row-level security enabled, and [storage.objects]. *)
Inductive Table : Set :=
  | profiles | user_roles | suppliers | contracts | documents
  | obligations | payments | audit_logs | notification_settings
  | storage_objects.

Inductive Command : Set := SELECT | INSERT | UPDATE | DELETE.

(** Database roles a request runs as; every policy is [TO authenticated]. *)
Inductive PgRole : Set := anon | authenticated.

Scheme Equality for Table.
Scheme Equality for Command.
Scheme Equality for PgRole.

(** The expressions occurring in [USING (...)] and [WITH CHECK (...)]. *)
Inductive PolicyExpr : Set :=
  | PTrue                                  (* true *)
  | PHasRole (r : app_role)                (* public.has_role(auth.uid(), r) *)
  | POwner                                 (* auth.uid() = user_id *)
  | PBucket (b : string)                   (* bucket_id = b *)
  | POr (e1 e2 : PolicyExpr)
  | PAnd (e1 e2 : PolicyExpr).

Record Policy : Set := {
  pol_name : string;
  pol_table : Table;
  pol_cmd : Command;
  pol_to : PgRole;
  pol_expr : PolicyExpr
}.

Definition admin_or_gestor : PolicyExpr := POr (PHasRole admin) (PHasRole gestor).

Definition docs_bucket : string := "contracts-documents".

(** Every [CREATE POLICY] statement of the migration, in source order. *)
Definition policies : list Policy := [
  {| pol_name := "Users can view all profiles"; pol_table := profiles;
     pol_cmd := SELECT; pol_to := authenticated; pol_expr := PTrue |};
  {| pol_name := "Users can update own profile"; pol_table := profiles;
     pol_cmd := UPDATE; pol_to := authenticated; pol_expr := POwner |};

  {| pol_name := "Users can view roles"; pol_table := user_roles;
     pol_cmd := SELECT; pol_to := authenticated; pol_expr := PTrue |};
  {| pol_name := "Admins can insert roles"; pol_table := user_roles;
     pol_cmd := INSERT; pol_to := authenticated; pol_expr := PHasRole admin |};
  {| pol_name := "Admins can update roles"; pol_table := user_roles;
     pol_cmd := UPDATE; pol_to := authenticated; pol_expr := PHasRole admin |};
  {| pol_name := "Admins can delete roles"; pol_table := user_roles;
     pol_cmd := DELETE; pol_to := authenticated; pol_expr := PHasRole admin |};

  {| pol_name := "Authenticated users can view suppliers"; pol_table := suppliers;
     pol_cmd := SELECT; pol_to := authenticated; pol_expr := PTrue |};
  {| pol_name := "Admins and gestors can insert suppliers"; pol_table := suppliers;
     pol_cmd := INSERT; pol_to := authenticated; pol_expr := admin_or_gestor |};
  {| pol_name := "Admins and gestors can update suppliers"; pol_table := suppliers;
     pol_cmd := UPDATE; pol_to := authenticated; pol_expr := admin_or_gestor |};
  {| pol_name := "Admins can delete suppliers"; pol_table := suppliers;
     pol_cmd := DELETE; pol_to := authenticated; pol_expr := PHasRole admin |};

  {| pol_name := "Authenticated users can view contracts"; pol_table := contracts;
     pol_cmd := SELECT; pol_to := authenticated; pol_expr := PTrue |};
  {| pol_name := "Admins and gestors can insert contracts"; pol_table := contracts;
     pol_cmd := INSERT; pol_to := authenticated; pol_expr := admin_or_gestor |};
  {| pol_name := "Admins and gestors can update contracts"; pol_table := contracts;
     pol_cmd := UPDATE; pol_to := authenticated; pol_expr := admin_or_gestor |};
  {| pol_name := "Admins can delete contracts"; pol_table := contracts;
     pol_cmd := DELETE; pol_to := authenticated; pol_expr := PHasRole admin |};

  {| pol_name := "Authenticated users can view documents"; pol_table := documents;
     pol_cmd := SELECT; pol_to := authenticated; pol_expr := PTrue |};
  {| pol_name := "Admins and gestors can insert documents"; pol_table := documents;
     pol_cmd := INSERT; pol_to := authenticated; pol_expr := admin_or_gestor |};
  {| pol_name := "Admins and gestors can update documents"; pol_table := documents;
     pol_cmd := UPDATE; pol_to := authenticated; pol_expr := admin_or_gestor |};
  {| pol_name := "Admins can delete documents"; pol_table := documents;
     pol_cmd := DELETE; pol_to := authenticated; pol_expr := PHasRole admin |};

  {| pol_name := "Authenticated users can view obligations"; pol_table := obligations;
     pol_cmd := SELECT; pol_to := authenticated; pol_expr := PTrue |};
  {| pol_name := "Admins and gestors can insert obligations"; pol_table := obligations;
     pol_cmd := INSERT; pol_to := authenticated; pol_expr := admin_or_gestor |};
  {| pol_name := "Admins and gestors can update obligations"; pol_table := obligations;
     pol_cmd := UPDATE; pol_to := authenticated; pol_expr := admin_or_gestor |};
  {| pol_name := "Admins can delete obligations"; pol_table := obligations;
     pol_cmd := DELETE; pol_to := authenticated; pol_expr := PHasRole admin |};

  {| pol_name := "Authenticated users can view payments"; pol_table := payments;
     pol_cmd := SELECT; pol_to := authenticated; pol_expr := PTrue |};
  {| pol_name := "Admins and gestors can insert payments"; pol_table := payments;
     pol_cmd := INSERT; pol_to := authenticated; pol_expr := admin_or_gestor |};
  {| pol_name := "Admins and gestors can update payments"; pol_table := payments;
     pol_cmd := UPDATE; pol_to := authenticated; pol_expr := admin_or_gestor |};
  {| pol_name := "Admins can delete payments"; pol_table := payments;
     pol_cmd := DELETE; pol_to := authenticated; pol_expr := PHasRole admin |};

  {| pol_name := "Admins can view audit logs"; pol_table := audit_logs;
     pol_cmd := SELECT; pol_to := authenticated; pol_expr := PHasRole admin |};
  {| pol_name := "System can insert audit logs"; pol_table := audit_logs;
     pol_cmd := INSERT; pol_to := authenticated; pol_expr := PTrue |};

  {| pol_name := "Users can view own notification settings";
     pol_table := notification_settings;
     pol_cmd := SELECT; pol_to := authenticated; pol_expr := POwner |};
  {| pol_name := "Users can update own notification settings";
     pol_table := notification_settings;
     pol_cmd := UPDATE; pol_to := authenticated; pol_expr := POwner |};
  {| pol_name := "Users can insert own notification settings";
     pol_table := notification_settings;
     pol_cmd := INSERT; pol_to := authenticated; pol_expr := POwner |};

  {| pol_name := "Authenticated users can view documents"; pol_table := storage_objects;
     pol_cmd := SELECT; pol_to := authenticated; pol_expr := PBucket docs_bucket |};
  {| pol_name := "Admins and gestors can upload documents"; pol_table := storage_objects;
     pol_cmd := INSERT; pol_to := authenticated;
     pol_expr := PAnd (PBucket docs_bucket) admin_or_gestor |};
  {| pol_name := "Admins can delete documents"; pol_table := storage_objects;
     pol_cmd := DELETE; pol_to := authenticated;
     pol_expr := PAnd (PBucket docs_bucket) (PHasRole admin) |}
].

(** The request context: the database role and [auth.uid()]. *)
Record Session : Set := {
  sess_role : PgRole;
  auth_uid : option UUID
}.

Definition login (u : UUID) : Session :=
  {| sess_role := authenticated; auth_uid := Some u |}.

Definition anonymous : Session :=
  {| sess_role := anon; auth_uid := None |}.

(** The columns of the row under test that policy expressions mention. *)
Record RowCtx : Set := {
  row_user_id : option UUID;
  row_bucket_id : option string
}.

Definition row_of_owner (o : UUID) : RowCtx :=
  {| row_user_id := Some o; row_bucket_id := None |}.

Definition row_in_bucket (b : string) : RowCtx :=
  {| row_user_id := None; row_bucket_id := Some b |}.

Definition plain_row : RowCtx :=
  {| row_user_id := None; row_bucket_id := None |}.

(** A comparison with SQL NULL is not true. *)
Fixpoint eval_expr (roles : list user_role_row) (s : Session) (row : RowCtx)
    (e : PolicyExpr) : bool :=
  match e with
  | PTrue => true
  | PHasRole r =>
      match auth_uid s with
      | Some u => has_role roles u r
      | None => false
      end
  | POwner =>
      match auth_uid s, row_user_id row with
      | Some u, Some o => String.eqb u o
      | _, _ => false
      end
  | PBucket b =>
      match row_bucket_id row with
      | Some b' => String.eqb b' b
      | None => false
      end
  | POr e1 e2 => eval_expr roles s row e1 || eval_expr roles s row e2
  | PAnd e1 e2 => eval_expr roles s row e1 && eval_expr roles s row e2
  end.

Definition applies (t : Table) (c : Command) (s : Session) (p : Policy) : bool :=
  Table_beq (pol_table p) t && Command_beq (pol_cmd p) c
  && PgRole_beq (pol_to p) (sess_role s).

(** Row-level security is enabled on every table: a command on a row is
    permitted when some applicable (permissive) policy accepts the row, and
    refused when no policy applies. *)
Definition rls_allows (roles : list user_role_row) (s : Session) (t : Table)
    (c : Command) (row : RowCtx) : bool :=
  existsb (fun p => eval_expr roles s row (pol_expr p)) (filter (applies t c s) policies).

(** The five business tables of the permission matrix. *)
Definition is_domain_table (t : Table) : bool :=
  match t with
  | suppliers | contracts | documents | obligations | payments => true
  | _ => false
  end.

(** *** The permission matrix as the specification tabulates it *)

Inductive Requirement : Set :=
  | AnyAuthenticated
  | AdminOnly
  | AdminOrGestor
  | OwnerOnly
  | NotGranted.

(** Section 4.2, row by row; the last row is the document binary storage. *)
Definition policy_matrix (t : Table) (c : Command) : Requirement :=
  match t, c with
  | profiles, SELECT => AnyAuthenticated
  | profiles, INSERT => NotGranted
  | profiles, UPDATE => OwnerOnly
  | profiles, DELETE => NotGranted
  | user_roles, SELECT => AnyAuthenticated
  | user_roles, _ => AdminOnly
  | (suppliers | contracts | documents | obligations | payments), SELECT => AnyAuthenticated
  | (suppliers | contracts | documents | obligations | payments), INSERT => AdminOrGestor
  | (suppliers | contracts | documents | obligations | payments), UPDATE => AdminOrGestor
  | (suppliers | contracts | documents | obligations | payments), DELETE => AdminOnly
  | audit_logs, SELECT => AdminOnly
  | audit_logs, INSERT => AnyAuthenticated
  | audit_logs, _ => NotGranted
  | notification_settings, DELETE => NotGranted
  | notification_settings, _ => OwnerOnly
  | storage_objects, SELECT => AnyAuthenticated
  | storage_objects, INSERT => AdminOrGestor
  | storage_objects, UPDATE => NotGranted
  | storage_objects, DELETE => AdminOnly
  end.

(** The actor [u] is recorded with role [r]: the role store has a row
    assigning [r] to [u]. *)
Definition holds_role (roles : list user_role_row) (u : UUID) (r : app_role) : Prop :=
  exists x : user_role_row, In x roles /\ ur_user_id x = u /\ ur_role x = r.

(** What a tabulated requirement asks of the authenticated actor [u], in the
    words of the matrix: stated on the rows of the role store and on the owner
    column of the row, not through the functions the policies call. *)
Definition requirement_holds (roles : list user_role_row) (u : UUID) (row : RowCtx)
    (q : Requirement) : Prop :=
  match q with
  | AnyAuthenticated => True
  | AdminOnly => holds_role roles u admin
  | AdminOrGestor => holds_role roles u admin \/ holds_role roles u gestor
  | OwnerOnly => row_user_id row = Some u
  | NotGranted => False
  end.

(** A role store in which [u] holds exactly the role [r]. *)
Definition sole_role (u : UUID) (r : app_role) : list user_role_row :=
  [ {| ur_id := "role-row"; ur_user_id := u; ur_role := r; ur_created_at := 0%Z |} ].

Definition all_roles : list app_role := [admin; gestor; visualizador].

(** The roles whose sole holder may run command [c] on a row of [t]. *)
Definition roles_allowed (u : UUID) (row : RowCtx) (t : Table) (c : Command) : list app_role :=
  filter (fun r => rls_allows (sole_role u r) (login u) t c row) all_roles.

End RLS.

(** ** Role and capability resolver (client side) *)

Module Auth.

(** What a role lookup hands to the resolver. *)
Inductive RoleQuery : Set :=
  | QueryFailed
  | QueryRows (rows : list app_role).

(** Modelled from the spec: the session role resolver of the authentication
    context (section 4.1), which is not among the sources: at most one role is
    taken from the lookup, and a missing row or a failed lookup resolves to
    [visualizador]. *)
Definition resolve_role (q : RoleQuery) : app_role :=
  match q with
  | QueryFailed => visualizador
  | QueryRows [] => visualizador
  | QueryRows (r :: _) => r
  end.

(** Modelled from the spec: the capability flag [canEdit] of the
    authentication context (section 3), role in {admin, gestor}. *)
Definition canEdit (role : app_role) : bool :=
  match role with
  | admin => true
  | gestor => true
  | visualizador => false
  end.

(** Modelled from the spec: the capability flag [isAdmin] of the
    authentication context (section 3), role = admin. *)
Definition isAdmin (role : app_role) : bool :=
  match role with
  | admin => true
  | _ => false
  end.

(** The lookup the resolver performs, against the role store. *)
Definition role_lookup (roles : list user_role_row) (failed : bool) (u : UUID) : RoleQuery :=
  if failed then QueryFailed else QueryRows (get_user_role_rows roles u).

End Auth.

(** ** Signup provisioning *)

Module Provisioning.

(** The integrity errors the provisioned tables can raise: SQLSTATE 23505
    with the violated constraint, SQLSTATE 23502 with the NOT NULL column. *)
Inductive SqlError : Set :=
  | unique_violation (constraint : string)
  | not_null_violation (column : string).

(** Outcome of a statement: the new database, or the error that aborts the
    enclosing transaction. *)
Inductive result (A : Type) : Type :=
  | Ok (a : A)
  | Err (e : SqlError).
Arguments Ok {A} a.
Arguments Err {A} e.

Definition bind {A B : Type} (r : result A) (k : A -> result B) : result B :=
  match r with
  | Ok a => k a
  | Err e => Err e
  end.

Notation "x <- c ;; k" := (bind c (fun x => k))
  (at level 61, c at next level, right associativity).

(** The inserted row of [auth.users] as the trigger sees it: [NEW.id],
    [NEW.email] and [NEW.raw_user_meta_data->>'full_name']. The primary key
    is never NULL; the e-mail column is nullable (an identity may be created
    without an address), and so is the metadata entry. *)
Record auth_user : Set := {
  NEW_id : UUID;
  NEW_email : option string;
  NEW_meta_full_name : option string
}.

Definition COALESCE (v : option string) (d : string) : string :=
  match v with
  | Some x => x
  | None => d
  end.

Definition set_profiles (db : Database) (v : list profile_row) : Database :=
  {| tbl_profiles := v; tbl_user_roles := tbl_user_roles db;
     tbl_documents := tbl_documents db; tbl_audit_logs := tbl_audit_logs db;
     tbl_notification_settings := tbl_notification_settings db;
     tbl_storage_objects := tbl_storage_objects db |}.

Definition set_user_roles (db : Database) (v : list user_role_row) : Database :=
  {| tbl_profiles := tbl_profiles db; tbl_user_roles := v;
     tbl_documents := tbl_documents db; tbl_audit_logs := tbl_audit_logs db;
     tbl_notification_settings := tbl_notification_settings db;
     tbl_storage_objects := tbl_storage_objects db |}.

Definition set_notification_settings (db : Database)
    (v : list notification_settings_row) : Database :=
  {| tbl_profiles := tbl_profiles db; tbl_user_roles := tbl_user_roles db;
     tbl_documents := tbl_documents db; tbl_audit_logs := tbl_audit_logs db;
     tbl_notification_settings := v;
     tbl_storage_objects := tbl_storage_objects db |}.

(** [INSERT INTO public.profiles]: [id] is the primary key, [user_id] is UNIQUE. *)
Definition insert_profile (db : Database) (row : profile_row) : result Database :=
  if existsb (fun p => String.eqb (p_id p) (p_id row)) (tbl_profiles db)
  then Err (unique_violation "profiles_pkey")
  else if existsb (fun p => String.eqb (p_user_id p) (p_user_id row)) (tbl_profiles db)
  then Err (unique_violation "profiles_user_id_key")
  else Ok (set_profiles db (tbl_profiles db ++ [row])).

(** [INSERT INTO public.user_roles]: primary key [id], UNIQUE (user_id, role). *)
Definition insert_user_role (db : Database) (row : user_role_row) : result Database :=
  if existsb (fun r => String.eqb (ur_id r) (ur_id row)) (tbl_user_roles db)
  then Err (unique_violation "user_roles_pkey")
  else if has_role (tbl_user_roles db) (ur_user_id row) (ur_role row)
  then Err (unique_violation "user_roles_user_id_role_key")
  else Ok (set_user_roles db (tbl_user_roles db ++ [row])).

(** [INSERT INTO public.notification_settings]: primary key [id], [user_id] UNIQUE. *)
Definition insert_notification_settings (db : Database)
    (row : notification_settings_row) : result Database :=
  if existsb (fun n => String.eqb (ns_id n) (ns_id row)) (tbl_notification_settings db)
  then Err (unique_violation "notification_settings_pkey")
  else if existsb (fun n => String.eqb (ns_user_id n) (ns_user_id row))
            (tbl_notification_settings db)
  then Err (unique_violation "notification_settings_user_id_key")
  else Ok (set_notification_settings db (tbl_notification_settings db ++ [row])).

(** What the column defaults draw while the trigger runs: three
    [gen_random_uuid()] values and [now()]. *)
Record Defaults : Set := {
  gen_profile_id : UUID;
  gen_role_id : UUID;
  gen_settings_id : UUID;
  now : Timestamp
}.

(** The row [INSERT INTO public.profiles (user_id, full_name, email)] builds
    once [NEW.email] is known to be the non-null [email]: the columns not
    listed take their defaults, NULL where none is declared. *)
Definition new_profile (NEW : auth_user) (email : string) (g : Defaults) : profile_row :=
  {| p_id := gen_profile_id g;
     p_user_id := NEW_id NEW;
     p_full_name := COALESCE (NEW_meta_full_name NEW) "";
     p_email := email;
     p_avatar_url := None;
     p_department := None;
     p_phone := None;
     p_created_at := now g;
     p_updated_at := now g |}.

(** [INSERT INTO public.user_roles (user_id, role) VALUES (NEW.id, 'visualizador')] *)
Definition new_user_role (NEW : auth_user) (g : Defaults) : user_role_row :=
  {| ur_id := gen_role_id g;
     ur_user_id := NEW_id NEW;
     ur_role := visualizador;
     ur_created_at := now g |}.

(** [INSERT INTO public.notification_settings (user_id) VALUES (NEW.id)]:
    [email_enabled DEFAULT true], [days_before_expiry DEFAULT ARRAY[7, 15, 30]],
    [weekly_summary DEFAULT true]. *)
Definition new_notification_settings (NEW : auth_user) (g : Defaults)
    : notification_settings_row :=
  {| ns_id := gen_settings_id g;
     ns_user_id := NEW_id NEW;
     ns_email_enabled := Some true;
     ns_days_before_expiry := Some [7; 15; 30]%Z;
     ns_weekly_summary := Some true;
     ns_created_at := now g;
     ns_updated_at := now g |}.

(** [INSERT INTO public.profiles (user_id, full_name, email)
     VALUES (NEW.id, COALESCE(NEW.raw_user_meta_data->>'full_name', ''), NEW.email)]:
    [full_name] is made non-null by the COALESCE, [NEW.email] is passed as it
    is, and [email TEXT NOT NULL] is checked on the new tuple before the
    unique indexes are: a NULL e-mail raises the NOT NULL violation. *)
Definition insert_new_profile (db : Database) (NEW : auth_user) (g : Defaults)
    : result Database :=
  match NEW_email NEW with
  | None => Err (not_null_violation "email")
  | Some email => insert_profile db (new_profile NEW email g)
  end.

(** [public.handle_new_user()], SECURITY DEFINER: the three inserts run in
    order and bypass row-level security; the first failing one raises. *)
Definition handle_new_user (db : Database) (NEW : auth_user) (g : Defaults)
    : result Database :=
  db1 <- insert_new_profile db NEW g ;;
  db2 <- insert_user_role db1 (new_user_role NEW g) ;;
  db3 <- insert_notification_settings db2 (new_notification_settings NEW g) ;;
  Ok db3.

(** The trigger [on_auth_user_created] runs inside the signup transaction: an
    error raised by the function rolls everything back. *)
Definition on_auth_user_created (db : Database) (NEW : auth_user) (g : Defaults)
    : Database :=
  match handle_new_user db NEW g with
  | Ok db' => db'
  | Err _ => db
  end.

Definition profiles_of (db : Database) (u : UUID) : list profile_row :=
  filter (fun p => String.eqb (p_user_id p) u) (tbl_profiles db).

Definition roles_of (db : Database) (u : UUID) : list user_role_row :=
  filter (fun r => String.eqb (ur_user_id r) u) (tbl_user_roles db).

Definition settings_of (db : Database) (u : UUID) : list notification_settings_row :=
  filter (fun n => String.eqb (ns_user_id n) u) (tbl_notification_settings db).

(** A new identity owns no row yet (every [user_id] references [auth.users]). *)
Definition new_identity (db : Database) (u : UUID) : Prop :=
  profiles_of db u = [] /\ roles_of db u = [] /\ settings_of db u = [].

(** The generated primary keys are not in use. *)
Definition unused_ids (db : Database) (g : Defaults) : Prop :=
  existsb (fun p => String.eqb (p_id p) (gen_profile_id g)) (tbl_profiles db) = false
  /\ existsb (fun r => String.eqb (ur_id r) (gen_role_id g)) (tbl_user_roles db) = false
  /\ existsb (fun n => String.eqb (ns_id n) (gen_settings_id g))
       (tbl_notification_settings db) = false.

(** The PRIMARY KEY and UNIQUE declarations of the three provisioned tables:
    [profiles.id], [profiles.user_id], [user_roles.id],
    [user_roles (user_id, role)], [notification_settings.id] and
    [notification_settings.user_id]. *)
Definition constraints_hold (db : Database) : Prop :=
  NoDup (map p_id (tbl_profiles db))
  /\ NoDup (map p_user_id (tbl_profiles db))
  /\ NoDup (map ur_id (tbl_user_roles db))
  /\ NoDup (map (fun r => (ur_user_id r, ur_role r)) (tbl_user_roles db))
  /\ NoDup (map ns_id (tbl_notification_settings db))
  /\ NoDup (map ns_user_id (tbl_notification_settings db)).

Definition row_count (db : Database) : nat :=
  List.length (tbl_profiles db) + List.length (tbl_user_roles db)
  + List.length (tbl_documents db) + List.length (tbl_audit_logs db)
  + List.length (tbl_notification_settings db)
  + List.length (tbl_storage_objects db).

End Provisioning.

(** ** JavaScript and SQL helpers *)

(** [t] is a prefix of [s]. *)
Fixpoint starts_with (t s : string) : bool :=
  match t, s with
  | EmptyString, _ => true
  | String a t', String b s' => Ascii.eqb a b && starts_with t' s'
  | String _ _, EmptyString => false
  end.

(** [s.includes(t)]: [t] occurs in [s] as a contiguous substring. *)
Fixpoint includes (s t : string) : bool :=
  starts_with t s
  || match s with
     | EmptyString => false
     | String _ s' => includes s' t
     end.

(** [s || d] on strings: the empty string is falsy. *)
Definition or_else (s d : string) : string :=
  match s with
  | EmptyString => d
  | _ => s
  end.

(** A lower-casing of the letters A-Z, one instance of [toLowerCase]. *)
Definition ascii_lower (c : ascii) : ascii :=
  let n := nat_of_ascii c in
  if (65 <=? n)%nat && (n <=? 90)%nat then ascii_of_nat (n + 32) else c.

Fixpoint ascii_toLowerCase (s : string) : string :=
  match s with
  | EmptyString => EmptyString
  | String c s' => String (ascii_lower c) (ascii_toLowerCase s')
  end.

(** [ORDER BY]: insertion of a row in front of the first row it may precede. *)
Fixpoint insert_by {A : Type} (leb : A -> A -> bool) (x : A) (l : list A) : list A :=
  match l with
  | [] => [x]
  | y :: l' => if leb x y then x :: l else y :: insert_by leb x l'
  end.

Definition sort_by {A : Type} (leb : A -> A -> bool) (l : list A) : list A :=
  fold_right (insert_by leb) [] l.

(** ** The backend as the client reaches it *)

Module Client.
Import RLS.

Inductive Request : Set :=
  | ReqSelect (t : Table)
  | ReqInsert (t : Table)
  | ReqUpdate (t : Table) (eq_value : string)
  | ReqDelete (t : Table) (eq_value : string)
  | ReqStorageUpload (path : string)
  | ReqStorageRemove (paths : list string).

(** What a handler does that is visible outside the component state. *)
Inductive Event : Set :=
  | Requested (r : Request)
  | ToastError (message : string)
  | ToastSuccess (message : string)
  | ConsoleError (label : string).

(** The world a handler runs in: the database, the session the requests are
    sent with, for each coming request whether it fails before reaching the
    database (network, service), and the events so far. *)
Record World : Set := {
  db : Database;
  session : Session;
  outages : list bool;
  trace : list Event
}.

(** [{ data, error }] *)
Record Response (A : Type) : Type := {
  data : option A;
  error : option string
}.
Arguments data {A} r.
Arguments error {A} r.

Definition succeeded {A : Type} (a : A) : Response A :=
  {| data := Some a; error := None |}.

Definition failed {A : Type} (message : string) : Response A :=
  {| data := None; error := Some message |}.

Definition emit (e : Event) (w : World) : World :=
  {| db := db w; session := session w; outages := outages w;
     trace := trace w ++ [e] |}.

(** One round trip: the request is recorded; an outage answers with an error
    and leaves the database alone; otherwise the statement runs, and a
    statement that raises changes nothing. *)
Definition request {A : Type} (req : Request)
    (exec : Session -> Database -> (string + A) * Database) (w : World)
    : Response A * World :=
  let tr := trace w ++ [Requested req] in
  match outages w with
  | true :: rest =>
      (failed "Failed to fetch",
       {| db := db w; session := session w; outages := rest; trace := tr |})
  | o =>
      match exec (session w) (db w) with
      | (inr a, db') =>
          (succeeded a,
           {| db := db'; session := session w; outages := tl o; trace := tr |})
      | (inl message, _) =>
          (failed message,
           {| db := db w; session := session w; outages := tl o; trace := tr |})
      end
  end.

Definition set_documents (d : Database) (v : list document_row) : Database :=
  {| tbl_profiles := tbl_profiles d; tbl_user_roles := tbl_user_roles d;
     tbl_documents := v; tbl_audit_logs := tbl_audit_logs d;
     tbl_notification_settings := tbl_notification_settings d;
     tbl_storage_objects := tbl_storage_objects d |}.

Definition set_storage_objects (d : Database) (v : list storage_object) : Database :=
  {| tbl_profiles := tbl_profiles d; tbl_user_roles := tbl_user_roles d;
     tbl_documents := tbl_documents d; tbl_audit_logs := tbl_audit_logs d;
     tbl_notification_settings := tbl_notification_settings d;
     tbl_storage_objects := v |}.

(** The policy decision for a command on a row, under the current role rows. *)
Definition permitted (s : Session) (d : Database) (t : Table) (c : Command)
    (row : RowCtx) : bool :=
  rls_allows (tbl_user_roles d) s t c row.

Definition audit_ctx (r : audit_log_row) : RowCtx :=
  {| row_user_id := al_user_id r; row_bucket_id := None |}.

Definition object_ctx (o : storage_object) : RowCtx :=
  row_in_bucket (so_bucket_id o).

(** Newest first: [a] may precede [b]. *)
Definition newer_first (a b : audit_log_row) : bool :=
  (al_created_at b <=? al_created_at a)%Z.

(** The rows of [audit_logs] the session may read, newest first, 500 at most. *)
Definition recent_audit_logs (s : Session) (d : Database) : list audit_log_row :=
  firstn 500
    (sort_by newer_first
       (filter (fun r => permitted s d audit_logs SELECT (audit_ctx r))
          (tbl_audit_logs d))).

(** [from("audit_logs").select("*").order("created_at", { ascending: false }).limit(500)] *)
Definition select_recent_audit_logs : World -> Response (list audit_log_row) * World :=
  request (ReqSelect audit_logs) (fun s d => (inr (recent_audit_logs s d), d)).

(** The columns [user_id, full_name] of a profile. *)
Record Profile : Set := {
  user_id : UUID;
  full_name : string
}.

Definition profile_names (s : Session) (d : Database) : list Profile :=
  map (fun p => {| user_id := p_user_id p; full_name := p_full_name p |})
    (filter (fun p => permitted s d profiles SELECT (row_of_owner (p_user_id p)))
       (tbl_profiles d)).

(** [from("profiles").select("user_id, full_name")] *)
Definition select_profile_names : World -> Response (list Profile) * World :=
  request (ReqSelect profiles) (fun s d => (inr (profile_names s d), d)).

(** The profiles the session may read, ordered by name (byte order). *)
Definition profiles_by_name (s : Session) (d : Database) : list profile_row :=
  sort_by (fun a b => String.leb (p_full_name a) (p_full_name b))
    (filter (fun p => permitted s d profiles SELECT (row_of_owner (p_user_id p)))
       (tbl_profiles d)).

(** [from("profiles").select("*").order("full_name")] *)
Definition select_profiles_by_name : World -> Response (list profile_row) * World :=
  request (ReqSelect profiles) (fun s d => (inr (profiles_by_name s d), d)).

(** The role rows the session may read. *)
Definition visible_user_roles (s : Session) (d : Database) : list user_role_row :=
  filter (fun r => permitted s d user_roles SELECT (row_of_owner (ur_user_id r)))
    (tbl_user_roles d).

(** [from("user_roles").select("*")] *)
Definition select_user_roles : World -> Response (list user_role_row) * World :=
  request (ReqSelect user_roles) (fun s d => (inr (visible_user_roles s d), d)).

(** The rows an [UPDATE user_roles ... WHERE user_id = target] reaches: those
    the statement may see and update. *)
Definition role_row_hit (s : Session) (d : Database) (target : UUID)
    (r : user_role_row) : bool :=
  String.eqb (ur_user_id r) target
  && permitted s d user_roles SELECT (row_of_owner (ur_user_id r))
  && permitted s d user_roles UPDATE (row_of_owner (ur_user_id r)).

Definition with_role (r : user_role_row) (role : app_role) : user_role_row :=
  {| ur_id := ur_id r; ur_user_id := ur_user_id r; ur_role := role;
     ur_created_at := ur_created_at r |}.

Definition count_role_rows (rows : list user_role_row) (u : UUID) (role : app_role) : nat :=
  List.length (filter (fun r => String.eqb (ur_user_id r) u && app_role_beq (ur_role r) role) rows).

(** [from("user_roles").update({ role }).eq("user_id", target)]: every row
    reached takes the new role; UNIQUE (user_id, role) is checked for the rows
    written. A statement that reaches no row succeeds. *)
(** The role rows of a user, and a row as the update of [target] leaves it. *)
Definition of_user (u : UUID) (r : user_role_row) : bool := String.eqb (ur_user_id r) u.

Definition retarget (target : UUID) (role : app_role) (r : user_role_row) : user_role_row :=
  if of_user target r then with_role r role else r.

Definition update_user_role_statement (target : UUID) (role : app_role)
    (s : Session) (d : Database) : (string + unit) * Database :=
  let rows := tbl_user_roles d in
  let rows' := map (fun r => if role_row_hit s d target r then with_role r role else r) rows in
  if existsb (role_row_hit s d target) rows
     && (1 <? count_role_rows rows' target role)%nat
  then (inl "duplicate key value violates unique constraint user_roles_user_id_role_key", d)
  else (inr tt, Provisioning.set_user_roles d rows').

Definition update_user_role (target : UUID) (role : app_role)
    : World -> Response unit * World :=
  request (ReqUpdate user_roles target) (update_user_role_statement target role).

Definition storage_upload_statement (path : string) (s : Session) (d : Database)
    : (string + unit) * Database :=
  let o := {| so_bucket_id := docs_bucket; so_name := path |} in
  if negb (permitted s d storage_objects INSERT (object_ctx o))
  then (inl "new row violates row-level security policy", d)
  else if existsb (fun x => String.eqb (so_bucket_id x) docs_bucket
                            && String.eqb (so_name x) path)
            (tbl_storage_objects d)
  then (inl "The resource already exists", d)
  else (inr tt, set_storage_objects d (tbl_storage_objects d ++ [o])).

(** [storage.from("contracts-documents").upload(path, file)] *)
Definition storage_upload (path : string) : World -> Response unit * World :=
  request (ReqStorageUpload path) (storage_upload_statement path).

(** The objects a [remove] reaches: those of the bucket named by [paths] that
    the session may see and delete. *)
Definition object_hit (s : Session) (d : Database) (paths : list string)
    (o : storage_object) : bool :=
  String.eqb (so_bucket_id o) docs_bucket
  && existsb (String.eqb (so_name o)) paths
  && permitted s d storage_objects SELECT (object_ctx o)
  && permitted s d storage_objects DELETE (object_ctx o).

Definition storage_remove_statement (paths : list string) (s : Session) (d : Database)
    : (string + unit) * Database :=
  (inr tt,
   set_storage_objects d
     (filter (fun o => negb (object_hit s d paths o)) (tbl_storage_objects d))).

(** [storage.from("contracts-documents").remove(paths)] *)
Definition storage_remove (paths : list string) : World -> Response unit * World :=
  request (ReqStorageRemove paths) (storage_remove_statement paths).

(** The contract the row refers to exists: the component is mounted for it. *)
Definition insert_document_statement (row : document_row) (s : Session) (d : Database)
    : (string + unit) * Database :=
  if negb (permitted s d documents INSERT plain_row)
  then (inl "new row violates row-level security policy for table documents", d)
  else if existsb (fun x => String.eqb (d_id x) (d_id row)) (tbl_documents d)
  then (inl "duplicate key value violates unique constraint documents_pkey", d)
  else (inr tt, set_documents d (tbl_documents d ++ [row])).

(** [from("documents").insert(row)] *)
Definition insert_document (row : document_row) : World -> Response unit * World :=
  request (ReqInsert documents) (insert_document_statement row).

Definition document_hit (s : Session) (d : Database) (id : UUID) (x : document_row) : bool :=
  String.eqb (d_id x) id
  && permitted s d documents SELECT plain_row
  && permitted s d documents DELETE plain_row.

Definition delete_document_statement (id : UUID) (s : Session) (d : Database)
    : (string + unit) * Database :=
  (inr tt,
   set_documents d (filter (fun x => negb (document_hit s d id x)) (tbl_documents d))).

(** [from("documents").delete().eq("id", id)] *)
Definition delete_document (id : UUID) : World -> Response unit * World :=
  request (ReqDelete documents id) (delete_document_statement id).

(** The documents of a contract the session may read, newest first. *)
Definition documents_of (contract_id : UUID) (s : Session) (d : Database)
    : list document_row :=
  sort_by (fun a b => (d_created_at b <=? d_created_at a)%Z)
    (filter (fun x => String.eqb (d_contract_id x) contract_id
                      && permitted s d documents SELECT plain_row)
       (tbl_documents d)).

(** [from("documents").select("*").eq("contract_id", c).order("created_at", { ascending: false })] *)
Definition select_documents (contract_id : UUID) : World -> Response (list document_row) * World :=
  request (ReqSelect documents) (fun s d => (inr (documents_of contract_id s d), d)).

(** *** Asynchronous handlers

    A handler threads the world and its component state; a thrown error
    keeps the state reached so far. *)
Definition Task (S A : Type) : Type := World * S -> (string + A) * (World * S).

Definition ret {S A : Type} (a : A) : Task S A := fun ws => (inr a, ws).

Definition bind {S A B : Type} (t : Task S A) (k : A -> Task S B) : Task S B :=
  fun ws =>
    match t ws with
    | (inr a, ws') => k a ws'
    | (inl e, ws') => (inl e, ws')
    end.

Definition throw {S A : Type} (e : string) : Task S A := fun ws => (inl e, ws).

(** [await call] *)
Definition await {S A : Type} (call : World -> Response A * World) : Task S (Response A) :=
  fun ws => let (r, w') := call (fst ws) in (inr r, (w', snd ws)).

(** A state setter. *)
Definition set {S : Type} (f : S -> S) : Task S unit :=
  fun ws => (inr tt, (fst ws, f (snd ws))).

Definition effect {S : Type} (e : Event) : Task S unit :=
  fun ws => (inr tt, (emit e (fst ws), snd ws)).

(** [if (error) throw error] *)
Definition throw_if_error {S A : Type} (r : Response A) : Task S unit :=
  match error r with
  | Some e => throw e
  | None => ret tt
  end.

(** [try { body } catch (error) { handler } finally { final }] *)
Definition try_catch_finally {S : Type} (body : Task S unit)
    (handler : string -> Task S unit) (final : Task S unit) : Task S unit :=
  fun ws =>
    match body ws with
    | (inr _, ws1) => final ws1
    | (inl e, ws1) =>
        match handler e ws1 with
        | (inr _, ws2) => final ws2
        | (inl e', ws2) =>
            match final ws2 with
            | (inr _, ws3) => (inl e', ws3)
            | (inl e'', ws3) => (inl e'', ws3)
            end
        end
    end.

(** The shape shared by the mutations that send one request ([handleSubmit]
    of the supplier, contract, obligation and payment forms, [markAsCompleted],
    [markAsPaid], [handleRoleChange]):
    [try { const { error } = await call; if (error) throw error; on_success }
     catch (error) { console.error(label, error); toast.error(message) }
     finally { final }]. *)
Definition single_request_mutation {S A : Type} (call : World -> Response A * World)
    (on_success : Task S unit) (label message : string) (final : S -> S) : Task S unit :=
  try_catch_finally
    (bind (await call) (fun response => bind (throw_if_error response) (fun _ => on_success)))
    (fun _ => bind (effect (ConsoleError label)) (fun _ => effect (ToastError message)))
    (set final).

(** Run a handler to completion. *)
Definition run {S A : Type} (t : Task S A) (w : World) (st : S) : World * S :=
  snd (t (w, st)).

Notation "x <~ c ;; k" := (bind c (fun x => k))
  (at level 61, c at next level, right associativity).
Notation "c ;; k" := (bind c (fun _ => k))
  (at level 61, right associativity).

End Client.

(** ** The audit-log view *)

Module AuditLogsPage.
Import Client.

(** [{ ...log, user_name }] *)
Record AuditLog : Set := {
  log : audit_log_row;
  user_name : option string
}.

Record State : Set := {
  logs : list AuditLog;
  profiles : list Profile;
  loading : bool;
  searchTerm : string;
  actionFilter : string;
  tableFilter : string;
  selectedLog : option AuditLog;
  isDialogOpen : bool
}.

Definition initial : State :=
  {| logs := []; profiles := []; loading := true; searchTerm := "";
     actionFilter := "all"; tableFilter := "all"; selectedLog := None;
     isDialogOpen := false |}.

Definition setLogs (v : list AuditLog) (st : State) : State :=
  {| logs := v; profiles := profiles st; loading := loading st;
     searchTerm := searchTerm st; actionFilter := actionFilter st;
     tableFilter := tableFilter st; selectedLog := selectedLog st;
     isDialogOpen := isDialogOpen st |}.

Definition setProfiles (v : list Profile) (st : State) : State :=
  {| logs := logs st; profiles := v; loading := loading st;
     searchTerm := searchTerm st; actionFilter := actionFilter st;
     tableFilter := tableFilter st; selectedLog := selectedLog st;
     isDialogOpen := isDialogOpen st |}.

Definition setLoading (v : bool) (st : State) : State :=
  {| logs := logs st; profiles := profiles st; loading := v;
     searchTerm := searchTerm st; actionFilter := actionFilter st;
     tableFilter := tableFilter st; selectedLog := selectedLog st;
     isDialogOpen := isDialogOpen st |}.

Definition setFilters (term action table : string) (st : State) : State :=
  {| logs := logs st; profiles := profiles st; loading := loading st;
     searchTerm := term; actionFilter := action; tableFilter := table;
     selectedLog := selectedLog st; isDialogOpen := isDialogOpen st |}.

(** [data || []] *)
Definition or_empty {A : Type} (d : option (list A)) : list A :=
  match d with
  | Some l => l
  | None => []
  end.

(** [profilesResponse.data?.find((p) => p.user_id === log.user_id)] *)
Definition find_profile (d : option (list Profile)) (l : audit_log_row) : option Profile :=
  match d with
  | Some ps => find (fun p => opt_uuid_is (al_user_id l) (user_id p)) ps
  | None => None
  end.

(** [profile?.full_name || "Sistema"] *)
Definition actor_label (profile : option Profile) : string :=
  match profile with
  | Some p => or_else (full_name p) "Sistema"
  | None => "Sistema"
  end.

Definition with_user_name (d : option (list Profile)) (l : audit_log_row) : AuditLog :=
  {| log := l; user_name := Some (actor_label (find_profile d l)) |}.

(** [fetchData]: both requests are issued ([Promise.all]) before either
    answer is inspected. *)
Definition fetchData : Task State unit :=
  try_catch_finally
    (logsResponse <~ await select_recent_audit_logs ;;
     profilesResponse <~ await select_profile_names ;;
     throw_if_error logsResponse ;;
     throw_if_error profilesResponse ;;
     set (setProfiles (or_empty (data profilesResponse))) ;;
     set (setLogs (map (with_user_name (data profilesResponse))
                     (or_empty (data logsResponse)))))
    (fun _ =>
       effect (ConsoleError "Error fetching audit logs:") ;;
       effect (ToastError "Erro ao carregar logs de auditoria"))
    (set (setLoading false)).

Section Filter.

(** [String.prototype.toLowerCase]. *)
Variable toLowerCase : string -> string.

Definition matchesSearch (term : string) (l : AuditLog) : bool :=
  match user_name l with
  | Some n => includes (toLowerCase n) (toLowerCase term)
  | None => false
  end
  || includes (toLowerCase (al_table_name (log l))) (toLowerCase term)
  || match al_record_id (log l) with
     | Some r => includes (toLowerCase r) (toLowerCase term)
     | None => false
     end.

Definition matchesAction (filter : string) (l : AuditLog) : bool :=
  String.eqb filter "all" || String.eqb (al_action (log l)) filter.

Definition matchesTable (filter : string) (l : AuditLog) : bool :=
  String.eqb filter "all" || String.eqb (al_table_name (log l)) filter.

Definition filteredLogs (st : State) : list AuditLog :=
  filter (fun l => matchesSearch (searchTerm st) l
                   && matchesAction (actionFilter st) l
                   && matchesTable (tableFilter st) l)
    (logs st).



End Filter.

(** Newest first, as a relation on the fetched entries. *)
Definition not_older (a b : AuditLog) : Prop :=
  (al_created_at (log b) <= al_created_at (log a))%Z.

(** No profile of the list belongs to the actor of the entry. *)
Definition no_matching_profile (ps : list Profile) (l : AuditLog) : Prop :=
  forall p, In p ps -> al_user_id (log l) <> Some (user_id p).

(** [openDetailsDialog] *)
Definition openDetailsDialog (l : AuditLog) (st : State) : State :=
  {| logs := logs st; profiles := profiles st; loading := loading st;
     searchTerm := searchTerm st; actionFilter := actionFilter st;
     tableFilter := tableFilter st; selectedLog := Some l;
     isDialogOpen := true |}.

(** The members of [new Set(values)] in insertion order: a value enters the
    set the first time it is met. *)
Fixpoint set_members (seen : list string) (values : list string) : list string :=
  match values with
  | [] => []
  | v :: rest =>
      if existsb (String.eqb v) seen then set_members seen rest
      else v :: set_members (v :: seen) rest
  end.

(** [[...new Set(logs.map((l) => l.table_name))]] *)
Definition uniqueTables (st : State) : list string :=
  set_members [] (map (fun l => al_table_name (log l)) (logs st)).

(** [logs.filter((l) => l.action === action).length] *)
Definition count_action (action : string) (ls : list AuditLog) : nat :=
  List.length (filter (fun l => String.eqb (al_action (log l)) action) ls).

(** The actions the counters of the view know. *)
Definition known_action (l : AuditLog) : Prop :=
  al_action (log l) = "INSERT" \/ al_action (log l) = "UPDATE"
  \/ al_action (log l) = "DELETE".

Record Stats : Set := {
  total : nat;
  inserts : nat;
  updates : nat;
  deletes : nat
}.

Definition stats (st : State) : Stats :=
  {| total := List.length (logs st);
     inserts := count_action "INSERT" (logs st);
     updates := count_action "UPDATE" (logs st);
     deletes := count_action "DELETE" (logs st) |}.

End AuditLogsPage.

(** ** The users view *)

Module UsersPage.
Import Client.

Record UserWithRole : Set := {
  id : string;
  user_id : string;
  full_name : string;
  email : string;
  department : option string;
  phone : option string;
  created_at : Timestamp;
  role : app_role;
  role_id : string
}.

Definition roleLabels (r : app_role) : string :=
  match r with
  | admin => "Administrador"
  | gestor => "Gestor"
  | visualizador => "Visualizador"
  end.

(** [newRole] is a role or the empty string, here [None]. *)
Record State : Set := {
  users : list UserWithRole;
  loading : bool;
  searchTerm : string;
  roleFilter : string;
  selectedUser : option UserWithRole;
  newRole : option app_role;
  isDialogOpen : bool;
  updating : bool
}.

Definition initial : State :=
  {| users := []; loading := true; searchTerm := ""; roleFilter := "all";
     selectedUser := None; newRole := None; isDialogOpen := false;
     updating := false |}.

Definition setUsers (v : list UserWithRole) (st : State) : State :=
  {| users := v; loading := loading st; searchTerm := searchTerm st;
     roleFilter := roleFilter st; selectedUser := selectedUser st;
     newRole := newRole st; isDialogOpen := isDialogOpen st;
     updating := updating st |}.

Definition setLoading (v : bool) (st : State) : State :=
  {| users := users st; loading := v; searchTerm := searchTerm st;
     roleFilter := roleFilter st; selectedUser := selectedUser st;
     newRole := newRole st; isDialogOpen := isDialogOpen st;
     updating := updating st |}.

Definition setSelectedUser (v : option UserWithRole) (st : State) : State :=
  {| users := users st; loading := loading st; searchTerm := searchTerm st;
     roleFilter := roleFilter st; selectedUser := v;
     newRole := newRole st; isDialogOpen := isDialogOpen st;
     updating := updating st |}.

Definition setNewRole (v : option app_role) (st : State) : State :=
  {| users := users st; loading := loading st; searchTerm := searchTerm st;
     roleFilter := roleFilter st; selectedUser := selectedUser st;
     newRole := v; isDialogOpen := isDialogOpen st;
     updating := updating st |}.

Definition setIsDialogOpen (v : bool) (st : State) : State :=
  {| users := users st; loading := loading st; searchTerm := searchTerm st;
     roleFilter := roleFilter st; selectedUser := selectedUser st;
     newRole := newRole st; isDialogOpen := v;
     updating := updating st |}.

Definition setUpdating (v : bool) (st : State) : State :=
  {| users := users st; loading := loading st; searchTerm := searchTerm st;
     roleFilter := roleFilter st; selectedUser := selectedUser st;
     newRole := newRole st; isDialogOpen := isDialogOpen st;
     updating := v |}.

(** [roles?.find((r) => r.user_id === profile.user_id)] *)
Definition find_role (roles : option (list user_role_row)) (profile : profile_row)
    : option user_role_row :=
  match roles with
  | Some rs => find (fun r => String.eqb (ur_user_id r) (p_user_id profile)) rs
  | None => None
  end.

(** One entry of [usersWithRoles]: the role falls back to [visualizador] and
    the role id to the empty string when the user has no role row. *)
Definition with_role_of (roles : option (list user_role_row)) (profile : profile_row)
    : UserWithRole :=
  let userRole := find_role roles profile in
  {| id := p_id profile;
     user_id := p_user_id profile;
     full_name := p_full_name profile;
     email := p_email profile;
     department := p_department profile;
     phone := p_phone profile;
     created_at := p_created_at profile;
     role := match userRole with
             | Some r => ur_role r
             | None => visualizador
             end;
     role_id := match userRole with
                | Some r => or_else (ur_id r) ""
                | None => ""
                end |}.

Definition or_empty {A : Type} (d : option (list A)) : list A :=
  match d with
  | Some l => l
  | None => []
  end.

Definition fetchUsers : Task State unit :=
  try_catch_finally
    (profilesResponse <~ await select_profiles_by_name ;;
     throw_if_error profilesResponse ;;
     rolesResponse <~ await select_user_roles ;;
     throw_if_error rolesResponse ;;
     set (setUsers (map (with_role_of (data rolesResponse))
                      (or_empty (data profilesResponse)))))
    (fun _ =>
       effect (ConsoleError "Error fetching users:") ;;
       effect (ToastError "Erro ao carregar usuários"))
    (set (setLoading false)).

Definition role_updated_message (u : UserWithRole) (r : app_role) : string :=
  ("Permissão de " ++ full_name u ++ " atualizada para " ++ roleLabels r)%string.

(** [handleRoleChange]: the refetch it starts is not awaited; it touches only
    [users] and [loading] and is run here before the [finally] block. *)
Definition handleRoleChange : Task State unit :=
  fun ws =>
    match selectedUser (snd ws), newRole (snd ws) with
    | Some selected, Some new_role =>
        (set (setUpdating true) ;;
         try_catch_finally
           (response <~ await (update_user_role (user_id selected) new_role) ;;
            throw_if_error response ;;
            effect (ToastSuccess (role_updated_message selected new_role)) ;;
            set (setIsDialogOpen false) ;;
            set (setSelectedUser None) ;;
            set (setNewRole None) ;;
            fetchUsers)
           (fun _ =>
              effect (ConsoleError "Error updating role:") ;;
              effect (ToastError "Erro ao atualizar permissão"))
           (set (setUpdating false))) ws
    | _, _ => ret tt ws
    end.

(** [openRoleDialog]; [user] is [user?.id] of the authentication context. *)
Definition openRoleDialog (user : option UUID) (userToEdit : UserWithRole)
    : Task State unit :=
  if opt_uuid_is user (user_id userToEdit)
  then effect (ToastError "Você não pode alterar sua própria permissão")
  else
    set (setSelectedUser (Some userToEdit)) ;;
    set (setNewRole (Some (role userToEdit))) ;;
    set (setIsDialogOpen true).

(** The interactions of the view that touch the role dialog. *)
Inductive Action : Set :=
  | ClickEditRole (u : UserWithRole)   (* the row's edit button *)
  | SelectRole (r : app_role)          (* the dialog's role selector *)
  | CloseDialog                        (* cancel, or dismissing the dialog *)
  | ConfirmRoleChange                  (* the dialog's confirm button *)
  | Refresh.                           (* the effect that loads the list *)

Definition perform (user : option UUID) (a : Action) : Task State unit :=
  match a with
  | ClickEditRole u => openRoleDialog user u
  | SelectRole r => set (setNewRole (Some r))
  | CloseDialog => set (setIsDialogOpen false)
  | ConfirmRoleChange => handleRoleChange
  | Refresh => fetchUsers
  end.

Fixpoint perform_all (user : option UUID) (actions : list Action) (w : World) (st : State)
    : World * State :=
  match actions with
  | [] => (w, st)
  | a :: rest =>
      let (w', st') := run (perform user a) w st in
      perform_all user rest w' st'
  end.

(** The user selected for a role change, if any, is not the acting user. *)
Definition selects_other (actor : UUID) (st : State) : Prop :=
  forall u, selectedUser st = Some u -> user_id u <> actor.

(** No role update on record targets the acting user. *)
Definition no_self_update (actor : UUID) (tr : list Event) : Prop :=
  forall x, In (Requested (ReqUpdate RLS.user_roles x)) tr -> x <> actor.

Section Filter.

(** [String.prototype.toLowerCase]. *)
Variable toLowerCase : string -> string.

Definition matchesSearch (term : string) (u : UserWithRole) : bool :=
  includes (toLowerCase (full_name u)) (toLowerCase term)
  || includes (toLowerCase (email u)) (toLowerCase term)
  || match department u with
     | Some d => negb (String.eqb d "")
                 && includes (toLowerCase d) (toLowerCase term)
     | None => false
     end.

(** [roleFilter === "all" || u.role === roleFilter], the role compared by
    its enum label. *)
Definition role_name (r : app_role) : string :=
  match r with
  | admin => "admin"
  | gestor => "gestor"
  | visualizador => "visualizador"
  end.

Definition matchesRole (filter : string) (u : UserWithRole) : bool :=
  String.eqb filter "all" || String.eqb (role_name (role u)) filter.

Definition filteredUsers (st : State) : list UserWithRole :=
  filter (fun u => matchesSearch (searchTerm st) u && matchesRole (roleFilter st) u)
    (users st).

End Filter.

(** The search box and the role selector. *)
Definition setFilters (term role_filter : string) (st : State) : State :=
  {| users := users st; loading := loading st; searchTerm := term;
     roleFilter := role_filter; selectedUser := selectedUser st;
     newRole := newRole st; isDialogOpen := isDialogOpen st;
     updating := updating st |}.

(** [users.filter((u) => u.role === r).length] *)
Definition count_role (r : app_role) (us : list UserWithRole) : nat :=
  List.length (filter (fun u => app_role_beq (role u) r) us).

Record Stats : Set := {
  total : nat;
  admins : nat;
  gestors : nat;
  viewers : nat
}.

Definition stats (st : State) : Stats :=
  {| total := List.length (users st);
     admins := count_role admin (users st);
     gestors := count_role gestor (users st);
     viewers := count_role visualizador (users st) |}.

End UsersPage.

(** ** The document list of a contract *)

Module DocumentUpload.
Import Client.

(** The [File] chosen in the input. *)
Record File : Set := {
  name : string;
  type : string;
  size : Z
}.

Record Props : Set := {
  contractId : UUID;
  readOnly : bool
}.

(** What an upload reads from its surroundings: [Date.now()], and the
    [gen_random_uuid()] and [now()] defaults of the inserted row. *)
Record Clock : Set := {
  Date_now : Z;
  gen_document_id : UUID;
  db_now : Timestamp
}.

Record State : Set := {
  documents : list document_row;
  loading : bool;
  uploading : bool;
  deleting : option string
}.

Definition setDocuments (v : list document_row) (st : State) : State :=
  {| documents := v; loading := loading st; uploading := uploading st;
     deleting := deleting st |}.

Definition setLoading (v : bool) (st : State) : State :=
  {| documents := documents st; loading := v; uploading := uploading st;
     deleting := deleting st |}.

Definition setUploading (v : bool) (st : State) : State :=
  {| documents := documents st; loading := loading st; uploading := v;
     deleting := deleting st |}.

Definition setDeleting (v : option string) (st : State) : State :=
  {| documents := documents st; loading := loading st; uploading := uploading st;
     deleting := v |}.

Definition or_empty {A : Type} (d : option (list A)) : list A :=
  match d with
  | Some l => l
  | None => []
  end.

Definition decimal (z : Z) : string := DecimalString.NilZero.string_of_int (Z.to_int z).

Definition fetchDocuments (props : Props) : Task State unit :=
  try_catch_finally
    (response <~ await (select_documents (contractId props)) ;;
     throw_if_error response ;;
     set (setDocuments (or_empty (data response))))
    (fun _ => effect (ConsoleError "Error fetching documents:"))
    (set (setLoading false)).

(** [`${contractId}/${timestamp}_${file.name}`] *)
Definition filePath (props : Props) (clock : Clock) (file : File) : string :=
  (contractId props ++ "/" ++ decimal (Date_now clock) ++ "_" ++ name file)%string.

Definition new_document (props : Props) (user : option UUID) (clock : Clock) (file : File)
    : document_row :=
  {| d_id := gen_document_id clock;
     d_contract_id := contractId props;
     d_file_name := name file;
     d_file_path := filePath props clock file;
     d_file_type := Some (type file);
     d_file_size := Some (size file);
     d_extracted_data := None;
     d_uploaded_by := user;
     d_created_at := db_now clock |}.

(** [handleUpload]; [file] is [event.target.files?.[0]]. The list is
    refetched, not awaited, after a successful upload. *)
Definition handleUpload (props : Props) (user : option UUID) (clock : Clock)
    (file : option File) : Task State unit :=
  match file with
  | None => ret tt
  | Some f =>
      if negb (String.eqb (type f) "application/pdf")
      then effect (ToastError "Apenas arquivos PDF são permitidos")
      else if (50 * 1024 * 1024 <? size f)%Z
      then effect (ToastError "O arquivo deve ter no máximo 50MB")
      else
        set (setUploading true) ;;
        try_catch_finally
          (uploaded <~ await (storage_upload (filePath props clock f)) ;;
           throw_if_error uploaded ;;
           inserted <~ await (insert_document (new_document props user clock f)) ;;
           throw_if_error inserted ;;
           effect (ToastSuccess "Documento enviado com sucesso!") ;;
           fetchDocuments props)
          (fun e =>
             effect (ConsoleError "Error uploading document:") ;;
             effect (ToastError (or_else e "Erro ao enviar documento")))
          (set (setUploading false))
  end.

(** [handleDelete]; [confirmed] is the answer to the [confirm] prompt. *)
Definition handleDelete (confirmed : bool) (doc : document_row) : Task State unit :=
  if negb confirmed then ret tt
  else
    set (setDeleting (Some (d_id doc))) ;;
    try_catch_finally
      (removed <~ await (storage_remove [d_file_path doc]) ;;
       throw_if_error removed ;;
       deleted <~ await (delete_document (d_id doc)) ;;
       throw_if_error deleted ;;
       effect (ToastSuccess "Documento excluído com sucesso!") ;;
       set (fun st =>
              setDocuments
                (filter (fun d => negb (String.eqb (d_id d) (d_id doc))) (documents st))
                st))
      (fun e =>
         effect (ConsoleError "Error deleting document:") ;;
         effect (ToastError (or_else e "Erro ao excluir documento")))
      (set (setDeleting None)).

End DocumentUpload.

(** ** The sidebar *)

Module AppSidebar.

(** [getRoleBadge]; [role] is the role of the authentication context, or
    [null]. *)
Definition getRoleBadge (role : option app_role) : string :=
  match role with
  | Some admin => "Administrador"
  | Some gestor => "Gestor"
  | _ => "Visualizador"
  end.

End AppSidebar.

(** ** The supplier form and its validation *)

Module SupplierForm.

(** The atoms of the patterns used on the CNPJ field. *)
Inductive Atom : Set :=
  | Digit                (* \d *)
  | Lit (c : ascii).     (* a literal character *)

(** [\d] matches the ASCII digits. *)
Definition is_digit (c : ascii) : bool :=
  let n := nat_of_ascii c in (48 <=? n)%nat && (n <=? 57)%nat.

Definition atom_matches (a : Atom) (c : ascii) : bool :=
  match a with
  | Digit => is_digit c
  | Lit x => Ascii.eqb c x
  end.

(** The sequence of atoms matches at the start of [s]. *)
Fixpoint matches_at (p : list Atom) (s : string) : bool :=
  match p, s with
  | [], _ => true
  | a :: p', String c s' => atom_matches a c && matches_at p' s'
  | _ :: _, EmptyString => false
  end.

(** The sequence of atoms matches the whole of [s] ([^...$]). *)
Fixpoint matches_all (p : list Atom) (s : string) : bool :=
  match p, s with
  | [], EmptyString => true
  | a :: p', String c s' => atom_matches a c && matches_all p' s'
  | _, _ => false
  end.

(** [sep] put after the first [k] characters of [s]. *)
Fixpoint insert_after (k : nat) (sep : string) (s : string) : string :=
  match k, s with
  | O, _ => (sep ++ s)%string
  | S k', String c s' => String c (insert_after k' sep s')
  | S _, EmptyString => sep
  end.

(** [s.replace(/^p/, r)] where [r] writes the match back with [sep] after
    its first [k] characters. *)
Definition replace_at_start (p : list Atom) (k : nat) (sep : string) (s : string) : string :=
  if matches_at p s then insert_after k sep s else s.

(** [s.replace(/p/, r)]: the same at the leftmost match. *)
Fixpoint replace_first (p : list Atom) (k : nat) (sep : string) (s : string) : string :=
  if matches_at p s then insert_after k sep s
  else match s with
       | EmptyString => EmptyString
       | String c s' => String c (replace_first p k sep s')
       end.

(** [s.replace(/\D/g, "")] *)
Fixpoint strip_non_digits (s : string) : string :=
  match s with
  | EmptyString => EmptyString
  | String c s' => if is_digit c then String c (strip_non_digits s') else strip_non_digits s'
  end.

(** [s.slice(0, n)] *)
Fixpoint slice0 (n : nat) (s : string) : string :=
  match n, s with
  | S n', String c s' => String c (slice0 n' s')
  | _, _ => EmptyString
  end.

Definition D2 : list Atom := [Digit; Digit].
Definition D3 : list Atom := [Digit; Digit; Digit].
Definition D4 : list Atom := [Digit; Digit; Digit; Digit].

(** [formatCNPJ]:
    [.replace(/\D/g, "")]
    [.replace(/^(\d{2})(\d)/, "$1.$2")]
    [.replace(/^(\d{2})\.(\d{3})(\d)/, "$1.$2.$3")]
    [.replace(/\.(\d{3})(\d)/, ".$1/$2")]
    [.replace(/(\d{4})(\d)/, "$1-$2")]
    [.slice(0, 18)] *)
Definition formatCNPJ (value : string) : string :=
  slice0 18
    (replace_first (D4 ++ [Digit]) 4 "-"
       (replace_first (Lit "." :: D3 ++ [Digit]) 4 "/"
          (replace_at_start (D2 ++ Lit "." :: D3 ++ [Digit]) 6 "."
             (replace_at_start (D2 ++ [Digit]) 2 "."
                (strip_non_digits value))))).

(** The steps of [formatCNPJ] that follow the stripping. *)
Definition mask (digits : string) : string :=
  slice0 18
    (replace_first (D4 ++ [Digit]) 4 "-"
       (replace_first (Lit "." :: D3 ++ [Digit]) 4 "/"
          (replace_at_start (D2 ++ Lit "." :: D3 ++ [Digit]) 6 "."
             (replace_at_start (D2 ++ [Digit]) 2 "." digits)))).

(** [/^\d{2}\.\d{3}\.\d{3}\/\d{4}-\d{2}$/.test(val)] *)
Definition cnpj_pattern : list Atom :=
  D2 ++ Lit "." :: D3 ++ Lit "." :: D3 ++ Lit "/" :: D4 ++ Lit "-" :: D2.

(** The [cnpj] rule of [supplierSchema] on a string value:
    [.max(18)] and [val === "" || pattern.test(val)]. *)
Definition cnpj_accepted (val : string) : bool :=
  (String.length val <=? 18)%nat
  && (String.eqb val "" || matches_all cnpj_pattern val).

(** The digits of a CNPJ laid out directly: a separator is written in front
    of the third, sixth, ninth and thirteenth digit, and at most fourteen
    digits are kept. *)
Fixpoint layout_from (i : nat) (digits : string) : string :=
  match digits with
  | EmptyString => EmptyString
  | String c rest =>
      if (14 <=? i)%nat then EmptyString
      else
        let sep := match i with
                   | 2 => "."
                   | 5 => "."
                   | 8 => "/"
                   | 12 => "-"
                   | _ => ""
                   end in
        (sep ++ String c (layout_from (S i) rest))%string
  end.

Definition layout (digits : string) : string := layout_from 0 digits.

Fixpoint all_digits (s : string) : bool :=
  match s with
  | EmptyString => true
  | String c s' => is_digit c && all_digits s'
  end.

End SupplierForm.

(** ** Concrete data *)

Module Samples.
Import Provisioning Client.

Definition sample_identity : auth_user :=
  {| NEW_id := "u-ana"; NEW_email := Some "ana@example.com";
     NEW_meta_full_name := Some "Ana Souza" |}.

(** An identity created without an e-mail address. *)
Definition sample_identity_without_email : auth_user :=
  {| NEW_id := "u-tel"; NEW_email := None;
     NEW_meta_full_name := Some "Telma Reis" |}.

Definition sample_defaults : Defaults :=
  {| gen_profile_id := "p-1"; gen_role_id := "r-1"; gen_settings_id := "n-1";
     now := 1000%Z |}.

Definition sample_admin_session : RLS.Session := RLS.login "u-adm".

Definition sample_audit_row (id : UUID) (actor : option UUID) (at_ : Timestamp)
    : audit_log_row :=
  {| al_id := id; al_user_id := actor; al_action := "INSERT";
     al_table_name := "contracts"; al_record_id := None; al_old_data := None;
     al_new_data := None; al_ip_address := None; al_created_at := at_ |}.

(** An administrator's session over two audit rows, one without an actor and
    one whose actor has no profile. *)
Definition sample_audit_world : World :=
  {| db := {| tbl_profiles := [];
              tbl_user_roles := RLS.sole_role "u-adm" admin;
              tbl_documents := [];
              tbl_audit_logs := [sample_audit_row "a1" None 10%Z;
                                 sample_audit_row "a2" (Some "u-gone") 20%Z];
              tbl_notification_settings := [];
              tbl_storage_objects := [] |};
     session := sample_admin_session;
     outages := [];
     trace := [] |}.

Definition sample_audit_state : AuditLogsPage.State :=
  snd (run AuditLogsPage.fetchData sample_audit_world AuditLogsPage.initial).

Definition sample_profile (id user name : string) : profile_row :=
  {| p_id := id; p_user_id := user; p_full_name := name;
     p_email := (user ++ "@example.com")%string; p_avatar_url := None;
     p_department := None; p_phone := None; p_created_at := 0%Z; p_updated_at := 0%Z |}.

(** An administrator and a user whose role row is missing. *)
Definition sample_users_db : Database :=
  {| tbl_profiles := [sample_profile "p-adm" "u-adm" "Admin";
                      sample_profile "p-new" "u-new" "Novo"];
     tbl_user_roles := RLS.sole_role "u-adm" admin;
     tbl_documents := [];
     tbl_audit_logs := [];
     tbl_notification_settings := [];
     tbl_storage_objects := [] |}.

Definition sample_users_world : World :=
  {| db := sample_users_db; session := sample_admin_session; outages := [];
     trace := [] |}.

Definition sample_admin_entry : UsersPage.UserWithRole :=
  UsersPage.with_role_of (Some (tbl_user_roles sample_users_db))
    (sample_profile "p-adm" "u-adm" "Admin").

Definition sample_new_entry : UsersPage.UserWithRole :=
  UsersPage.with_role_of (Some (tbl_user_roles sample_users_db))
    (sample_profile "p-new" "u-new" "Novo").

(** The users view with the role dialog open on the user without a role row
    and [gestor] chosen. *)
Definition sample_dialog_state : UsersPage.State :=
  UsersPage.setNewRole (Some gestor)
    (snd (run (UsersPage.openRoleDialog (Some "u-adm") sample_new_entry)
            sample_users_world
            (snd (run UsersPage.fetchUsers sample_users_world UsersPage.initial)))).

Definition sample_document : document_row :=
  {| d_id := "d-1"; d_contract_id := "c-1"; d_file_name := "termo.pdf";
     d_file_path := "c-1/1700000000000_termo.pdf";
     d_file_type := Some "application/pdf"; d_file_size := Some 2048%Z;
     d_extracted_data := None; d_uploaded_by := Some "u-adm"; d_created_at := 5%Z |}.

(** An administrator's session in which the second request meets an outage. *)
Definition sample_documents_world : World :=
  {| db := {| tbl_profiles := [];
              tbl_user_roles := RLS.sole_role "u-adm" admin;
              tbl_documents := [sample_document];
              tbl_audit_logs := [];
              tbl_notification_settings := [];
              tbl_storage_objects :=
                [ {| so_bucket_id := RLS.docs_bucket;
                     so_name := "c-1/1700000000000_termo.pdf" |} ] |};
     session := sample_admin_session;
     outages := [false; true];
     trace := [] |}.

Definition sample_documents_state : DocumentUpload.State :=
  {| DocumentUpload.documents := [sample_document];
     DocumentUpload.loading := false;
     DocumentUpload.uploading := false;
     DocumentUpload.deleting := None |}.

(** An administrator's session over a freshly provisioned user. *)
Definition sample_role_world : World :=
  {| db := Provisioning.on_auth_user_created sample_users_db
             {| Provisioning.NEW_id := "u-new2"; Provisioning.NEW_email := Some "n@example.com";
                Provisioning.NEW_meta_full_name := Some "Nina" |}
             sample_defaults;
     session := sample_admin_session; outages := []; trace := [] |}.

Definition sample_role_target : UsersPage.UserWithRole :=
  {| UsersPage.id := "p-1"; UsersPage.user_id := "u-new2"; UsersPage.full_name := "Nina";
     UsersPage.email := "n@example.com"; UsersPage.department := None;
     UsersPage.phone := None; UsersPage.created_at := 1000%Z;
     UsersPage.role := visualizador; UsersPage.role_id := "r-1" |}.

Definition sample_role_state : UsersPage.State :=
  UsersPage.setNewRole (Some gestor)
    (UsersPage.setSelectedUser (Some sample_role_target) UsersPage.initial).

(** The same users, the second one with two role rows. *)
Definition sample_two_roles_world : World :=
  {| db := Provisioning.set_user_roles sample_users_db
             (tbl_user_roles sample_users_db
              ++ [ {| ur_id := "r-2"; ur_user_id := "u-new"; ur_role := gestor;
                      ur_created_at := 1%Z |};
                   {| ur_id := "r-3"; ur_user_id := "u-new"; ur_role := visualizador;
                      ur_created_at := 2%Z |} ]);
     session := sample_admin_session; outages := []; trace := [] |}.

Definition sample_props : DocumentUpload.Props :=
  {| DocumentUpload.contractId := "c-1"; DocumentUpload.readOnly := false |}.

Definition sample_clock : DocumentUpload.Clock :=
  {| DocumentUpload.Date_now := 1700000000123%Z;
     DocumentUpload.gen_document_id := "d-9";
     DocumentUpload.db_now := 77%Z |}.

Definition sample_file : DocumentUpload.File :=
  {| DocumentUpload.name := "aditivo.pdf"; DocumentUpload.type := "application/pdf";
     DocumentUpload.size := 52428800%Z |}.

(** The document world with every request answered, for a given session. *)
Definition sample_open_world (s : RLS.Session) : World :=
  {| db := Provisioning.set_user_roles (db sample_documents_world)
             (RLS.sole_role "u-adm" admin ++ RLS.sole_role "u-ges" gestor);
     session := s; outages := []; trace := [] |}.

End Samples.

(* ================================================================== *)
(** * Properties *)
(* ================================================================== *)

Section PolicyMatrix.
Import RLS.

Lemma app_role_beq_eq (a b : app_role) : app_role_beq a b = true <-> a = b.
Proof. destruct a, b; simpl; split; congruence. Qed.

Lemma app_role_beq_refl (a : app_role) : app_role_beq a a = true.
Proof. now destruct a. Qed.

Lemma has_role_sole (u : UUID) (r r' : app_role) :
  has_role (sole_role u r) u r' = app_role_beq r r'.
Proof.
  unfold has_role, sole_role; simpl.
  now rewrite String.eqb_refl, orb_false_r.
Qed.

Lemma has_role_iff_holds (roles : list user_role_row) (u : UUID) (r : app_role) :
  has_role roles u r = true <-> holds_role roles u r.
Proof.
  unfold has_role, holds_role. rewrite existsb_exists. split.
  - intros (x & Hin & Hx). apply andb_true_iff in Hx. destruct Hx as [Hu Hr].
    exists x. split; [exact Hin|]. split.
    + now apply String.eqb_eq.
    + now apply app_role_beq_eq.
  - intros (x & Hin & Hu & Hr). exists x. split; [exact Hin|].
    rewrite Hu, Hr, String.eqb_refl. apply app_role_beq_refl.
Qed.

(** C1. For every table and command of the permission matrix, every role
    store, every authenticated actor and every row (a storage row being one of
    the documents bucket), the row-level-security policies permit the command
    exactly when the tabulated requirement holds: any authenticated actor; an
    actor with an admin row in the role store; an actor with an admin or a
    gestor row; the owner of the row; or nobody at all. *)
Theorem rls_matches_policy_matrix :
  forall (roles : list user_role_row) (u : UUID) (row : RowCtx) (t : Table) (c : Command),
    (t = storage_objects -> row_bucket_id row = Some docs_bucket) ->
    rls_allows roles (login u) t c row = true
    <-> requirement_holds roles u row (policy_matrix t c).
Proof.
  intros roles u row t c Hb.
  pose proof (has_role_iff_holds roles u admin) as Ha.
  pose proof (has_role_iff_holds roles u gestor) as Hg.
  assert (Hown : match row_user_id row with
                 | Some o => String.eqb u o
                 | None => false
                 end = true <-> row_user_id row = Some u).
  { destruct (row_user_id row) as [o|]; [|split; discriminate].
    rewrite String.eqb_eq. split; [now intros -> | now intros [= ->]]. }
  destruct t, c; unfold rls_allows; cbn;
    try rewrite (Hb eq_refl); cbn;
    rewrite ?orb_false_r, ?orb_true_iff;
    first [ exact Ha | exact Hown | tauto | (split; [reflexivity | discriminate])
          | (split; [discriminate | contradiction]) ].
Qed.

Lemma rls_matches_policy_matrix_witness :
  rls_allows (sole_role "u1" gestor) (login "u1") storage_objects INSERT
    (row_in_bucket docs_bucket) = true
  /\ rls_allows (sole_role "u1" visualizador) (login "u1") storage_objects INSERT
       (row_in_bucket docs_bucket) <> true.
Proof.
  split.
  - apply (rls_matches_policy_matrix (sole_role "u1" gestor) "u1"
             (row_in_bucket docs_bucket) storage_objects INSERT).
    + intros _. reflexivity.
    + right. exists {| ur_id := "role-row"; ur_user_id := "u1"; ur_role := gestor;
                       ur_created_at := 0%Z |}.
      split; [now left | split; reflexivity].
  - discriminate.
Defined.

End PolicyMatrix.

Section Capabilities.
Import RLS Auth.

(** C2. On each of the five domain tables the roles that may delete are
    exactly {admin}, the roles that may insert and the roles that may update
    are exactly {admin, gestor}, and the former set is strictly smaller than
    the latter: delete is never the same as update. *)
Theorem delete_stricter_than_write :
  forall (t : Table) (u : UUID) (row : RowCtx),
    is_domain_table t = true ->
    roles_allowed u row t DELETE = [admin]
    /\ roles_allowed u row t INSERT = [admin; gestor]
    /\ roles_allowed u row t UPDATE = [admin; gestor]
    /\ incl (roles_allowed u row t DELETE) (roles_allowed u row t UPDATE)
    /\ ~ incl (roles_allowed u row t UPDATE) (roles_allowed u row t DELETE)
    /\ roles_allowed u row t DELETE <> roles_allowed u row t UPDATE.
Proof.
  intros t u row Hd.
  assert (Hdel : roles_allowed u row t DELETE = [admin]).
  { destruct t; try discriminate Hd; unfold roles_allowed, rls_allows; cbn;
      rewrite String.eqb_refl; reflexivity. }
  assert (Hins : roles_allowed u row t INSERT = [admin; gestor]).
  { destruct t; try discriminate Hd; unfold roles_allowed, rls_allows; cbn;
      rewrite String.eqb_refl; reflexivity. }
  assert (Hupd : roles_allowed u row t UPDATE = [admin; gestor]).
  { destruct t; try discriminate Hd; unfold roles_allowed, rls_allows; cbn;
      rewrite String.eqb_refl; reflexivity. }
  rewrite Hdel, Hins, Hupd. repeat split; try reflexivity.
  - intros r [<- | []]. now left.
  - intros Hincl. destruct (Hincl gestor) as [H | []]; [right; now left | discriminate H].
  - discriminate.
Qed.

Lemma delete_stricter_than_write_witness :
  roles_allowed "u1" plain_row suppliers DELETE = [admin]
  /\ roles_allowed "u1" plain_row suppliers INSERT = [admin; gestor]
  /\ roles_allowed "u1" plain_row suppliers UPDATE = [admin; gestor]
  /\ incl (roles_allowed "u1" plain_row suppliers DELETE)
          (roles_allowed "u1" plain_row suppliers UPDATE)
  /\ ~ incl (roles_allowed "u1" plain_row suppliers UPDATE)
            (roles_allowed "u1" plain_row suppliers DELETE)
  /\ roles_allowed "u1" plain_row suppliers DELETE
     <> roles_allowed "u1" plain_row suppliers UPDATE.
Proof.
  apply (delete_stricter_than_write suppliers "u1" plain_row). reflexivity.
Defined.

(** On a domain table the decision depends only on the actor's roles: an
    actor allowed to delete is allowed to insert and to update, whatever the
    role store holds. *)
Lemma delete_implies_write :
  forall (roles : list user_role_row) (u : UUID) (row : RowCtx) (t : Table),
    is_domain_table t = true ->
    rls_allows roles (login u) t DELETE row = true ->
    rls_allows roles (login u) t INSERT row = true
    /\ rls_allows roles (login u) t UPDATE row = true.
Proof.
  intros roles u row t Hd.
  destruct t; try discriminate Hd; unfold rls_allows; cbn;
    rewrite !orb_false_r; intros ->; auto.
Qed.

(** C3. The capability flags are functions of the resolved role alone:
    [canEdit r] holds exactly for admin and gestor, [isAdmin r] exactly for
    admin. *)
Theorem capability_flags :
  forall r : app_role,
    canEdit r = (app_role_beq r admin || app_role_beq r gestor)
    /\ isAdmin r = app_role_beq r admin
    /\ (canEdit r = true <-> r = admin \/ r = gestor)
    /\ (isAdmin r = true <-> r = admin).
Proof.
  intros r; destruct r; cbn; repeat split; auto; intros H;
    try discriminate H; try (destruct H as [H | H]; discriminate H).
Qed.

(** The flags mirror the suppliers policies for an actor holding one role:
    [canEdit] is the insert and update policy, [isAdmin] the delete policy. *)
Lemma capability_flags_mirror_suppliers_policies :
  forall (r : app_role) (u : UUID) (row : RowCtx),
    rls_allows (sole_role u r) (login u) suppliers INSERT row = canEdit r
    /\ rls_allows (sole_role u r) (login u) suppliers UPDATE row = canEdit r
    /\ rls_allows (sole_role u r) (login u) suppliers DELETE row = isAdmin r.
Proof.
  intros r u row. unfold rls_allows; cbn.
  rewrite String.eqb_refl. destruct r; cbn; auto.
Qed.

End Capabilities.

Section SignupProvisioning.
Import Provisioning Samples.

Lemma filter_nil_existsb {A : Type} (f : A -> bool) (l : list A) :
  filter f l = [] -> existsb f l = false.
Proof.
  induction l as [|a l IH]; simpl; [reflexivity|].
  destruct (f a); [discriminate | exact IH].
Qed.

Lemma filter_nil_app_singleton {A : Type} (f : A -> bool) (l : list A) (a : A) :
  filter f l = [] -> f a = true -> filter f (l ++ [a]) = [a].
Proof.
  intros Hl Ha. rewrite filter_app, Hl. simpl. now rewrite Ha.
Qed.

Lemma no_rows_no_role (roles : list user_role_row) (u : UUID) (r : app_role) :
  filter (fun x => String.eqb (ur_user_id x) u) roles = [] ->
  has_role roles u r = false.
Proof.
  unfold has_role. induction roles as [|x roles IH]; simpl; [reflexivity|].
  destruct (String.eqb (ur_user_id x) u); [discriminate|]. exact IH.
Qed.

Lemma insert_profile_fresh (db : Database) (row : profile_row) :
  existsb (fun p => String.eqb (p_id p) (p_id row)) (tbl_profiles db) = false ->
  existsb (fun p => String.eqb (p_user_id p) (p_user_id row)) (tbl_profiles db) = false ->
  insert_profile db row = Ok (set_profiles db (tbl_profiles db ++ [row])).
Proof. intros H1 H2. unfold insert_profile. now rewrite H1, H2. Qed.

Lemma insert_user_role_fresh (db : Database) (row : user_role_row) :
  existsb (fun r => String.eqb (ur_id r) (ur_id row)) (tbl_user_roles db) = false ->
  has_role (tbl_user_roles db) (ur_user_id row) (ur_role row) = false ->
  insert_user_role db row = Ok (set_user_roles db (tbl_user_roles db ++ [row])).
Proof. intros H1 H2. unfold insert_user_role. now rewrite H1, H2. Qed.

Lemma insert_notification_settings_fresh (db : Database)
    (row : notification_settings_row) :
  existsb (fun n => String.eqb (ns_id n) (ns_id row)) (tbl_notification_settings db) = false ->
  existsb (fun n => String.eqb (ns_user_id n) (ns_user_id row))
    (tbl_notification_settings db) = false ->
  insert_notification_settings db row
  = Ok (set_notification_settings db (tbl_notification_settings db ++ [row])).
Proof. intros H1 H2. unfold insert_notification_settings. now rewrite H1, H2. Qed.

Lemma insert_profile_duplicate (db : Database) (row : profile_row) :
  existsb (fun p => String.eqb (p_user_id p) (p_user_id row)) (tbl_profiles db) = true ->
  exists c : string, insert_profile db row = Err (unique_violation c).
Proof.
  intros H. unfold insert_profile. rewrite H. clear H.
  destruct (existsb _ (tbl_profiles db)); eexists; reflexivity.
Qed.

(** The run of the function on an identity with an e-mail address whose
    rows and generated keys are not in the three tables. *)
Lemma handle_new_user_fresh (db : Database) (NEW : auth_user) (email : string)
    (g : Defaults) :
  NEW_email NEW = Some email ->
  unused_ids db g ->
  existsb (fun p => String.eqb (p_user_id p) (NEW_id NEW)) (tbl_profiles db) = false ->
  has_role (tbl_user_roles db) (NEW_id NEW) visualizador = false ->
  existsb (fun n => String.eqb (ns_user_id n) (NEW_id NEW))
    (tbl_notification_settings db) = false ->
  handle_new_user db NEW g
  = Ok (set_notification_settings
          (set_user_roles
             (set_profiles db (tbl_profiles db ++ [new_profile NEW email g]))
             (tbl_user_roles db ++ [new_user_role NEW g]))
          (tbl_notification_settings db ++ [new_notification_settings NEW g])).
Proof.
  intros He (Hip & Hir & His) Hpe Hre Hse.
  unfold handle_new_user, insert_new_profile. rewrite He.
  rewrite (insert_profile_fresh db (new_profile NEW email g) Hip Hpe). unfold bind at 1.
  rewrite (insert_user_role_fresh
             (set_profiles db (tbl_profiles db ++ [new_profile NEW email g]))
             (new_user_role NEW g) Hir Hre). unfold bind at 1.
  cbn [tbl_user_roles set_profiles].
  rewrite (insert_notification_settings_fresh
             (set_user_roles
                (set_profiles db (tbl_profiles db ++ [new_profile NEW email g]))
                (tbl_user_roles db ++ [new_user_role NEW g]))
             (new_notification_settings NEW g) His Hse).
  reflexivity.
Qed.

(** When the function returns, the e-mail was not NULL and none of the six
    key checks fired. *)
Lemma handle_new_user_ok (db : Database) (NEW : auth_user) (g : Defaults)
    (db' : Database) :
  handle_new_user db NEW g = Ok db' ->
  exists email : string,
    NEW_email NEW = Some email
    /\ unused_ids db g
    /\ existsb (fun p => String.eqb (p_user_id p) (NEW_id NEW)) (tbl_profiles db) = false
    /\ has_role (tbl_user_roles db) (NEW_id NEW) visualizador = false
    /\ existsb (fun n => String.eqb (ns_user_id n) (NEW_id NEW))
         (tbl_notification_settings db) = false.
Proof.
  intros Hrun. unfold handle_new_user, insert_new_profile in Hrun.
  destruct (NEW_email NEW) as [email|]; [|discriminate Hrun].
  exists email. split; [reflexivity|].
  unfold insert_profile in Hrun.
  destruct (existsb (fun p => String.eqb (p_id p) (p_id (new_profile NEW email g)))
              (tbl_profiles db)) eqn:H1; [discriminate Hrun|].
  destruct (existsb (fun p => String.eqb (p_user_id p) (p_user_id (new_profile NEW email g)))
              (tbl_profiles db)) eqn:H2; [discriminate Hrun|].
  unfold bind at 1 in Hrun. unfold insert_user_role in Hrun.
  cbn [tbl_user_roles set_profiles] in Hrun.
  destruct (existsb (fun r => String.eqb (ur_id r) (ur_id (new_user_role NEW g)))
              (tbl_user_roles db)) eqn:H3; [discriminate Hrun|].
  destruct (has_role (tbl_user_roles db) (ur_user_id (new_user_role NEW g))
              (ur_role (new_user_role NEW g))) eqn:H4; [discriminate Hrun|].
  unfold bind at 1 in Hrun. unfold insert_notification_settings in Hrun.
  cbn [tbl_notification_settings set_profiles set_user_roles] in Hrun.
  destruct (existsb (fun n => String.eqb (ns_id n) (ns_id (new_notification_settings NEW g)))
              (tbl_notification_settings db)) eqn:H5; [discriminate Hrun|].
  destruct (existsb (fun n => String.eqb (ns_user_id n)
                                (ns_user_id (new_notification_settings NEW g)))
              (tbl_notification_settings db)) eqn:H6; [discriminate Hrun|].
  unfold unused_ids. repeat split; assumption.
Qed.

(** A raised error is the NOT NULL violation of [profiles.email] when the
    identity has no e-mail, and a unique violation otherwise. *)
Lemma handle_new_user_error (db : Database) (NEW : auth_user) (g : Defaults)
    (e : SqlError) :
  handle_new_user db NEW g = Err e ->
  match NEW_email NEW with
  | None => e = not_null_violation "email"
  | Some _ => exists c : string, e = unique_violation c
  end.
Proof.
  unfold handle_new_user, insert_new_profile.
  destruct (NEW_email NEW) as [email|]; [|cbn; congruence].
  unfold insert_profile.
  destruct (existsb _ (tbl_profiles db)); [cbn; intros [= <-]; eauto|].
  destruct (existsb _ (tbl_profiles db)); [cbn; intros [= <-]; eauto|].
  unfold bind at 1. unfold insert_user_role. cbn [tbl_user_roles set_profiles].
  destruct (existsb _ (tbl_user_roles db)); [cbn; intros [= <-]; eauto|].
  destruct (has_role _ _ _); [cbn; intros [= <-]; eauto|].
  unfold bind at 1. unfold insert_notification_settings.
  cbn [tbl_notification_settings set_profiles set_user_roles].
  destruct (existsb _ (tbl_notification_settings db)); [cbn; intros [= <-]; eauto|].
  destruct (existsb _ (tbl_notification_settings db)); [cbn; intros [= <-]; eauto|].
  cbn. discriminate.
Qed.

(** C5. Provisioning a new identity that carries an e-mail address succeeds
    and adds exactly three rows: one profile carrying the identity's name and
    e-mail with department and phone empty, one [visualizador] role row and
    one notification-settings row with the column defaults; no other table
    changes. Running the function again for the same identity raises (a unique
    violation when it is offered an e-mail again), so the transaction leaves
    the database as it was and no duplicate row appears. *)
Theorem provisioning_creates_three_records :
  forall (db : Database) (NEW : auth_user) (email : string) (g : Defaults),
    NEW_email NEW = Some email ->
    new_identity db (NEW_id NEW) ->
    unused_ids db g ->
    exists db1 : Database,
      handle_new_user db NEW g = Ok db1
      /\ on_auth_user_created db NEW g = db1
      /\ row_count db1 = row_count db + 3
      /\ tbl_profiles db1 = tbl_profiles db ++ [new_profile NEW email g]
      /\ tbl_user_roles db1 = tbl_user_roles db ++ [new_user_role NEW g]
      /\ tbl_notification_settings db1
         = tbl_notification_settings db ++ [new_notification_settings NEW g]
      /\ tbl_documents db1 = tbl_documents db
      /\ tbl_audit_logs db1 = tbl_audit_logs db
      /\ tbl_storage_objects db1 = tbl_storage_objects db
      /\ profiles_of db1 (NEW_id NEW)
         = [ {| p_id := gen_profile_id g;
                p_user_id := NEW_id NEW;
                p_full_name := match NEW_meta_full_name NEW with
                               | Some n => n
                               | None => ""
                               end;
                p_email := email;
                p_avatar_url := None;
                p_department := None;
                p_phone := None;
                p_created_at := now g;
                p_updated_at := now g |} ]
      /\ roles_of db1 (NEW_id NEW)
         = [ {| ur_id := gen_role_id g;
                ur_user_id := NEW_id NEW;
                ur_role := visualizador;
                ur_created_at := now g |} ]
      /\ settings_of db1 (NEW_id NEW)
         = [ {| ns_id := gen_settings_id g;
                ns_user_id := NEW_id NEW;
                ns_email_enabled := Some true;
                ns_days_before_expiry := Some [7; 15; 30]%Z;
                ns_weekly_summary := Some true;
                ns_created_at := now g;
                ns_updated_at := now g |} ]
      /\ forall (NEW' : auth_user) (g' : Defaults),
           NEW_id NEW' = NEW_id NEW ->
           (exists e : SqlError, handle_new_user db1 NEW' g' = Err e)
           /\ (NEW_email NEW' <> None ->
               exists c : string, handle_new_user db1 NEW' g' = Err (unique_violation c))
           /\ on_auth_user_created db1 NEW' g' = db1.
Proof.
  intros db NEW email g He (Hp & Hr & Hs) Hids.
  unfold profiles_of, roles_of, settings_of in Hp, Hr, Hs.
  pose proof (filter_nil_existsb _ _ Hp) as Hpe.
  pose proof (no_rows_no_role _ _ visualizador Hr) as Hre.
  pose proof (filter_nil_existsb _ _ Hs) as Hse.
  pose proof (handle_new_user_fresh db NEW email g He Hids Hpe Hre Hse) as Hrun.
  eexists. split; [exact Hrun|].
  split; [unfold on_auth_user_created; now rewrite Hrun|].
  split.
  { unfold row_count; cbn. rewrite !length_app. cbn. lia. }
  do 6 (split; [reflexivity|]).
  split.
  { unfold profiles_of; cbn. apply filter_nil_app_singleton; [exact Hp|].
    cbn. apply String.eqb_refl. }
  split.
  { unfold roles_of; cbn. apply filter_nil_app_singleton; [exact Hr|].
    cbn. apply String.eqb_refl. }
  split.
  { unfold settings_of; cbn. apply filter_nil_app_singleton; [exact Hs|].
    cbn. apply String.eqb_refl. }
  intros NEW' g' Hid.
  assert (Hdup : existsb (fun p => String.eqb (p_user_id p) (NEW_id NEW'))
                   (tbl_profiles db ++ [new_profile NEW email g]) = true).
  { rewrite existsb_app. cbn. rewrite Hid, String.eqb_refl. now rewrite orb_true_r. }
  assert (Herr : exists e, handle_new_user
                   (set_notification_settings
                      (set_user_roles
                         (set_profiles db (tbl_profiles db ++ [new_profile NEW email g]))
                         (tbl_user_roles db ++ [new_user_role NEW g]))
                      (tbl_notification_settings db ++ [new_notification_settings NEW g]))
                   NEW' g' = Err e
                   /\ (NEW_email NEW' <> None -> exists c, e = unique_violation c)).
  { unfold handle_new_user, insert_new_profile.
    destruct (NEW_email NEW') as [email'|].
    - destruct (insert_profile_duplicate
                  (set_notification_settings
                     (set_user_roles
                        (set_profiles db (tbl_profiles db ++ [new_profile NEW email g]))
                        (tbl_user_roles db ++ [new_user_role NEW g]))
                     (tbl_notification_settings db ++ [new_notification_settings NEW g]))
                  (new_profile NEW' email' g') Hdup) as [c Hc].
      exists (unique_violation c). rewrite Hc. split; [reflexivity|]. intros _. now exists c.
    - exists (not_null_violation "email"). split; [reflexivity|]. intros H. now elim H. }
  destruct Herr as (e & Hrun' & Hkind).
  split; [now exists e|].
  split.
  { intros Hmail. destruct (Hkind Hmail) as [c ->]. now exists c. }
  unfold on_auth_user_created. now rewrite Hrun'.
Qed.

Lemma provisioning_creates_three_records_witness :
  exists db1 : Database,
    handle_new_user empty_db sample_identity sample_defaults = Ok db1
    /\ row_count db1 = 3
    /\ on_auth_user_created db1 sample_identity sample_defaults = db1.
Proof.
  destruct (provisioning_creates_three_records empty_db sample_identity
              "ana@example.com" sample_defaults)
    as (db1 & Hrun & _ & Hcount & _ & _ & _ & _ & _ & _ & _ & _ & _ & Hagain).
  - reflexivity.
  - repeat split; reflexivity.
  - repeat split; reflexivity.
  - exists db1. split; [exact Hrun|]. split; [exact Hcount|].
    apply (Hagain sample_identity sample_defaults). reflexivity.
Defined.

(** The claim as first worded, for every new identity, fails on an identity
    without an e-mail address: [profiles.email] is NOT NULL and [NEW.email]
    is inserted as it is, so the function raises and the rolled-back
    transaction provisions nothing. *)
Lemma provisioning_fails_without_email :
  new_identity empty_db (NEW_id sample_identity_without_email)
  /\ unused_ids empty_db sample_defaults
  /\ handle_new_user empty_db sample_identity_without_email sample_defaults
     = Err (not_null_violation "email")
  /\ on_auth_user_created empty_db sample_identity_without_email sample_defaults
     = empty_db
  /\ ~ (exists db1 : Database,
          handle_new_user empty_db sample_identity_without_email sample_defaults = Ok db1).
Proof.
  repeat split; try reflexivity. intros [db1 H]. discriminate H.
Qed.

End SignupProvisioning.

Section Ordering.

Context {A : Type} (leb : A -> A -> bool).
Hypothesis leb_total : forall a b, leb a b = false -> leb b a = true.
Hypothesis leb_trans : forall a b c, leb a b = true -> leb b c = true -> leb a c = true.

Let precedes (a b : A) : Prop := leb a b = true.

Lemma insert_by_In (x y : A) (l : list A) :
  In y (insert_by leb x l) <-> y = x \/ In y l.
Proof.
  induction l as [|z l IH]; simpl.
  - intuition.
  - destruct (leb x z); simpl; [intuition|]. rewrite IH. intuition.
Qed.

Lemma insert_by_sorted (x : A) (l : list A) :
  StronglySorted precedes l -> StronglySorted precedes (insert_by leb x l).
Proof.
  induction 1 as [|z l Hs IH Hall]; simpl.
  - constructor; constructor.
  - destruct (leb x z) eqn:Hxz.
    + constructor; [constructor; assumption|].
      constructor; [exact Hxz|].
      eapply Forall_impl; [|exact Hall]. intros b Hb. exact (leb_trans _ _ _ Hxz Hb).
    + constructor; [exact IH|].
      apply Forall_forall. intros b Hb. apply insert_by_In in Hb.
      destruct Hb as [-> | Hb]; [exact (leb_total _ _ Hxz)|].
      rewrite Forall_forall in Hall. exact (Hall b Hb).
Qed.

Lemma sort_by_sorted (l : list A) : StronglySorted precedes (sort_by leb l).
Proof.
  induction l as [|x l IH]; simpl; [constructor|]. now apply insert_by_sorted.
Qed.

Lemma sort_by_In (y : A) (l : list A) : In y (sort_by leb l) <-> In y l.
Proof.
  induction l as [|x l IH]; simpl; [reflexivity|].
  rewrite insert_by_In, IH. intuition.
Qed.

End Ordering.

Lemma In_firstn {A : Type} (n : nat) (l : list A) (x : A) : In x (firstn n l) -> In x l.
Proof.
  revert n. induction l as [|y l IH]; intros [|n]; simpl; try tauto.
  intros [-> | H]; [now left | right; eauto].
Qed.

Lemma firstn_sorted {A : Type} (R : A -> A -> Prop) (n : nat) (l : list A) :
  StronglySorted R l -> StronglySorted R (firstn n l).
Proof.
  intros Hs. revert n. induction Hs as [|z l Hs IH Hall]; intros [|n]; simpl;
    try constructor.
  - apply IH.
  - apply Forall_forall. intros b Hb. rewrite Forall_forall in Hall.
    apply Hall. exact (In_firstn n l b Hb).
Qed.

Lemma StronglySorted_weaken {A : Type} (R R' : A -> A -> Prop) (l : list A) :
  (forall a b, R a b -> R' a b) -> StronglySorted R l -> StronglySorted R' l.
Proof.
  intros HR. induction 1 as [|x l Hs IH Hall]; constructor; [exact IH|].
  eapply Forall_impl; [|exact Hall]. intros b. apply HR.
Qed.

Lemma map_sorted {A B : Type} (f : A -> B) (R : B -> B -> Prop) (l : list A) :
  StronglySorted R (map f l) -> StronglySorted (fun a b => R (f a) (f b)) l.
Proof.
  induction l as [|x l IH]; simpl; intros H; [constructor|].
  inversion H as [|? ? Hs Hall]; subst. constructor; [now apply IH|].
  rewrite Forall_forall in *. intros b Hb. apply Hall. now apply in_map.
Qed.

Section Substrings.

Lemma starts_with_spec (t s : string) :
  starts_with t s = true <-> exists post, s = (t ++ post)%string.
Proof.
  revert s. induction t as [|a t IH]; intros s; simpl.
  - split; [intros _; now exists s | reflexivity].
  - destruct s as [|b s]; simpl.
    + split; [discriminate | intros [post H]; discriminate H].
    + rewrite andb_true_iff, IH. split.
      * intros [Hab [post ->]]. apply Ascii.eqb_eq in Hab. subst. now exists post.
      * intros [post H]. injection H as -> ->. split; [apply Ascii.eqb_refl | now exists post].
Qed.

Lemma includes_spec (s t : string) :
  includes s t = true <-> exists pre post, s = (pre ++ t ++ post)%string.
Proof.
  induction s as [|c s IH]; simpl.
  - rewrite orb_false_r, starts_with_spec. split.
    + intros [post ->]. now exists "", post.
    + intros [pre [post H]]. destruct pre; simpl in H; [now exists post | discriminate H].
  - rewrite orb_true_iff, starts_with_spec, IH. split.
    + intros [[post ->] | [pre [post ->]]].
      * now exists "", post.
      * now exists (String c pre), post.
    + intros [pre [post H]]. destruct pre as [|c' pre]; simpl in H.
      * left. now exists post.
      * right. injection H as -> ->. now exists pre, post.
Qed.

Lemma includes_empty (s : string) : includes s "" = true.
Proof. apply includes_spec. now exists "", s. Qed.

End Substrings.

Section Requests.
Import Client.

(** A request that meets no outage runs its statement. *)
Lemma request_answered {A : Type} (req : Request)
    (exec : RLS.Session -> Database -> (string + A) * Database) (w : World) :
  hd false (outages w) = false ->
  request req exec w
  = match exec (session w) (db w) with
    | (inr a, d') =>
        (succeeded a,
         {| db := d'; session := session w; outages := tl (outages w);
            trace := trace w ++ [Requested req] |})
    | (inl m, _) =>
        (failed m,
         {| db := db w; session := session w; outages := tl (outages w);
            trace := trace w ++ [Requested req] |})
    end.
Proof.
  unfold request. destruct (outages w) as [|[|] o]; simpl; intros H;
    [reflexivity | discriminate H | reflexivity].
Qed.

(** A request that meets an outage fails and leaves the database alone. *)
Lemma request_outage {A : Type} (req : Request)
    (exec : RLS.Session -> Database -> (string + A) * Database) (w : World) :
  hd false (outages w) = true ->
  request req exec w
  = (failed "Failed to fetch",
     {| db := db w; session := session w; outages := tl (outages w);
        trace := trace w ++ [Requested req] |}).
Proof.
  unfold request. destruct (outages w) as [|[|] o]; simpl; intros H;
    [discriminate H | reflexivity | discriminate H].
Qed.

(** No request writes the session. *)
Lemma request_session {A : Type} (req : Request)
    (exec : RLS.Session -> Database -> (string + A) * Database) (w : World) :
  session (snd (request req exec w)) = session w.
Proof.
  unfold request. destruct (outages w) as [|[|] o]; simpl;
    try reflexivity; destruct (exec (session w) (db w)) as [[m|a] d']; reflexivity.
Qed.

End Requests.

Section AuditView.
Import Client AuditLogsPage Samples.

Lemma newer_first_total (a b : audit_log_row) :
  newer_first a b = false -> newer_first b a = true.
Proof. unfold newer_first. rewrite Z.leb_gt, Z.leb_le. lia. Qed.

Lemma newer_first_trans (a b c : audit_log_row) :
  newer_first a b = true -> newer_first b c = true -> newer_first a c = true.
Proof. unfold newer_first. rewrite !Z.leb_le. lia. Qed.

Lemma recent_audit_logs_length (s : RLS.Session) (d : Database) :
  List.length (recent_audit_logs s d) <= 500.
Proof. unfold recent_audit_logs. apply firstn_le_length. Qed.

Lemma recent_audit_logs_sorted (s : RLS.Session) (d : Database) :
  StronglySorted (fun a b => (al_created_at b <= al_created_at a)%Z)
    (recent_audit_logs s d).
Proof.
  unfold recent_audit_logs. apply firstn_sorted.
  eapply StronglySorted_weaken;
    [| apply (sort_by_sorted newer_first newer_first_total newer_first_trans)].
  intros a b H. now apply Z.leb_le.
Qed.

Arguments recent_audit_logs : simpl never.
Arguments profile_names : simpl never.

Lemma fetchData_answered (w : World) (st : State) :
  hd false (outages w) = false ->
  hd false (tl (outages w)) = false ->
  run fetchData w st
  = ({| db := db w; session := session w; outages := tl (tl (outages w));
        trace := (trace w ++ [Requested (ReqSelect RLS.audit_logs)])
                 ++ [Requested (ReqSelect RLS.profiles)] |},
     setLoading false
       (setLogs
          (map (with_user_name (Some (profile_names (session w) (db w))))
             (recent_audit_logs (session w) (db w)))
          (setProfiles (profile_names (session w) (db w)) st))).
Proof.
  intros H1 H2.
  unfold run, fetchData, try_catch_finally, bind, await, select_recent_audit_logs,
    select_profile_names.
  cbn [fst snd]. rewrite (request_answered _ _ w H1). cbn.
  rewrite request_answered by exact H2. reflexivity.
Qed.

(** When either request fails the view keeps its entries and reports the
    failure. *)
Lemma fetchData_failed (w : World) (st : State) :
  hd false (outages w) = true \/ hd false (tl (outages w)) = true ->
  logs (snd (run fetchData w st)) = logs st
  /\ profiles (snd (run fetchData w st)) = profiles st
  /\ db (fst (run fetchData w st)) = db w
  /\ trace (fst (run fetchData w st))
     = trace w ++ [Requested (ReqSelect RLS.audit_logs);
                   Requested (ReqSelect RLS.profiles);
                   ConsoleError "Error fetching audit logs:";
                   ToastError "Erro ao carregar logs de auditoria"].
Proof.
  intros H. destruct w as [d s o tr].
  unfold run, fetchData, try_catch_finally, bind, await, select_recent_audit_logs,
    select_profile_names, request.
  destruct o as [|[|] [|[|] o]]; cbn in *;
    try (destruct H as [H | H]; discriminate H);
    rewrite <- ?app_assoc; cbn; auto.
Qed.

Lemma no_match_no_profile (ps : list Profile) (l : audit_log_row) :
  (forall p, In p ps -> al_user_id l <> Some (user_id p)) ->
  find_profile (Some ps) l = None.
Proof.
  intros H. unfold find_profile.
  destruct (find _ ps) as [p|] eqn:Hf; [|reflexivity].
  apply find_some in Hf. destruct Hf as [Hin Hid]. exfalso. apply (H p Hin).
  unfold opt_uuid_is in Hid. destruct (al_user_id l) as [x|]; [|discriminate Hid].
  apply String.eqb_eq in Hid. now subst.
Qed.

(** C6 (amended). When both requests are answered, the audit view holds
    at most 500 entries, newest first, each one a row of the audit table, and
    every entry whose actor has no profile among those fetched, a null actor
    included, carries the actor label "Sistema". *)
Theorem audit_query_bounded_ordered_labelled :
  forall (w : World) (st : State),
    hd false (outages w) = false ->
    hd false (tl (outages w)) = false ->
    let st' := snd (run fetchData w st) in
    List.length (logs st') <= 500
    /\ StronglySorted not_older (logs st')
    /\ (forall l, In l (logs st') -> In (log l) (tbl_audit_logs (db w)))
    /\ (forall l, In l (logs st') -> no_matching_profile (profiles st') l ->
                  user_name l = Some "Sistema")
    /\ (forall l, In l (logs st') -> al_user_id (log l) = None ->
                  user_name l = Some "Sistema").
Proof.
  intros w st H1 H2 st'. subst st'. rewrite (fetchData_answered w st H1 H2).
  cbn [snd logs profiles setLoading setLogs setProfiles].
  assert (Hlabel : forall l,
             In l (map (with_user_name (Some (profile_names (session w) (db w))))
                     (recent_audit_logs (session w) (db w))) ->
             no_matching_profile (profile_names (session w) (db w)) l ->
             user_name l = Some "Sistema").
  { intros l Hin Hno. apply in_map_iff in Hin. destruct Hin as (r & <- & _).
    unfold no_matching_profile in Hno. cbn [log with_user_name] in Hno.
    cbn [user_name with_user_name]. now rewrite (no_match_no_profile _ r Hno). }
  split; [rewrite length_map; apply recent_audit_logs_length|].
  split.
  { apply map_sorted with (f := log) (R := fun a b => (al_created_at b <= al_created_at a)%Z).
    rewrite map_map. cbn. rewrite map_id. apply recent_audit_logs_sorted. }
  split.
  { intros l Hin. apply in_map_iff in Hin. destruct Hin as (r & <- & Hr). cbn.
    unfold recent_audit_logs in Hr. apply In_firstn in Hr.
    apply sort_by_In in Hr. apply filter_In in Hr. tauto. }
  split; [exact Hlabel|].
  intros l Hin Hnull. apply Hlabel; [exact Hin|].
  intros p _. rewrite Hnull. discriminate.
Qed.

Lemma audit_query_bounded_ordered_labelled_witness :
  let st' := snd (run fetchData sample_audit_world initial) in
  List.length (logs st') <= 500
  /\ StronglySorted not_older (logs st')
  /\ (forall l, In l (logs st') -> In (log l) (tbl_audit_logs (db sample_audit_world)))
  /\ (forall l, In l (logs st') -> no_matching_profile (profiles st') l ->
                user_name l = Some "Sistema")
  /\ (forall l, In l (logs st') -> al_user_id (log l) = None ->
                user_name l = Some "Sistema").
Proof.
  apply (audit_query_bounded_ordered_labelled sample_audit_world initial); reflexivity.
Defined.

(** C6 as stated fails: an entry with a null actor is fetched and its label
    is "Sistema", not "System". *)
Lemma audit_label_is_not_System :
  exists l : AuditLog,
    In l (logs (snd (run fetchData sample_audit_world initial)))
    /\ al_user_id (log l) = None
    /\ no_matching_profile (profiles (snd (run fetchData sample_audit_world initial))) l
    /\ user_name l = Some "Sistema"
    /\ user_name l <> Some "System".
Proof.
  exists {| log := sample_audit_row "a1" None 10%Z; user_name := Some "Sistema" |}.
  split; [vm_compute; tauto|].
  split; [reflexivity|].
  split; [intros p Hp; vm_compute in Hp; contradiction|].
  split; [reflexivity | discriminate].
Qed.

End AuditView.

Section AuditFilter.
Import Client AuditLogsPage.

Variable toLowerCase : string -> string.

Lemma filter_all {A : Type} (f : A -> bool) (l : list A) :
  (forall x, In x l -> f x = true) -> filter f l = l.
Proof.
  induction l as [|a l IH]; simpl; intros H; [reflexivity|].
  rewrite (H a (or_introl eq_refl)). f_equal. apply IH. intros x Hx. apply H. now right.
Qed.




End AuditFilter.

Section RoleResolution.
Import Auth.

Lemma get_user_role_no_rows (roles : list user_role_row) (u : UUID) :
  filter (fun r => String.eqb (ur_user_id r) u) roles = [] ->
  get_user_role_rows roles u = [] /\ get_user_role roles u = None.
Proof.
  intros H. unfold get_user_role, get_user_role_rows. now rewrite H.
Qed.

Lemma get_user_role_is_held (roles : list user_role_row) (u : UUID) (r : app_role) :
  get_user_role roles u = Some r -> has_role roles u r = true.
Proof.
  unfold get_user_role, get_user_role_rows, has_role.
  induction roles as [|x roles IH]; simpl; [discriminate|].
  destruct (String.eqb (ur_user_id x) u) eqn:Hx; simpl.
  - intros H. injection H as <-. now rewrite app_role_beq_refl.
  - exact IH.
Qed.

(** C4. Role resolution yields at most one role for an actor. When the
    actor has no role row, or when the lookup fails, the resolved role is
    [visualizador] and neither [canEdit] nor [isAdmin] is granted; a role that
    is resolved from a row is one the actor holds. The user list applies the
    same fallback to a profile without a role row. *)
Theorem role_resolution_fails_closed :
  forall (roles : list user_role_row) (u : UUID),
    List.length (get_user_role_rows roles u) <= 1
    /\ (filter (fun r => String.eqb (ur_user_id r) u) roles = [] ->
        get_user_role roles u = None
        /\ resolve_role (role_lookup roles false u) = visualizador
        /\ canEdit (resolve_role (role_lookup roles false u)) = false
        /\ isAdmin (resolve_role (role_lookup roles false u)) = false)
    /\ (resolve_role (role_lookup roles true u) = visualizador
        /\ canEdit (resolve_role (role_lookup roles true u)) = false
        /\ isAdmin (resolve_role (role_lookup roles true u)) = false)
    /\ (forall r, get_user_role roles u = Some r ->
                  resolve_role (role_lookup roles false u) = r
                  /\ has_role roles u r = true)
    /\ (forall profile : profile_row,
          p_user_id profile = u ->
          filter (fun r => String.eqb (ur_user_id r) u) roles = [] ->
          UsersPage.role (UsersPage.with_role_of (Some roles) profile) = visualizador
          /\ UsersPage.role_id (UsersPage.with_role_of (Some roles) profile) = "").
Proof.
  intros roles u. split; [apply firstn_le_length|].
  split.
  { intros H. destruct (get_user_role_no_rows roles u H) as [Hrows Hnone].
    unfold role_lookup. rewrite Hrows. cbn. auto. }
  split; [cbn; auto|].
  split.
  { intros r Hr. split; [|now apply get_user_role_is_held].
    unfold role_lookup, get_user_role in *.
    destruct (get_user_role_rows roles u) as [|r' rest]; [discriminate Hr|].
    cbn in *. congruence. }
  intros profile Hu Hnone. unfold UsersPage.with_role_of, UsersPage.find_role.
  rewrite Hu. cbn.
  destruct (find _ roles) as [x|] eqn:Hf; [|split; reflexivity].
  apply find_some in Hf. destruct Hf as [Hin Hx].
  assert (In x (filter (fun r => String.eqb (ur_user_id r) u) roles))
    by (apply filter_In; now split).
  rewrite Hnone in H. destruct H.
Qed.

End RoleResolution.

Section SelfRoleChange.
Import Client UsersPage.

(** C8. When the user whose role is to be edited is the acting user,
    [openRoleDialog] only shows an error: the component state is untouched,
    so the dialog does not open and no user is selected for [handleRoleChange],
    the database is untouched, and the only event is the error toast, so no
    request at all is sent. *)
Theorem self_role_change_rejected :
  forall (actor : UUID) (target : UserWithRole) (w : World) (st : State),
    user_id target = actor ->
    let w' := fst (run (openRoleDialog (Some actor) target) w st) in
    let st' := snd (run (openRoleDialog (Some actor) target) w st) in
    st' = st
    /\ isDialogOpen st' = isDialogOpen st
    /\ selectedUser st' = selectedUser st
    /\ db w' = db w
    /\ trace w' = trace w ++ [ToastError "Você não pode alterar sua própria permissão"]
    /\ (forall q, In (Requested q) (trace w') -> In (Requested q) (trace w)).
Proof.
  intros actor target w st Hself. cbn zeta.
  unfold run, openRoleDialog, opt_uuid_is.
  rewrite Hself, String.eqb_refl. cbn.
  repeat split; try reflexivity.
  intros q Hq. apply in_app_or in Hq. destruct Hq as [Hq | [Hq | []]];
    [exact Hq | discriminate Hq].
Qed.

End SelfRoleChange.

Section UserList.
Import Client UsersPage.

Arguments profiles_by_name : simpl never.
Arguments visible_user_roles : simpl never.
Arguments update_user_role_statement : simpl never.

(** The three ways [fetchUsers] ends: the first request fails, the second
    fails, or both are answered and the list is rebuilt. *)
Lemma fetchUsers_run (w : World) (st : State) :
  run fetchUsers w st
  = if hd false (outages w) then
      ({| db := db w; session := session w; outages := tl (outages w);
          trace := trace w ++ [Requested (ReqSelect RLS.profiles);
                               ConsoleError "Error fetching users:";
                               ToastError "Erro ao carregar usuários"] |},
       setLoading false st)
    else if hd false (tl (outages w)) then
      ({| db := db w; session := session w; outages := tl (tl (outages w));
          trace := trace w ++ [Requested (ReqSelect RLS.profiles);
                               Requested (ReqSelect RLS.user_roles);
                               ConsoleError "Error fetching users:";
                               ToastError "Erro ao carregar usuários"] |},
       setLoading false st)
    else
      ({| db := db w; session := session w; outages := tl (tl (outages w));
          trace := trace w ++ [Requested (ReqSelect RLS.profiles);
                               Requested (ReqSelect RLS.user_roles)] |},
       setLoading false
         (setUsers
            (map (with_role_of (Some (visible_user_roles (session w) (db w))))
               (profiles_by_name (session w) (db w)))
            st)).
Proof.
  destruct w as [d s o tr].
  unfold run, fetchUsers, try_catch_finally, bind, await, select_profiles_by_name,
    select_user_roles, request, effect, emit, set, throw_if_error, throw, ret.
  destruct o as [|[|] [|[|] o]]; cbn; rewrite <- ?app_assoc; cbn; reflexivity.
Qed.

Lemma fetchUsers_returns (ws : World * State) :
  fetchUsers ws = (inr tt, run fetchUsers (fst ws) (snd ws)).
Proof.
  destruct ws as [[d s o tr] st].
  unfold run, fetchUsers, try_catch_finally, bind, await, select_profiles_by_name,
    select_user_roles, request, effect, emit, set, throw_if_error, throw, ret.
  destruct o as [|[|] [|[|] o]]; cbn; reflexivity.
Qed.

Arguments fetchUsers : simpl never.

(** A refetch reads: it leaves the database, the session and the dialog
    alone, and reports at most its own failure. *)
Lemma fetchUsers_effect (w : World) (st : State) :
  let w' := fst (run fetchUsers w st) in
  let st' := snd (run fetchUsers w st) in
  db w' = db w
  /\ session w' = session w
  /\ selectedUser st' = selectedUser st
  /\ newRole st' = newRole st
  /\ isDialogOpen st' = isDialogOpen st
  /\ updating st' = updating st
  /\ exists evs,
       trace w' = trace w ++ Requested (ReqSelect RLS.profiles) :: evs
       /\ forall e, In e evs ->
            e = Requested (ReqSelect RLS.user_roles)
            \/ e = ConsoleError "Error fetching users:"
            \/ e = ToastError "Erro ao carregar usuários".
Proof.
  cbn zeta. rewrite fetchUsers_run.
  destruct (hd false (outages w)); [|destruct (hd false (tl (outages w)))]; cbn;
    repeat (split; [reflexivity|]); eexists; (split; [reflexivity|]);
    cbn; intros e He; intuition.
Qed.

(** What [handleRoleChange] does once a user and a role are selected. *)
Lemma handleRoleChange_run (w : World) (st : State) (selected : UserWithRole)
    (new_role : app_role) :
  selectedUser st = Some selected ->
  newRole st = Some new_role ->
  run handleRoleChange w st
  = let sent := trace w ++ [Requested (ReqUpdate RLS.user_roles (user_id selected))] in
    let rejected :=
      ({| db := db w; session := session w; outages := tl (outages w);
          trace := sent ++ [ConsoleError "Error updating role:";
                            ToastError "Erro ao atualizar permissão"] |},
       setUpdating false (setUpdating true st)) in
    if hd false (outages w) then rejected
    else
      match update_user_role_statement (user_id selected) new_role (session w) (db w) with
      | (inl _, _) => rejected
      | (inr _, d') =>
          let done := run fetchUsers
                        {| db := d'; session := session w; outages := tl (outages w);
                           trace := sent ++ [ToastSuccess
                                               (role_updated_message selected new_role)] |}
                        (setNewRole None
                           (setSelectedUser None
                              (setIsDialogOpen false (setUpdating true st)))) in
          (fst done, setUpdating false (snd done))
      end.
Proof.
  intros Hsel Hnew. destruct w as [d s o tr].
  unfold run, handleRoleChange. cbn [snd fst]. rewrite Hsel, Hnew.
  unfold try_catch_finally, bind, await, update_user_role, request, set, effect, emit,
    throw_if_error, throw, ret.
  cbn [fst snd outages db session trace hd tl].
  destruct o as [|[|] o]; cbn [hd tl].
  - destruct (update_user_role_statement _ _ s d) as [[m|[]] d']; cbn;
      [rewrite <- ?app_assoc; cbn; reflexivity|].
    rewrite fetchUsers_returns. cbn. reflexivity.
  - cbn. rewrite <- ?app_assoc. cbn. reflexivity.
  - destruct (update_user_role_statement _ _ s d) as [[m|[]] d']; cbn;
      [rewrite <- ?app_assoc; cbn; reflexivity|].
    rewrite fetchUsers_returns. cbn. reflexivity.
Qed.

Lemma no_rows_no_hit (s : RLS.Session) (d : Database) (target : UUID)
    (rows : list user_role_row) :
  filter (fun r => String.eqb (ur_user_id r) target) rows = [] ->
  existsb (role_row_hit s d target) rows = false
  /\ forall role,
       map (fun r => if role_row_hit s d target r then with_role r role else r) rows = rows.
Proof.
  induction rows as [|x rows IH]; simpl; [auto|].
  unfold role_row_hit at 1 3.
  destruct (String.eqb (ur_user_id x) target); [discriminate|].
  intros H. destruct (IH H) as [He Hm]. cbn. split; [exact He|].
  intros role. now rewrite Hm.
Qed.

(** An update that reaches no row raises nothing and writes nothing. *)
Lemma update_reaches_no_row (s : RLS.Session) (d : Database) (target : UUID)
    (role : app_role) :
  filter (fun r => String.eqb (ur_user_id r) target) (tbl_user_roles d) = [] ->
  update_user_role_statement target role s d = (inr tt, d).
Proof.
  intros H. unfold update_user_role_statement.
  destruct (no_rows_no_hit s d target (tbl_user_roles d) H) as [He Hm].
  rewrite He, Hm. cbn. now destruct d.
Qed.

Lemma find_in_filter_none {A : Type} (f g : A -> bool) (l : list A) :
  filter f l = [] -> find f (filter g l) = None.
Proof.
  induction l as [|a l IH]; simpl; [reflexivity|].
  destruct (f a) eqn:Hf; [discriminate|]. intros H.
  destruct (g a); simpl; [rewrite Hf|]; now apply IH.
Qed.

(** C10. A role change submitted for a user without any role row reaches
    no row, yet is reported as a success: the request is answered without an
    error, the database is unchanged and the user still resolves to the
    [visualizador] fallback, a success toast is shown, the dialog is closed
    and cleared, the list is refetched, and no error of the update is logged
    or shown; once refetched, the list still shows the user as
    [visualizador]. *)
Theorem role_change_without_role_row :
  forall (w : World) (st : State) (target : UserWithRole) (new_role : app_role),
    selectedUser st = Some target ->
    newRole st = Some new_role ->
    filter (fun r => String.eqb (ur_user_id r) (user_id target))
      (tbl_user_roles (db w)) = [] ->
    hd false (outages w) = false ->
    let w' := fst (run handleRoleChange w st) in
    let st' := snd (run handleRoleChange w st) in
    error (fst (update_user_role (user_id target) new_role w)) = None
    /\ db w' = db w
    /\ get_user_role (tbl_user_roles (db w')) (user_id target) = None
    /\ Auth.resolve_role (Auth.role_lookup (tbl_user_roles (db w')) false (user_id target))
       = visualizador
    /\ isDialogOpen st' = false
    /\ selectedUser st' = None
    /\ newRole st' = None
    /\ updating st' = false
    /\ (exists evs,
          trace w'
          = trace w ++ [Requested (ReqUpdate RLS.user_roles (user_id target));
                        ToastSuccess (role_updated_message target new_role);
                        Requested (ReqSelect RLS.profiles)] ++ evs
          /\ ~ In (ConsoleError "Error updating role:") evs
          /\ ~ In (ToastError "Erro ao atualizar permissão") evs)
    /\ (hd false (tl (outages w)) = false ->
        hd false (tl (tl (outages w))) = false ->
        forall u, In u (users st') -> user_id u = user_id target ->
                  role u = visualizador /\ role_id u = "").
Proof.
  intros w st target new_role Hsel Hnew Hrows Hup. cbn zeta.
  rewrite (handleRoleChange_run w st target new_role Hsel Hnew). cbn zeta.
  rewrite Hup, (update_reaches_no_row _ _ _ _ Hrows).
  set (w1 := {| db := db w; session := session w; outages := tl (outages w);
                trace := (trace w ++ [Requested (ReqUpdate RLS.user_roles (user_id target))])
                         ++ [ToastSuccess (role_updated_message target new_role)] |}).
  set (st1 := setNewRole None (setSelectedUser None (setIsDialogOpen false
                (setUpdating true st)))).
  destruct (fetchUsers_effect w1 st1)
    as (Hdb & _ & Hs & Hn & Hd & _ & evs & Htr & Hevs).
  cbn [fst snd].
  split.
  { unfold update_user_role. rewrite (request_answered _ _ w Hup).
    now rewrite (update_reaches_no_row _ _ _ _ Hrows). }
  split; [exact Hdb|]. rewrite Hdb. cbn [db w1].
  destruct (get_user_role_no_rows _ _ Hrows) as [Hnorows Hnone].
  split; [exact Hnone|].
  split; [unfold Auth.role_lookup; now rewrite Hnorows|].
  split; [cbn; exact Hd|].
  split; [cbn; exact Hs|].
  split; [cbn; exact Hn|].
  split; [reflexivity|].
  split.
  { exists evs. split.
    - rewrite Htr. cbn [trace w1]. rewrite <- !app_assoc. reflexivity.
    - split; intros Hin; destruct (Hevs _ Hin) as [H | [H | H]]; discriminate H. }
  intros H2 H3 u Hu Hid.
  rewrite fetchUsers_run in Hu. cbn [outages w1] in Hu. rewrite H2, H3 in Hu.
  cbn [snd users setUpdating setLoading setUsers] in Hu.
  apply in_map_iff in Hu. destruct Hu as (p & <- & _).
  cbn [user_id with_role_of] in Hid.
  unfold with_role_of, find_role. cbn [role role_id]. rewrite Hid.
  unfold visible_user_roles. cbn [db session w1].
  rewrite (find_in_filter_none _ _ _ Hrows). split; reflexivity.
Qed.

Lemma no_self_update_app (actor : UUID) (tr evs : list Event) :
  no_self_update actor tr -> no_self_update actor evs -> no_self_update actor (tr ++ evs).
Proof.
  intros H1 H2 x Hx. apply in_app_or in Hx. destruct Hx; [now apply H1 | now apply H2].
Qed.

(** One interaction keeps the acting user out of the dialog and out of the
    role updates sent. *)
Lemma perform_keeps_self_out (actor : UUID) (a : Action) (w : World) (st : State) :
  selects_other actor st ->
  no_self_update actor (trace w) ->
  selects_other actor (snd (run (perform (Some actor) a) w st))
  /\ no_self_update actor (trace (fst (run (perform (Some actor) a) w st))).
Proof.
  intros Hsel Htr. destruct a as [u | r | | | ]; cbn [perform].
  - unfold run, openRoleDialog, opt_uuid_is.
    destruct (String.eqb actor (user_id u)) eqn:Hu; cbn.
    + split; [exact Hsel|]. apply no_self_update_app; [exact Htr|].
      intros x [Hx | []]. discriminate Hx.
    + split; [|exact Htr]. intros u' Hu'. cbn in Hu'. injection Hu' as <-.
      intros Heq. rewrite Heq, String.eqb_refl in Hu. discriminate Hu.
  - cbn. split; assumption.
  - cbn. split; assumption.
  - destruct (selectedUser st) as [selected|] eqn:Hs;
      [destruct (newRole st) as [new_role|] eqn:Hn|].
    + rewrite (handleRoleChange_run w st selected new_role Hs Hn). cbn zeta.
      assert (Hsent : no_self_update actor
                        (trace w ++ [Requested (ReqUpdate RLS.user_roles (user_id selected))])).
      { apply no_self_update_app; [exact Htr|].
        intros x [Hx | []]. injection Hx as <-. now apply Hsel. }
      assert (Hrejected : no_self_update actor
                ((trace w ++ [Requested (ReqUpdate RLS.user_roles (user_id selected))])
                 ++ [ConsoleError "Error updating role:";
                     ToastError "Erro ao atualizar permissão"])).
      { apply no_self_update_app; [exact Hsent|].
        intros x [Hx | [Hx | []]]; discriminate Hx. }
      destruct (hd false (outages w)); [split; [exact Hsel | exact Hrejected]|].
      destruct (update_user_role_statement _ _ (session w) (db w)) as [[m|[]] d'];
        [split; [exact Hsel | exact Hrejected]|].
      match goal with
      | |- context [run fetchUsers ?w1 ?st1] =>
          destruct (fetchUsers_effect w1 st1) as (_ & _ & Hs' & _ & _ & _ & evs & Hevs & Hkind)
      end.
      cbn [fst snd]. split.
      * intros u' Hu'.
        change (selectedUser (setUpdating false ?x)) with (selectedUser x) in Hu'.
        rewrite Hs' in Hu'. discriminate Hu'.
      * rewrite Hevs. cbn [trace]. apply no_self_update_app.
        -- apply no_self_update_app; [exact Hsent|]. intros x [Hx | []]. discriminate Hx.
        -- intros x [Hx | Hx]; [discriminate Hx|].
           destruct (Hkind _ Hx) as [H | [H | H]]; discriminate H.
    + unfold run, handleRoleChange. cbn [snd]. rewrite Hs, Hn. cbn. split; assumption.
    + unfold run, handleRoleChange. cbn [snd]. rewrite Hs. cbn. split; assumption.
  - destruct (fetchUsers_effect w st) as (_ & _ & Hs' & _ & _ & _ & evs & Hevs & Hkind).
    split.
    + intros u' Hu'. rewrite Hs' in Hu'. now apply Hsel.
    + rewrite Hevs. apply no_self_update_app; [exact Htr|].
      intros x [Hx | Hx]; [discriminate Hx|].
      destruct (Hkind _ Hx) as [H | [H | H]]; discriminate H.
Qed.

(** Whatever the acting user does in the users view, no role update is ever
    sent for their own user id. *)
Lemma no_role_update_on_self (actor : UUID) (actions : list Action) :
  forall (w : World) (st : State),
    selects_other actor st ->
    no_self_update actor (trace w) ->
    no_self_update actor (trace (fst (perform_all (Some actor) actions w st))).
Proof.
  induction actions as [|a actions IH]; intros w st Hsel Htr; cbn [perform_all].
  - exact Htr.
  - destruct (perform_keeps_self_out actor a w st Hsel Htr) as [Hsel' Htr'].
    destruct (run (perform (Some actor) a) w st) as [w' st']. now apply IH.
Qed.

End UserList.

Section FailedMutations.
Import Client DocumentUpload.

Arguments storage_remove : simpl never.
Arguments storage_upload : simpl never.
Arguments insert_document : simpl never.
Arguments delete_document : simpl never.
Arguments select_documents : simpl never.
Arguments documents_of : simpl never.

(** A request answered with an error has not written the database. *)
Lemma request_error_db {A : Type} (req : Request)
    (exec : RLS.Session -> Database -> (string + A) * Database) (w : World) (e : string) :
  error (fst (request req exec w)) = Some e ->
  db (snd (request req exec w)) = db w.
Proof.
  unfold request. destruct (outages w) as [|[|] o]; cbn; try reflexivity;
    destruct (exec (session w) (db w)) as [[m|a] d']; cbn; try reflexivity; discriminate.
Qed.

Lemma request_trace {A : Type} (req : Request)
    (exec : RLS.Session -> Database -> (string + A) * Database) (w : World) :
  trace (snd (request req exec w)) = trace w ++ [Requested req].
Proof.
  unfold request. destruct (outages w) as [|[|] o]; cbn; try reflexivity;
    destruct (exec (session w) (db w)) as [[m|a] d']; reflexivity.
Qed.

(** [handleDelete] in direct style. *)
Lemma handleDelete_run (doc : document_row) (w : World) (st : State) :
  run (handleDelete true doc) w st
  = let st0 := setDeleting (Some (d_id doc)) st in
    let report e w' :=
      (emit (ToastError (or_else e "Erro ao excluir documento"))
         (emit (ConsoleError "Error deleting document:") w'),
       setDeleting None st0) in
    let (removed, w1) := storage_remove [d_file_path doc] w in
    match error removed with
    | Some e => report e w1
    | None =>
        let (deleted, w2) := delete_document (d_id doc) w1 in
        match error deleted with
        | Some e => report e w2
        | None =>
            (emit (ToastSuccess "Documento excluído com sucesso!") w2,
             setDeleting None
               (setDocuments
                  (filter (fun d => negb (String.eqb (d_id d) (d_id doc))) (documents st0))
                  st0))
        end
    end.
Proof.
  unfold run, handleDelete, try_catch_finally, bind, await, set, effect, throw_if_error.
  cbn [negb fst snd].
  destruct (storage_remove [d_file_path doc] w) as [removed w1].
  destruct (error removed) as [e|]; cbn; [reflexivity|].
  destruct (delete_document (d_id doc) w1) as [deleted w2].
  destruct (error deleted) as [e|]; cbn; reflexivity.
Qed.

Lemma fetchDocuments_returns (props : Props) (ws : World * State) :
  fetchDocuments props ws = (inr tt, run (fetchDocuments props) (fst ws) (snd ws)).
Proof.
  destruct ws as [w st].
  unfold run, fetchDocuments, try_catch_finally, bind, await, set, effect, throw_if_error.
  cbn [fst snd].
  destruct (select_documents (contractId props) w) as [r w1].
  destruct (error r) as [e|]; cbn; reflexivity.
Qed.

Arguments fetchDocuments : simpl never.

(** [handleUpload] in direct style, for a file that passes the checks. *)
Lemma handleUpload_run (props : Props) (user : option UUID) (clock : Clock) (f : File)
    (w : World) (st : State) :
  type f = "application/pdf" ->
  (size f <= 50 * 1024 * 1024)%Z ->
  run (handleUpload props user clock (Some f)) w st
  = let st0 := setUploading true st in
    let report e w' :=
      (emit (ToastError (or_else e "Erro ao enviar documento"))
         (emit (ConsoleError "Error uploading document:") w'),
       setUploading false st0) in
    let (uploaded, w1) := storage_upload (filePath props clock f) w in
    match error uploaded with
    | Some e => report e w1
    | None =>
        let (inserted, w2) := insert_document (new_document props user clock f) w1 in
        match error inserted with
        | Some e => report e w2
        | None =>
            let done := run (fetchDocuments props)
                          (emit (ToastSuccess "Documento enviado com sucesso!") w2) st0 in
            (fst done, setUploading false (snd done))
        end
    end.
Proof.
  intros Htype Hsize.
  unfold run, handleUpload. rewrite Htype, String.eqb_refl. cbn [negb].
  destruct (50 * 1024 * 1024 <? size f)%Z eqn:Hlt; [apply Z.ltb_lt in Hlt; lia|].
  unfold try_catch_finally, bind, await, set, effect, throw_if_error.
  cbn [fst snd].
  destruct (storage_upload (filePath props clock f) w) as [uploaded w1].
  destruct (error uploaded) as [e|]; cbn; [reflexivity|].
  destruct (insert_document (new_document props user clock f) w1) as [inserted w2].
  destruct (error inserted) as [e|]; cbn; [reflexivity|].
  rewrite fetchDocuments_returns. reflexivity.
Qed.

Lemma storage_remove_documents (paths : list string) (w : World) :
  tbl_documents (db (snd (storage_remove paths w))) = tbl_documents (db w).
Proof.
  unfold storage_remove, request, storage_remove_statement.
  destruct (outages w) as [|[|] o]; reflexivity.
Qed.

Lemma storage_upload_documents (path : string) (w : World) :
  tbl_documents (db (snd (storage_upload path w))) = tbl_documents (db w).
Proof.
  unfold storage_upload, request, storage_upload_statement.
  destruct (outages w) as [|[|] o]; try reflexivity;
    destruct (negb _); try reflexivity; destruct (existsb _ _); reflexivity.
Qed.

(** A rejected role change: the update is the only request, the database and
    the dialog stay as they were, the failure is logged and shown. *)
Lemma handleRoleChange_rejected (w : World) (st : UsersPage.State)
    (selected : UsersPage.UserWithRole) (new_role : app_role) (e : string) :
  UsersPage.selectedUser st = Some selected ->
  UsersPage.newRole st = Some new_role ->
  error (fst (update_user_role (UsersPage.user_id selected) new_role w)) = Some e ->
  run UsersPage.handleRoleChange w st
  = ({| db := db w; session := session w; outages := tl (outages w);
        trace := (trace w
                  ++ [Requested (ReqUpdate RLS.user_roles (UsersPage.user_id selected))])
                 ++ [ConsoleError "Error updating role:";
                     ToastError "Erro ao atualizar permissão"] |},
     UsersPage.setUpdating false (UsersPage.setUpdating true st)).
Proof.
  intros Hsel Hnew Herr.
  rewrite (handleRoleChange_run w st selected new_role Hsel Hnew). cbn zeta.
  unfold update_user_role, request in Herr.
  destruct (outages w) as [|[|] o]; cbn [hd]; try reflexivity;
    destruct (update_user_role_statement _ _ (session w) (db w)) as [[m|[]] d'];
    try reflexivity; discriminate Herr.
Qed.

(** C9 (amended). When a backend call of a mutation fails, the handler
    shows an error, leaves the data of the view as it was, and sends no
    further request: the failing step and the steps after it change nothing.
    A mutation of one request (the role change, and every handler of the
    single-request shape) therefore leaves the database untouched, and in the
    two-step document mutations the documents table is untouched; what the
    step before the failing one did stays done. *)
Theorem failed_mutation_reported_without_later_steps :
  (forall (doc : document_row) (w : World) (st : State) (e : string),
      let removed := storage_remove [d_file_path doc] w in
      let deleted := delete_document (d_id doc) (snd removed) in
      let w' := fst (run (handleDelete true doc) w st) in
      let st' := snd (run (handleDelete true doc) w st) in
      (error (fst removed) = Some e ->
       documents st' = documents st
       /\ deleting st' = None
       /\ db w' = db w
       /\ trace w' = trace w ++ [Requested (ReqStorageRemove [d_file_path doc]);
                                 ConsoleError "Error deleting document:";
                                 ToastError (or_else e "Erro ao excluir documento")])
      /\ (error (fst removed) = None ->
          error (fst deleted) = Some e ->
          documents st' = documents st
          /\ deleting st' = None
          /\ db w' = db (snd removed)
          /\ tbl_documents (db w') = tbl_documents (db w)
          /\ trace w' = trace w ++ [Requested (ReqStorageRemove [d_file_path doc]);
                                    Requested (ReqDelete RLS.documents (d_id doc));
                                    ConsoleError "Error deleting document:";
                                    ToastError (or_else e "Erro ao excluir documento")]))
  /\ (forall (props : Props) (user : option UUID) (clock : Clock) (f : File)
        (w : World) (st : State) (e : string),
        type f = "application/pdf" ->
        (size f <= 50 * 1024 * 1024)%Z ->
        let uploaded := storage_upload (filePath props clock f) w in
        let inserted := insert_document (new_document props user clock f) (snd uploaded) in
        let w' := fst (run (handleUpload props user clock (Some f)) w st) in
        let st' := snd (run (handleUpload props user clock (Some f)) w st) in
        (error (fst uploaded) = Some e ->
         documents st' = documents st
         /\ uploading st' = false
         /\ db w' = db w
         /\ trace w' = trace w ++ [Requested (ReqStorageUpload (filePath props clock f));
                                   ConsoleError "Error uploading document:";
                                   ToastError (or_else e "Erro ao enviar documento")])
        /\ (error (fst uploaded) = None ->
            error (fst inserted) = Some e ->
            documents st' = documents st
            /\ uploading st' = false
            /\ db w' = db (snd uploaded)
            /\ tbl_documents (db w') = tbl_documents (db w)
            /\ trace w' = trace w ++ [Requested (ReqStorageUpload (filePath props clock f));
                                      Requested (ReqInsert RLS.documents);
                                      ConsoleError "Error uploading document:";
                                      ToastError (or_else e "Erro ao enviar documento")]))
  /\ (forall (w : World) (st : UsersPage.State) (selected : UsersPage.UserWithRole)
        (new_role : app_role) (e : string),
        UsersPage.selectedUser st = Some selected ->
        UsersPage.newRole st = Some new_role ->
        error (fst (update_user_role (UsersPage.user_id selected) new_role w)) = Some e ->
        let w' := fst (run UsersPage.handleRoleChange w st) in
        let st' := snd (run UsersPage.handleRoleChange w st) in
        UsersPage.users st' = UsersPage.users st
        /\ UsersPage.selectedUser st' = UsersPage.selectedUser st
        /\ UsersPage.newRole st' = UsersPage.newRole st
        /\ UsersPage.isDialogOpen st' = UsersPage.isDialogOpen st
        /\ UsersPage.updating st' = false
        /\ db w' = db w
        /\ trace w' = trace w
                      ++ [Requested (ReqUpdate RLS.user_roles (UsersPage.user_id selected));
                          ConsoleError "Error updating role:";
                          ToastError "Erro ao atualizar permissão"])
  /\ (forall (S A : Type) (req : Request)
        (exec : RLS.Session -> Database -> (string + A) * Database)
        (on_success : Task S unit) (label message : string) (final : S -> S)
        (w : World) (st : S) (e : string),
        error (fst (request req exec w)) = Some e ->
        let w' := fst (run (single_request_mutation (request req exec) on_success
                              label message final) w st) in
        let st' := snd (run (single_request_mutation (request req exec) on_success
                               label message final) w st) in
        st' = final st
        /\ db w' = db w
        /\ trace w' = trace w ++ [Requested req; ConsoleError label; ToastError message]).
Proof.
  split; [|split; [|split]].
  - intros doc w st e. cbn zeta. rewrite handleDelete_run. cbn zeta.
    pose proof (storage_remove_documents [d_file_path doc] w) as Hdocs.
    assert (Htr1 : trace (snd (storage_remove [d_file_path doc] w))
                   = trace w ++ [Requested (ReqStorageRemove [d_file_path doc])])
      by apply request_trace.
    assert (Hdb1 : forall e', error (fst (storage_remove [d_file_path doc] w)) = Some e' ->
                              db (snd (storage_remove [d_file_path doc] w)) = db w)
      by (intros e'; apply request_error_db).
    destruct (storage_remove [d_file_path doc] w) as [removed w1]. cbn [fst snd] in *.
    assert (Htr2 : trace (snd (delete_document (d_id doc) w1))
                   = trace w1 ++ [Requested (ReqDelete RLS.documents (d_id doc))])
      by apply request_trace.
    assert (Hdb2 : forall e', error (fst (delete_document (d_id doc) w1)) = Some e' ->
                              db (snd (delete_document (d_id doc) w1)) = db w1)
      by (intros e'; apply request_error_db).
    destruct (delete_document (d_id doc) w1) as [deleted w2]. cbn [fst snd] in *.
    split.
    + intros He. rewrite He. cbn. rewrite Htr1, <- !app_assoc. cbn.
      repeat split; try reflexivity. now apply (Hdb1 e).
    + intros Hok He. rewrite Hok, He. cbn. rewrite Htr2, Htr1, <- !app_assoc. cbn.
      rewrite (Hdb2 e He). repeat split; try reflexivity. exact Hdocs.
  - intros props user clock f w st e Htype Hsize. cbn zeta.
    rewrite (handleUpload_run props user clock f w st Htype Hsize). cbn zeta.
    pose proof (storage_upload_documents (filePath props clock f) w) as Hdocs.
    assert (Htr1 : trace (snd (storage_upload (filePath props clock f) w))
                   = trace w ++ [Requested (ReqStorageUpload (filePath props clock f))])
      by apply request_trace.
    assert (Hdb1 : forall e', error (fst (storage_upload (filePath props clock f) w)) = Some e' ->
                              db (snd (storage_upload (filePath props clock f) w)) = db w)
      by (intros e'; apply request_error_db).
    destruct (storage_upload (filePath props clock f) w) as [uploaded w1].
    cbn [fst snd] in *.
    assert (Htr2 : trace (snd (insert_document (new_document props user clock f) w1))
                   = trace w1 ++ [Requested (ReqInsert RLS.documents)])
      by apply request_trace.
    assert (Hdb2 : forall e',
               error (fst (insert_document (new_document props user clock f) w1)) = Some e' ->
               db (snd (insert_document (new_document props user clock f) w1)) = db w1)
      by (intros e'; apply request_error_db).
    destruct (insert_document (new_document props user clock f) w1) as [inserted w2].
    cbn [fst snd] in *.
    split.
    + intros He. rewrite He. cbn. rewrite Htr1, <- !app_assoc. cbn.
      repeat split; try reflexivity. now apply (Hdb1 e).
    + intros Hok He. rewrite Hok, He. cbn. rewrite Htr2, Htr1, <- !app_assoc. cbn.
      rewrite (Hdb2 e He). repeat split; try reflexivity. exact Hdocs.
  - intros w st selected new_role e Hsel Hnew Herr. cbn zeta.
    rewrite (handleRoleChange_rejected w st selected new_role e Hsel Hnew Herr).
    cbn. rewrite <- !app_assoc. cbn. repeat split; reflexivity.
  - intros S A req exec on_success label message final w st e Herr. cbn zeta.
    pose proof (request_error_db req exec w e Herr) as Hdb.
    pose proof (request_trace req exec w) as Htr.
    unfold run, single_request_mutation, try_catch_finally, bind, await, throw_if_error,
      set, effect, throw.
    cbn [fst snd].
    destruct (request req exec w) as [response w1]. cbn [fst snd] in *.
    rewrite Herr. cbn. rewrite Htr, <- !app_assoc. cbn. repeat split; try reflexivity.
    exact Hdb.
Qed.

End FailedMutations.

Section Scenarios.
Import RLS Client Samples.

(** A [visualizador] may not insert a contract; a [gestor] may insert a
    supplier, and any authenticated actor then reads it. *)
Example viewer_cannot_insert_contract :
  rls_allows (sole_role "u-vis" visualizador) (login "u-vis") contracts INSERT plain_row
  = false.
Proof. reflexivity. Qed.

Example gestor_inserts_supplier :
  rls_allows (sole_role "u-ges" gestor) (login "u-ges") suppliers INSERT plain_row = true
  /\ rls_allows (sole_role "u-ges" gestor) (login "u-vis") suppliers SELECT plain_row = true.
Proof. split; reflexivity. Qed.

Example gestor_cannot_delete_contract :
  rls_allows (sole_role "u-ges" gestor) (login "u-ges") contracts DELETE plain_row = false.
Proof. reflexivity. Qed.

Example anonymous_reads_no_contract :
  rls_allows (sole_role "u-adm" admin) anonymous contracts SELECT plain_row = false.
Proof. reflexivity. Qed.

Example viewer_writes_audit_log_but_cannot_read :
  rls_allows (sole_role "u-vis" visualizador) (login "u-vis") audit_logs INSERT plain_row
  = true
  /\ rls_allows (sole_role "u-vis" visualizador) (login "u-vis") audit_logs SELECT plain_row
     = false.
Proof. split; reflexivity. Qed.

Example includes_examples :
  includes "contracts" "tract" = true
  /\ includes "contracts" "" = true
  /\ includes "contracts" "tracts!" = false
  /\ includes (ascii_toLowerCase "Sistema") (ascii_toLowerCase "SIST") = true.
Proof. repeat split; reflexivity. Qed.

(** An administrator changes the role of a user who has a role row: the row
    is rewritten and the user resolves to the new role. *)
Example role_change_with_role_row :
  let d := Provisioning.on_auth_user_created sample_users_db
             {| Provisioning.NEW_id := "u-ana"; Provisioning.NEW_email := Some "ana@example.com";
                Provisioning.NEW_meta_full_name := None |}
             sample_defaults in
  let w := {| db := d; session := sample_admin_session; outages := []; trace := [] |} in
  get_user_role (tbl_user_roles d) "u-ana" = Some visualizador
  /\ get_user_role (tbl_user_roles (db (snd (update_user_role "u-ana" gestor w)))) "u-ana"
     = Some gestor.
Proof. split; reflexivity. Qed.

End Scenarios.

Section Instances.
Import Client Samples.


Lemma role_resolution_fails_closed_witness :
  get_user_role (RLS.sole_role "u-adm" admin) "u-new" = None
  /\ Auth.canEdit (Auth.resolve_role
                     (Auth.role_lookup (RLS.sole_role "u-adm" admin) false "u-new"))
     = false.
Proof.
  destruct (role_resolution_fails_closed (RLS.sole_role "u-adm" admin) "u-new")
    as (_ & Hnone & _).
  destruct (Hnone eq_refl) as (Hrole & _ & Hedit & _).
  split; [exact Hrole | exact Hedit].
Defined.

Lemma self_role_change_rejected_witness :
  snd (run (UsersPage.openRoleDialog (Some "u-adm") sample_admin_entry)
         sample_users_world UsersPage.initial) = UsersPage.initial
  /\ trace (fst (run (UsersPage.openRoleDialog (Some "u-adm") sample_admin_entry)
                   sample_users_world UsersPage.initial))
     = [ToastError "Você não pode alterar sua própria permissão"].
Proof.
  destruct (self_role_change_rejected "u-adm" sample_admin_entry sample_users_world
              UsersPage.initial eq_refl) as (Hst & _ & _ & _ & Htr & _).
  split; [exact Hst | exact Htr].
Defined.

Lemma role_change_without_role_row_witness :
  db (fst (run UsersPage.handleRoleChange sample_users_world sample_dialog_state))
  = sample_users_db
  /\ UsersPage.isDialogOpen
       (snd (run UsersPage.handleRoleChange sample_users_world sample_dialog_state))
     = false
  /\ forall u,
       In u (UsersPage.users
               (snd (run UsersPage.handleRoleChange sample_users_world sample_dialog_state))) ->
       UsersPage.user_id u = "u-new" ->
       UsersPage.role u = visualizador /\ UsersPage.role_id u = "".
Proof.
  destruct (role_change_without_role_row sample_users_world sample_dialog_state
              sample_new_entry gestor eq_refl eq_refl eq_refl eq_refl)
    as (_ & Hdb & _ & _ & Hopen & _ & _ & _ & _ & Hlist).
  split; [exact Hdb|]. split; [exact Hopen|].
  apply Hlist; reflexivity.
Defined.

Lemma failed_mutation_reported_without_later_steps_witness :
  DocumentUpload.documents
    (snd (run (DocumentUpload.handleDelete true sample_document)
            sample_documents_world sample_documents_state))
  = [sample_document]
  /\ tbl_documents
       (db (fst (run (DocumentUpload.handleDelete true sample_document)
                   sample_documents_world sample_documents_state)))
     = [sample_document]
  /\ trace (fst (run (DocumentUpload.handleDelete true sample_document)
                   sample_documents_world sample_documents_state))
     = [Requested (ReqStorageRemove ["c-1/1700000000000_termo.pdf"]);
        Requested (ReqDelete RLS.documents "d-1");
        ConsoleError "Error deleting document:";
        ToastError "Failed to fetch"].
Proof.
  destruct failed_mutation_reported_without_later_steps as (Hdelete & _ & _).
  destruct (Hdelete sample_document sample_documents_world sample_documents_state
              "Failed to fetch") as (_ & Hsecond).
  destruct (Hsecond eq_refl eq_refl) as (Hview & _ & _ & Hrows & Htrace).
  split; [exact Hview|]. split; [exact Hrows | exact Htrace].
Defined.

(** C9 as stated fails: the storage object of a document is removed, the
    request that deletes its row then fails, and the handler reports the
    failure with the object gone and the row still there. *)
Lemma document_delete_is_partial :
  let removed := storage_remove [d_file_path sample_document] sample_documents_world in
  let deleted := delete_document (d_id sample_document) (snd removed) in
  let w' := fst (run (DocumentUpload.handleDelete true sample_document)
                   sample_documents_world sample_documents_state) in
  error (fst removed) = None
  /\ error (fst deleted) = Some "Failed to fetch"
  /\ tbl_storage_objects (db sample_documents_world)
     = [ {| so_bucket_id := "contracts-documents";
            so_name := "c-1/1700000000000_termo.pdf" |} ]
  /\ tbl_storage_objects (db w') = []
  /\ tbl_documents (db w') = [sample_document]
  /\ db w' <> db sample_documents_world
  /\ In (ToastError "Failed to fetch") (trace w').
Proof.
  cbn zeta. repeat split; try reflexivity.
  - intros H. apply (f_equal tbl_storage_objects) in H. vm_compute in H. discriminate H.
  - vm_compute. tauto.
Qed.

End Instances.

(* ================================================================== *)
(** * Further properties of the migration *)
(* ================================================================== *)

Section PolicySet.
Import RLS.

(** X1. Every policy is granted [TO authenticated]: a request that runs as
    [anon] is refused every command on every table, whatever the role rows
    and the row. *)
Theorem anonymous_is_refused_everything :
  forall (roles : list user_role_row) (s : Session) (t : Table) (c : Command)
         (row : RowCtx),
    sess_role s = anon ->
    rls_allows roles s t c row = false.
Proof.
  intros roles s t c row Hanon. unfold rls_allows.
  assert (Hnone : filter (applies t c s) policies = []).
  { unfold applies. rewrite Hanon. destruct t, c; reflexivity. }
  now rewrite Hnone.
Qed.

Lemma anonymous_is_refused_everything_witness :
  rls_allows (sole_role "u-adm" admin) anonymous contracts SELECT plain_row = false.
Proof. apply anonymous_is_refused_everything. reflexivity. Defined.

Lemma has_role_own_rows (roles : list user_role_row) (u : UUID) (r : app_role) :
  has_role (filter (fun x => String.eqb (ur_user_id x) u) roles) u r = has_role roles u r.
Proof.
  unfold has_role. induction roles as [|x roles IH]; simpl; [reflexivity|].
  destruct (String.eqb (ur_user_id x) u) eqn:Hx; simpl; rewrite ?Hx, IH; reflexivity.
Qed.

Lemma eval_expr_own_rows (roles : list user_role_row) (u : UUID) (row : RowCtx)
    (e : PolicyExpr) :
  eval_expr (filter (fun x => String.eqb (ur_user_id x) u) roles) (login u) row e
  = eval_expr roles (login u) row e.
Proof.
  induction e as [| r | | b | e1 IH1 e2 IH2 | e1 IH1 e2 IH2]; simpl;
    try reflexivity; try (now rewrite IH1, IH2).
  apply has_role_own_rows.
Qed.

(** X2. A decision for an authenticated actor reads only the actor's own
    role rows: the role rows of other users never grant or refuse anything. *)
Theorem rls_reads_only_own_role_rows :
  forall (roles : list user_role_row) (u : UUID) (t : Table) (c : Command)
         (row : RowCtx),
    rls_allows roles (login u) t c row
    = rls_allows (filter (fun x => String.eqb (ur_user_id x) u) roles) (login u) t c row.
Proof.
  intros roles u t c row. unfold rls_allows.
  induction (filter (applies t c (login u)) policies) as [|p ps IH]; simpl;
    [reflexivity|].
  now rewrite eval_expr_own_rows, IH.
Qed.

Lemma eval_expr_monotone (roles roles' : list user_role_row) (s : Session)
    (row : RowCtx) (e : PolicyExpr) :
  (forall u r, has_role roles u r = true -> has_role roles' u r = true) ->
  eval_expr roles s row e = true -> eval_expr roles' s row e = true.
Proof.
  intros Hsub.
  induction e as [| r | | b | e1 IH1 e2 IH2 | e1 IH1 e2 IH2]; simpl; try tauto.
  - destruct (auth_uid s); [apply Hsub | tauto].
  - rewrite !orb_true_iff. tauto.
  - rewrite !andb_true_iff. tauto.
Qed.

(** X3. No policy tests the absence of a role: whatever is permitted under
    a set of role rows stays permitted when every role held is still held. *)
Theorem rls_never_revokes_on_added_roles :
  forall (roles roles' : list user_role_row) (s : Session) (t : Table) (c : Command)
         (row : RowCtx),
    (forall u r, has_role roles u r = true -> has_role roles' u r = true) ->
    rls_allows roles s t c row = true ->
    rls_allows roles' s t c row = true.
Proof.
  intros roles roles' s t c row Hsub. unfold rls_allows.
  rewrite !existsb_exists. intros (p & Hp & He). exists p. split; [exact Hp|].
  now apply (eval_expr_monotone roles roles').
Qed.

Lemma rls_never_revokes_on_added_roles_witness :
  rls_allows (sole_role "u1" gestor ++ sole_role "u1" admin) (login "u1")
    contracts UPDATE plain_row = true.
Proof.
  apply (rls_never_revokes_on_added_roles (sole_role "u1" gestor)).
  - intros u r H. unfold has_role in *. rewrite existsb_app, H. reflexivity.
  - reflexivity.
Defined.

(** X4. The storage policies name the bucket [contracts-documents]: an
    object of any other bucket can be neither read, written nor removed, by
    an administrator either. *)
Theorem other_buckets_are_closed :
  forall (roles : list user_role_row) (s : Session) (c : Command) (row : RowCtx),
    row_bucket_id row <> Some docs_bucket ->
    rls_allows roles s storage_objects c row = false.
Proof.
  intros roles s c row Hb. unfold rls_allows, applies.
  assert (Hbucket : match row_bucket_id row with
                    | Some b' => String.eqb b' docs_bucket
                    | None => false
                    end = false).
  { destruct (row_bucket_id row) as [b|]; [|reflexivity].
    destruct (String.eqb_spec b docs_bucket) as [-> | Hne]; [now destruct Hb | reflexivity]. }
  destruct (sess_role s), c; cbn; rewrite ?Hbucket; reflexivity.
Qed.

Lemma other_buckets_are_closed_witness :
  rls_allows (sole_role "u-adm" admin) (login "u-adm") storage_objects DELETE
    (row_in_bucket "avatars") = false.
Proof. apply other_buckets_are_closed. discriminate. Defined.

End PolicySet.

Section RoleFunctions.

Lemma has_role_false_no_rows (roles : list user_role_row) (u : UUID) :
  (forall r, has_role roles u r = false) ->
  filter (fun x => String.eqb (ur_user_id x) u) roles = [].
Proof.
  unfold has_role. induction roles as [|x roles IH]; simpl; intros H; [reflexivity|].
  destruct (String.eqb (ur_user_id x) u) eqn:Hx.
  - specialize (H (ur_role x)). simpl in H.
    rewrite app_role_beq_refl in H. discriminate H.
  - apply IH. intros r. specialize (H r). simpl in H. exact H.
Qed.

(** X5. [get_user_role] and [has_role] agree: the first is NULL exactly
    when the second is false for every role, a role it returns is held, and
    for a user with at most one role row it returns the role that is held. *)
Theorem get_user_role_agrees_with_has_role :
  forall (roles : list user_role_row) (u : UUID),
    (get_user_role roles u = None <-> forall r, has_role roles u r = false)
    /\ (forall r, get_user_role roles u = Some r -> has_role roles u r = true)
    /\ (List.length (filter (fun x => String.eqb (ur_user_id x) u) roles) <= 1 ->
        forall r, has_role roles u r = true -> get_user_role roles u = Some r).
Proof.
  intros roles u. split; [split|split].
  - intros Hnone r.
    destruct (has_role roles u r) eqn:Hr; [|reflexivity].
    rewrite <- has_role_own_rows in Hr.
    unfold get_user_role, get_user_role_rows in Hnone.
    destruct (filter _ roles) as [|x rest]; [discriminate Hr | discriminate Hnone].
  - intros Hall. apply get_user_role_no_rows. now apply has_role_false_no_rows.
  - intros r. apply get_user_role_is_held.
  - intros Hone r Hr. rewrite <- has_role_own_rows in Hr.
    unfold get_user_role, get_user_role_rows.
    destruct (filter (fun x => String.eqb (ur_user_id x) u) roles) as [|x [|y rest]] eqn:Hf.
    + discriminate Hr.
    + unfold has_role in Hr. simpl in Hr. rewrite orb_false_r in Hr.
      apply andb_true_iff in Hr. destruct Hr as [_ Hr].
      apply app_role_beq_eq in Hr. simpl. now rewrite Hr.
    + simpl in Hone. lia.
Qed.

End RoleFunctions.

Section ProvisioningOutcomes.
Import Provisioning Samples.

Lemma existsb_false_filter_nil {A : Type} (f : A -> bool) (l : list A) :
  existsb f l = false -> filter f l = [].
Proof.
  induction l as [|a l IH]; simpl; [reflexivity|].
  destruct (f a); [discriminate | exact IH].
Qed.

Lemma no_role_row_iff (roles : list user_role_row) (u : UUID) (r : app_role) :
  has_role roles u r = false
  <-> (forall x, In x roles -> ur_user_id x = u -> ur_role x <> r).
Proof.
  unfold has_role. induction roles as [|y roles IH]; simpl.
  - split; [intros _ x [] | reflexivity].
  - rewrite orb_false_iff, IH. split.
    + intros [Hy Hrest] x [<- | Hin] Hu Hr.
      * rewrite Hu, Hr, String.eqb_refl, app_role_beq_refl in Hy. discriminate Hy.
      * exact (Hrest x Hin Hu Hr).
    + intros H. split.
      * destruct (String.eqb_spec (ur_user_id y) u) as [Hu|_]; [|reflexivity].
        destruct (app_role_beq (ur_role y) r) eqn:Hr; [|reflexivity].
        apply app_role_beq_eq in Hr. elim (H y (or_introl eq_refl) Hu Hr).
      * intros x Hin. apply H. now right.
Qed.

(** X6. [handle_new_user] succeeds exactly when the identity has an e-mail
    address, the three generated keys are unused and the identity has no
    profile, no [visualizador] role row and no settings row. A role row with
    another role does not stop it. When it raises, the error is the NOT NULL
    violation of [profiles.email] for an identity without e-mail, and a unique
    violation for every other. *)
Theorem handle_new_user_succeeds_iff :
  forall (db : Database) (NEW : auth_user) (g : Defaults),
    ((exists db', handle_new_user db NEW g = Ok db')
     <-> (NEW_email NEW <> None
          /\ unused_ids db g
          /\ profiles_of db (NEW_id NEW) = []
          /\ (forall x, In x (tbl_user_roles db) ->
                ur_user_id x = NEW_id NEW -> ur_role x <> visualizador)
          /\ settings_of db (NEW_id NEW) = []))
    /\ (NEW_email NEW = None ->
        handle_new_user db NEW g = Err (not_null_violation "email"))
    /\ (NEW_email NEW <> None ->
        forall e, handle_new_user db NEW g = Err e -> exists c, e = unique_violation c).
Proof.
  intros db NEW g. unfold profiles_of, settings_of. split; [split|split].
  - intros [db' Hrun].
    destruct (handle_new_user_ok db NEW g db' Hrun) as (email & He & Hids & Hp & Hr & Hs).
    split; [congruence|]. split; [exact Hids|].
    split; [now apply existsb_false_filter_nil|].
    split; [now apply no_role_row_iff | now apply existsb_false_filter_nil].
  - intros (He & Hids & Hp & Hr & Hs).
    destruct (NEW_email NEW) as [email|] eqn:Hmail; [|now elim He].
    eexists. apply (handle_new_user_fresh db NEW email g Hmail Hids).
    + now apply filter_nil_existsb.
    + now apply no_role_row_iff.
    + now apply filter_nil_existsb.
  - intros He. unfold handle_new_user, insert_new_profile. now rewrite He.
  - intros He e Hrun. pose proof (handle_new_user_error db NEW g e Hrun) as Hk.
    destruct (NEW_email NEW); [exact Hk | now elim He].
Qed.

Lemma not_in_map_of_existsb {A : Type} (key : A -> string) (k : string) (l : list A) :
  existsb (fun x => String.eqb (key x) k) l = false -> ~ In k (map key l).
Proof.
  induction l as [|a l IH]; simpl; [tauto|].
  destruct (String.eqb_spec (key a) k) as [-> | Hne]; [discriminate|].
  intros H [Heq | Hin]; [congruence | now apply IH].
Qed.

Lemma NoDup_snoc {A : Type} (l : list A) (a : A) :
  NoDup l -> ~ In a l -> NoDup (l ++ [a]).
Proof.
  intros Hl Ha. apply NoDup_app; [exact Hl | repeat constructor; tauto |].
  intros x Hx [<- | []]. exact (Ha Hx).
Qed.

Lemma not_in_role_keys (roles : list user_role_row) (u : UUID) (r : app_role) :
  has_role roles u r = false ->
  ~ In (u, r) (map (fun x => (ur_user_id x, ur_role x)) roles).
Proof.
  unfold has_role. induction roles as [|x roles IH]; simpl; [tauto|].
  intros H. apply orb_false_iff in H. destruct H as [Hx Hrest].
  intros [Heq | Hin]; [|now apply IH].
  injection Heq as Hu Hr. rewrite Hu, Hr, String.eqb_refl, app_role_beq_refl in Hx.
  discriminate Hx.
Qed.

(** The rows a successful run leaves in the three tables. *)
Lemma provisioning_rows (db : Database) (NEW : auth_user) (g : Defaults) (db' : Database) :
  handle_new_user db NEW g = Ok db' ->
  exists email : string,
    NEW_email NEW = Some email
    /\ tbl_profiles db' = tbl_profiles db ++ [new_profile NEW email g]
    /\ tbl_user_roles db' = tbl_user_roles db ++ [new_user_role NEW g]
    /\ tbl_notification_settings db'
       = tbl_notification_settings db ++ [new_notification_settings NEW g].
Proof.
  intros Hrun.
  destruct (handle_new_user_ok db NEW g db' Hrun) as (email & He & Hids & Hp & Hr & Hs).
  rewrite (handle_new_user_fresh db NEW email g He Hids Hp Hr Hs) in Hrun.
  injection Hrun as <-. exists email. cbn. auto.
Qed.

(** X7. The trigger keeps the key declarations of the three tables: if the
    primary keys and the UNIQUE columns hold no duplicate before a signup,
    they hold none after it, whether the function succeeded or raised. *)
Theorem provisioning_keeps_constraints :
  forall (db : Database) (NEW : auth_user) (g : Defaults),
    constraints_hold db ->
    constraints_hold (on_auth_user_created db NEW g).
Proof.
  intros db NEW g Hc. unfold on_auth_user_created.
  destruct (handle_new_user db NEW g) as [db'|e] eqn:Hrun; [|exact Hc].
  destruct (handle_new_user_ok db NEW g db' Hrun)
    as (email0 & _ & (Hip & Hir & His) & Hpe & Hr & Hse).
  destruct (provisioning_rows db NEW g db' Hrun) as (email & _ & Hprof & Hrole & Hset).
  destruct Hc as (C1 & C2 & C3 & C4 & C5 & C6).
  unfold constraints_hold. rewrite Hprof, Hrole, Hset, !map_app. cbn [map].
  repeat split; apply NoDup_snoc; try assumption.
  - now apply (not_in_map_of_existsb p_id).
  - now apply (not_in_map_of_existsb p_user_id).
  - now apply (not_in_map_of_existsb ur_id).
  - now apply not_in_role_keys.
  - now apply (not_in_map_of_existsb ns_id).
  - now apply (not_in_map_of_existsb ns_user_id).
Qed.

Lemma provisioning_keeps_constraints_witness :
  constraints_hold (on_auth_user_created empty_db sample_identity sample_defaults).
Proof.
  apply provisioning_keeps_constraints. repeat split; constructor.
Defined.

End ProvisioningOutcomes.

Section NewUserPermissions.
Import RLS Provisioning Samples.

Lemma has_role_app (l1 l2 : list user_role_row) (u : UUID) (r : app_role) :
  has_role (l1 ++ l2) u r = has_role l1 u r || has_role l2 u r.
Proof. unfold has_role. apply existsb_app. Qed.

(** X8. Right after the signup of an identity with an e-mail address the
    new user holds exactly the role [visualizador]: [get_user_role] returns it, and the policies let the user
    read the domain tables but refuse every insert, update and delete on
    them, every change of [user_roles], and the reading of the audit log. *)
Theorem new_user_is_a_viewer :
  forall (db : Database) (NEW : auth_user) (g : Defaults),
    NEW_email NEW <> None ->
    new_identity db (NEW_id NEW) ->
    unused_ids db g ->
    let roles := tbl_user_roles (on_auth_user_created db NEW g) in
    let u := NEW_id NEW in
    get_user_role roles u = Some visualizador
    /\ (forall r, has_role roles u r = true <-> r = visualizador)
    /\ (forall t row, is_domain_table t = true ->
          rls_allows roles (login u) t SELECT row = true
          /\ rls_allows roles (login u) t INSERT row = false
          /\ rls_allows roles (login u) t UPDATE row = false
          /\ rls_allows roles (login u) t DELETE row = false)
    /\ (forall row,
          rls_allows roles (login u) user_roles INSERT row = false
          /\ rls_allows roles (login u) user_roles UPDATE row = false
          /\ rls_allows roles (login u) user_roles DELETE row = false)
    /\ (forall row, rls_allows roles (login u) audit_logs SELECT row = false).
Proof.
  intros db NEW g Hmail Hnew Hids. cbn zeta.
  destruct Hnew as (Hp & Hr & Hs). unfold roles_of in Hr.
  destruct (NEW_email NEW) as [email|] eqn:He; [clear Hmail | now elim Hmail].
  pose proof (handle_new_user_fresh db NEW email g He Hids
                (filter_nil_existsb _ _ Hp) (no_rows_no_role _ _ visualizador Hr)
                (filter_nil_existsb _ _ Hs)) as Hrun.
  unfold on_auth_user_created. rewrite Hrun. cbn [tbl_user_roles set_notification_settings set_user_roles].
  assert (Hhas : forall r,
             has_role (tbl_user_roles db ++ [new_user_role NEW g]) (NEW_id NEW) r
             = app_role_beq visualizador r).
  { intros r. rewrite has_role_app, (no_rows_no_role _ _ r Hr).
    unfold has_role. cbn. now rewrite String.eqb_refl, orb_false_r. }
  split.
  { unfold get_user_role, get_user_role_rows. rewrite filter_app, Hr. cbn.
    now rewrite String.eqb_refl. }
  split; [intros r; rewrite Hhas, app_role_beq_eq; split; congruence|].
  split.
  { intros t row Hd. destruct t; try discriminate Hd; unfold rls_allows; cbn;
      rewrite !Hhas; cbn; auto. }
  split; intros row; unfold rls_allows; cbn; rewrite !Hhas; cbn; auto.
Qed.

Lemma new_user_is_a_viewer_witness :
  get_user_role
    (tbl_user_roles (on_auth_user_created empty_db sample_identity sample_defaults))
    "u-ana" = Some visualizador.
Proof.
  destruct (new_user_is_a_viewer empty_db sample_identity sample_defaults) as (H & _).
  - discriminate.
  - repeat split; reflexivity.
  - repeat split; reflexivity.
  - exact H.
Defined.

End NewUserPermissions.

Section AuditSummary.
Import Client AuditLogsPage Samples.

(** X9. The three counters of the audit view never add up to more than the
    total, and they add up to the total exactly when every entry's action is
    INSERT, UPDATE or DELETE. *)
Theorem audit_stats_add_up :
  forall st : State,
    inserts (stats st) + updates (stats st) + deletes (stats st) <= total (stats st)
    /\ (inserts (stats st) + updates (stats st) + deletes (stats st) = total (stats st)
        <-> Forall known_action (logs st)).
Proof.
  intros st. unfold stats, count_action. cbn [inserts updates deletes total].
  induction (logs st) as [|l ls [IHle IHeq]]; cbn [filter List.length].
  - split; [lia|]. split; [constructor | reflexivity].
  - unfold known_action at 1.
    destruct (String.eqb_spec (al_action (log l)) "INSERT") as [Hi|Hi];
      destruct (String.eqb_spec (al_action (log l)) "UPDATE") as [Hu|Hu];
      destruct (String.eqb_spec (al_action (log l)) "DELETE") as [Hd|Hd];
      try (rewrite Hi in Hu; discriminate Hu);
      try (rewrite Hi in Hd; discriminate Hd);
      try (rewrite Hu in Hd; discriminate Hd);
      cbn [List.length]; (split; [lia|]); rewrite Forall_cons_iff, <- IHeq;
      unfold known_action; split; intros H; try lia;
      try (split; [tauto | lia]).
    all: destruct H as [[H | [H | H]] _]; contradiction.
Qed.

Lemma set_members_spec (seen values : list string) (t : string) :
  In t (set_members seen values) <-> In t values /\ ~ In t seen.
Proof.
  revert seen. induction values as [|v rest IH]; intros seen; simpl; [tauto|].
  destruct (existsb (String.eqb v) seen) eqn:Hv.
  - rewrite IH. apply existsb_exists in Hv. destruct Hv as (x & Hx & Hvx).
    apply String.eqb_eq in Hvx. subst x. split; [tauto|].
    intros [[<- | Hin] Hns]; [contradiction | tauto].
  - simpl. rewrite IH. simpl.
    assert (Hnv : ~ In v seen).
    { intros Hin. assert (existsb (String.eqb v) seen = true).
      { apply existsb_exists. exists v. split; [exact Hin | apply String.eqb_refl]. }
      congruence. }
    destruct (String.eqb_spec v t) as [-> | Hne]; [tauto|]. tauto.
Qed.

Lemma set_members_NoDup (seen values : list string) : NoDup (set_members seen values).
Proof.
  revert seen. induction values as [|v rest IH]; intros seen; simpl; [constructor|].
  destruct (existsb (String.eqb v) seen); [apply IH|].
  constructor; [|apply IH]. rewrite set_members_spec. simpl. tauto.
Qed.

(** X10. The table filter offers each table name of the fetched entries
    once, and nothing else; choosing an offered table, with no search term
    and every action, never gives an empty list, and gives only entries of
    that table. *)
Theorem table_filter_options :
  forall (toLowerCase : string -> string) (st : State),
    NoDup (uniqueTables st)
    /\ (forall t, In t (uniqueTables st)
                  <-> exists l, In l (logs st) /\ al_table_name (log l) = t)
    /\ (toLowerCase "" = "" ->
        forall t, In t (uniqueTables st) ->
          let shown := filteredLogs toLowerCase (setFilters "" "all" t st) in
          shown <> []
          /\ (t <> "all" -> Forall (fun l => al_table_name (log l) = t) shown)).
Proof.
  intros toLowerCase st.
  assert (Hmem : forall t, In t (uniqueTables st)
                           <-> exists l, In l (logs st) /\ al_table_name (log l) = t).
  { intros t. unfold uniqueTables. rewrite set_members_spec, in_map_iff. simpl.
    split; [intros [(l & Ht & Hl) _]; eauto | intros (l & Hl & Ht); split; eauto]. }
  split; [apply set_members_NoDup|]. split; [exact Hmem|].
  intros Hlower t Ht. cbn zeta. apply Hmem in Ht. destruct Ht as (l & Hl & Hlt).
  assert (Hkeep : forall x, In x (filteredLogs toLowerCase (setFilters "" "all" t st))
                            <-> In x (logs st)
                                /\ (String.eqb t "all"
                                    || String.eqb (al_table_name (log x)) t) = true).
  { intros x. unfold filteredLogs. cbn [logs searchTerm actionFilter tableFilter setFilters].
    rewrite filter_In. unfold matchesSearch, matchesAction, matchesTable.
    rewrite Hlower, (includes_empty (toLowerCase (al_table_name (log x)))).
    rewrite orb_true_r. cbn. reflexivity. }
  split.
  - intros Hnil. assert (Hin : In l (filteredLogs toLowerCase (setFilters "" "all" t st))).
    { apply Hkeep. split; [exact Hl|]. rewrite Hlt, String.eqb_refl. apply orb_true_r. }
    rewrite Hnil in Hin. destruct Hin.
  - intros Hall. apply Forall_forall. intros x Hx. apply Hkeep in Hx.
    destruct Hx as [_ Hx]. apply orb_true_iff in Hx.
    destruct Hx as [Hx | Hx]; apply String.eqb_eq in Hx; [contradiction | exact Hx].
Qed.

Lemma table_filter_options_witness :
  AuditLogsPage.filteredLogs ascii_toLowerCase
    (setFilters "" "all" "contracts" sample_audit_state) <> [].
Proof.
  destruct (table_filter_options ascii_toLowerCase sample_audit_state) as (_ & _ & H).
  apply (H eq_refl "contracts"). vm_compute. tauto.
Defined.

(** X11. The audit rows are readable by administrators only, and the
    refusal is silent: for a session whose user does not hold [admin], an
    answered fetch shows no entry and reports no error. *)
Theorem audit_log_is_empty_for_non_admins :
  forall (w : World) (st : State),
    match RLS.auth_uid (session w) with
    | Some u => has_role (tbl_user_roles (db w)) u admin = false
    | None => True
    end ->
    hd false (outages w) = false ->
    hd false (tl (outages w)) = false ->
    logs (snd (run fetchData w st)) = []
    /\ trace (fst (run fetchData w st))
       = trace w ++ [Requested (ReqSelect RLS.audit_logs);
                     Requested (ReqSelect RLS.profiles)].
Proof.
  intros w st Hrole H1 H2. rewrite (fetchData_answered w st H1 H2).
  cbn [fst snd logs setLoading setLogs trace]. split; [|now rewrite <- app_assoc].
  assert (Hnone : recent_audit_logs (session w) (db w) = []).
  { unfold recent_audit_logs.
    assert (Hf : filter (fun r => permitted (session w) (db w) RLS.audit_logs RLS.SELECT
                                    (audit_ctx r)) (tbl_audit_logs (db w)) = []).
    { apply existsb_false_filter_nil.
      induction (tbl_audit_logs (db w)) as [|r rs IH]; [reflexivity|].
      cbn [existsb]. rewrite IH, orb_false_r.
      unfold permitted, RLS.rls_allows, RLS.applies.
      destruct (RLS.sess_role (session w)); cbn; [reflexivity|].
      destruct (RLS.auth_uid (session w)); [now rewrite Hrole | reflexivity]. }
    rewrite Hf. reflexivity. }
  now rewrite Hnone.
Qed.

Lemma audit_log_is_empty_for_non_admins_witness :
  logs (snd (run fetchData
               {| db := db sample_audit_world; session := RLS.login "u-ges";
                  outages := []; trace := [] |}
               initial)) = [].
Proof.
  apply audit_log_is_empty_for_non_admins; reflexivity.
Defined.

(** X12. When either request of the audit fetch fails, the entries and
    profiles on screen stay, the loading flag is cleared, the database is
    untouched and one error toast is shown after the two requests. *)
Theorem audit_fetch_failure_keeps_view :
  forall (w : World) (st : State),
    hd false (outages w) = true \/ hd false (tl (outages w)) = true ->
    let w' := fst (run fetchData w st) in
    let st' := snd (run fetchData w st) in
    st' = setLoading false st
    /\ db w' = db w
    /\ trace w' = trace w ++ [Requested (ReqSelect RLS.audit_logs);
                              Requested (ReqSelect RLS.profiles);
                              ConsoleError "Error fetching audit logs:";
                              ToastError "Erro ao carregar logs de auditoria"].
Proof.
  intros w st H. cbn zeta. destruct w as [d s o tr].
  unfold run, fetchData, try_catch_finally, bind, await, select_recent_audit_logs,
    select_profile_names, request.
  destruct o as [|[|] [|[|] o]]; cbn in *;
    try (destruct H as [H | H]; discriminate H);
    rewrite <- ?app_assoc; cbn; auto.
Qed.

Lemma audit_fetch_failure_keeps_view_witness :
  snd (run fetchData
         {| db := db sample_audit_world; session := session sample_audit_world;
            outages := [true]; trace := [] |}
         sample_audit_state)
  = setLoading false sample_audit_state.
Proof.
  destruct (audit_fetch_failure_keeps_view
              {| db := db sample_audit_world; session := session sample_audit_world;
                 outages := [true]; trace := [] |}
              sample_audit_state) as (H & _).
  - left. reflexivity.
  - exact H.
Defined.

End AuditSummary.

Lemma insert_by_length {A : Type} (leb : A -> A -> bool) (x : A) (l : list A) :
  List.length (insert_by leb x l) = S (List.length l).
Proof.
  induction l as [|y l IH]; simpl; [reflexivity|].
  destruct (leb x y); simpl; [reflexivity | now rewrite IH].
Qed.

Lemma sort_by_length {A : Type} (leb : A -> A -> bool) (l : list A) :
  List.length (sort_by leb l) = List.length l.
Proof.
  induction l as [|x l IH]; simpl; [reflexivity|].
  now rewrite insert_by_length, IH.
Qed.

Section UsersView.
Import Client UsersPage Samples.

Arguments profiles_by_name : simpl never.
Arguments visible_user_roles : simpl never.
Arguments update_user_role_statement : simpl never.
Arguments fetchUsers : simpl never.

(** X13. Every listed user counts in exactly one of the three role counters:
    administrators, managers and viewers add up to the total. *)
Theorem user_stats_add_up :
  forall st : State,
    admins (stats st) + gestors (stats st) + viewers (stats st) = total (stats st).
Proof.
  intros st. unfold stats, count_role. cbn [admins gestors viewers total].
  induction (users st) as [|u us IH]; cbn [filter List.length]; [reflexivity|].
  destruct (role u); cbn [app_role_beq List.length]; lia.
Qed.

Lemma authenticated_reads_user_roles (s : RLS.Session) (d : Database) :
  RLS.sess_role s = RLS.authenticated ->
  visible_user_roles s d = tbl_user_roles d.
Proof.
  intros Hs. unfold visible_user_roles. apply filter_all. intros r _.
  unfold permitted, RLS.rls_allows, RLS.applies. rewrite Hs. reflexivity.
Qed.

Lemma authenticated_reads_profiles (s : RLS.Session) (d : Database) (p : profile_row) :
  RLS.sess_role s = RLS.authenticated ->
  In p (profiles_by_name s d) <-> In p (tbl_profiles d).
Proof.
  intros Hs. unfold profiles_by_name. rewrite sort_by_In, filter_In.
  unfold permitted, RLS.rls_allows, RLS.applies. rewrite Hs. cbn. tauto.
Qed.

Lemma first_role_row (roles : list user_role_row) (u : UUID) :
  match find (fun r => String.eqb (ur_user_id r) u) roles with
  | Some r => ur_role r
  | None => visualizador
  end
  = Auth.resolve_role (Auth.QueryRows (get_user_role_rows roles u)).
Proof.
  unfold get_user_role_rows. induction roles as [|x roles IH]; cbn; [reflexivity|].
  destruct (String.eqb (ur_user_id x) u); cbn; [reflexivity | exact IH].
Qed.

(** For a user with at most one role row, [get_user_role] returns the role
    of that row, whichever row the LIMIT keeps. *)
Lemma get_user_role_single (roles : list user_role_row) (u : UUID) (x : user_role_row) :
  List.length (filter (fun r => String.eqb (ur_user_id r) u) roles) <= 1 ->
  In x roles -> ur_user_id x = u ->
  get_user_role roles u = Some (ur_role x).
Proof.
  intros Hone Hin Hu.
  assert (Hx : In x (filter (fun r => String.eqb (ur_user_id r) u) roles)).
  { apply filter_In. split; [exact Hin|]. now apply String.eqb_eq. }
  unfold get_user_role, get_user_role_rows.
  destruct (filter (fun r => String.eqb (ur_user_id r) u) roles) as [|y [|z rest]].
  - destruct Hx.
  - destruct Hx as [<- | []]. reflexivity.
  - cbn in Hone. lia.
Qed.

Lemma get_user_role_none (roles : list user_role_row) (u : UUID) :
  (forall x, In x roles -> ur_user_id x <> u) ->
  get_user_role roles u = None.
Proof.
  intros Hno. unfold get_user_role, get_user_role_rows.
  destruct (filter (fun r => String.eqb (ur_user_id r) u) roles) as [|y rest] eqn:Hf;
    [reflexivity|].
  assert (Hy : In y (filter (fun r => String.eqb (ur_user_id r) u) roles))
    by (rewrite Hf; now left).
  apply filter_In in Hy. destruct Hy as [Hin Hu]. apply String.eqb_eq in Hu.
  elim (Hno y Hin Hu).
Qed.

(** X14. When no listed user has more than one role row (the query of
    [get_user_role] and the role query of the view have no ORDER BY, so only
    then is the row they keep determined), an answered [fetchUsers] of an
    authenticated session lists every profile and nothing else, and shows
    for each user the role of the user's role row, which is the role
    [get_user_role] returns, and [visualizador] for a user without a row,
    for whom [get_user_role] returns NULL. *)
Theorem user_list_shows_resolved_roles :
  forall (w : World) (st : State),
    RLS.sess_role (session w) = RLS.authenticated ->
    hd false (outages w) = false ->
    hd false (tl (outages w)) = false ->
    (forall p, In p (tbl_profiles (db w)) ->
       List.length (filter (fun r => String.eqb (ur_user_id r) (p_user_id p))
                      (tbl_user_roles (db w))) <= 1) ->
    let st' := snd (run fetchUsers w st) in
    (forall u, In u (users st')
               <-> exists p, In p (tbl_profiles (db w))
                             /\ u = with_role_of (Some (tbl_user_roles (db w))) p)
    /\ (forall u, In u (users st') ->
          (forall x, In x (tbl_user_roles (db w)) -> ur_user_id x = user_id u ->
             role u = ur_role x
             /\ get_user_role (tbl_user_roles (db w)) (user_id u) = Some (role u))
          /\ ((forall x, In x (tbl_user_roles (db w)) -> ur_user_id x <> user_id u) ->
              role u = visualizador
              /\ get_user_role (tbl_user_roles (db w)) (user_id u) = None))
    /\ List.length (users st') = List.length (tbl_profiles (db w)).
Proof.
  intros w st Hs H1 H2 Hone. cbn zeta. rewrite fetchUsers_run, H1, H2.
  cbn [snd users setLoading setUsers].
  rewrite (authenticated_reads_user_roles _ _ Hs).
  assert (Hiff : forall u,
             In u (map (with_role_of (Some (tbl_user_roles (db w))))
                     (profiles_by_name (session w) (db w)))
             <-> exists p, In p (tbl_profiles (db w))
                           /\ u = with_role_of (Some (tbl_user_roles (db w))) p).
  { intros u. rewrite in_map_iff. split.
    - intros (p & <- & Hp). exists p.
      split; [now apply (authenticated_reads_profiles _ _ p Hs) | reflexivity].
    - intros (p & Hp & ->). exists p.
      split; [reflexivity | now apply (authenticated_reads_profiles _ _ p Hs)]. }
  split; [exact Hiff|]. split.
  - intros u Hu. apply Hiff in Hu. destruct Hu as (p & Hp & ->).
    assert (Hshown : role (with_role_of (Some (tbl_user_roles (db w))) p)
                     = match get_user_role (tbl_user_roles (db w)) (p_user_id p) with
                       | Some r => r
                       | None => visualizador
                       end).
    { unfold with_role_of, find_role. cbn [role].
      rewrite first_role_row. unfold get_user_role.
      destruct (get_user_role_rows (tbl_user_roles (db w)) (p_user_id p)); reflexivity. }
    change (user_id (with_role_of (Some (tbl_user_roles (db w))) p)) with (p_user_id p).
    split.
    + intros x Hin Hx.
      pose proof (get_user_role_single _ _ x (Hone p Hp) Hin Hx) as Hget.
      rewrite Hshown, Hget. split; reflexivity.
    + intros Hno. pose proof (get_user_role_none _ _ Hno) as Hget.
      rewrite Hshown, Hget. split; reflexivity.
  - rewrite length_map. unfold profiles_by_name.
    assert (Hall : filter (fun p => permitted (session w) (db w) RLS.profiles RLS.SELECT
                                      (RLS.row_of_owner (p_user_id p)))
                     (tbl_profiles (db w)) = tbl_profiles (db w)).
    { apply filter_all. intros p _.
      unfold permitted, RLS.rls_allows, RLS.applies. rewrite Hs. reflexivity. }
    rewrite Hall. apply sort_by_length.
Qed.

Lemma user_list_shows_resolved_roles_witness :
  List.length (users (snd (run fetchUsers sample_users_world initial))) = 2.
Proof.
  assert (Hone : forall p, In p (tbl_profiles (db sample_users_world)) ->
            List.length (filter (fun r => String.eqb (ur_user_id r) (p_user_id p))
                           (tbl_user_roles (db sample_users_world))) <= 1).
  { intros p [<- | [<- | []]]; cbn; lia. }
  destruct (user_list_shows_resolved_roles sample_users_world initial
              eq_refl eq_refl eq_refl Hone) as (_ & _ & H).
  exact H.
Defined.

End UsersView.

Section RoleChanges.
Import Client UsersPage Samples.

Arguments profiles_by_name : simpl never.
Arguments visible_user_roles : simpl never.
Arguments fetchUsers : simpl never.

(** For an administrator the update reaches every role row of the target. *)
Lemma admin_reaches_rows (s : RLS.Session) (d : Database) (a target : UUID)
    (r : user_role_row) :
  s = RLS.login a ->
  has_role (tbl_user_roles d) a admin = true ->
  role_row_hit s d target r = of_user target r.
Proof.
  intros -> Ha. unfold role_row_hit, permitted, RLS.rls_allows, of_user. cbn.
  rewrite Ha. cbn. now rewrite !andb_true_r.
Qed.

(** Without the [admin] role the update reaches no row. *)
Lemma non_admin_reaches_no_row (s : RLS.Session) (d : Database) (target : UUID)
    (r : user_role_row) :
  match RLS.auth_uid s with
  | Some u => has_role (tbl_user_roles d) u admin = false
  | None => True
  end ->
  role_row_hit s d target r = false.
Proof.
  intros Hs. unfold role_row_hit, permitted, RLS.rls_allows, RLS.applies.
  destruct (RLS.sess_role s); cbn; [now rewrite andb_false_r|].
  destruct (RLS.auth_uid s); [rewrite Hs|]; cbn; now rewrite andb_false_r.
Qed.

Lemma retarget_rows (target : UUID) (role : app_role) (rows : list user_role_row) :
  filter (of_user target) (map (retarget target role) rows)
  = map (fun r => with_role r role) (filter (of_user target) rows).
Proof.
  induction rows as [|x rows IH]; [reflexivity|]. cbn [map filter].
  destruct (of_user target x) eqn:Hx.
  - assert (Hr : retarget target role x = with_role x role)
      by (unfold retarget; now rewrite Hx).
    rewrite Hr. change (of_user target (with_role x role)) with (of_user target x).
    rewrite Hx. cbn [map]. now rewrite IH.
  - assert (Hr : retarget target role x = x) by (unfold retarget; now rewrite Hx).
    rewrite Hr, Hx. exact IH.
Qed.

Lemma retarget_count (target : UUID) (role : app_role) (rows : list user_role_row) :
  count_role_rows (map (retarget target role) rows) target role
  = List.length (filter (of_user target) rows).
Proof.
  unfold count_role_rows. induction rows as [|x rows IH]; [reflexivity|].
  cbn [map filter]. destruct (of_user target x) eqn:Hx.
  - assert (Hr : retarget target role x = with_role x role)
      by (unfold retarget; now rewrite Hx).
    rewrite Hr. change (String.eqb (ur_user_id (with_role x role)) target)
      with (of_user target x).
    change (ur_role (with_role x role)) with role.
    rewrite Hx, app_role_beq_refl. cbn [andb List.length]. now rewrite IH.
  - assert (Hr : retarget target role x = x) by (unfold retarget; now rewrite Hx).
    rewrite Hr. change (String.eqb (ur_user_id x) target) with (of_user target x).
    rewrite Hx. cbn [andb]. exact IH.
Qed.

Lemma retarget_others (target : UUID) (role : app_role) (rows : list user_role_row)
    (u : UUID) (r : app_role) :
  u <> target ->
  has_role (map (retarget target role) rows) u r = has_role rows u r.
Proof.
  intros Hu. unfold has_role. induction rows as [|x rows IH]; cbn; [reflexivity|].
  rewrite IH. f_equal. unfold retarget, of_user.
  destruct (String.eqb_spec (ur_user_id x) target) as [Hx | Hx]; [|reflexivity].
  cbn. destruct (String.eqb_spec (ur_user_id x) u) as [Hxu | Hxu]; [|reflexivity].
  congruence.
Qed.

(** What the update statement does when it reaches exactly the rows of the
    target: nothing to check with at most one such row, a unique violation
    with two or more. *)
Lemma update_statement_of_admin (s : RLS.Session) (d : Database) (target : UUID)
    (role : app_role) :
  (forall r, role_row_hit s d target r = of_user target r) ->
  update_user_role_statement target role s d
  = if (2 <=? List.length (filter (of_user target) (tbl_user_roles d)))%nat
    then (inl "duplicate key value violates unique constraint user_roles_user_id_role_key", d)
    else (inr tt,
          Provisioning.set_user_roles d (map (retarget target role) (tbl_user_roles d))).
Proof.
  intros Hhit. unfold update_user_role_statement.
  assert (Hmap : map (fun r => if role_row_hit s d target r then with_role r role else r)
                   (tbl_user_roles d)
                 = map (retarget target role) (tbl_user_roles d)).
  { apply map_ext. intros r. unfold retarget. now rewrite Hhit. }
  assert (Hex : existsb (role_row_hit s d target) (tbl_user_roles d)
                = (1 <=? List.length (filter (of_user target) (tbl_user_roles d)))%nat).
  { clear Hmap. induction (tbl_user_roles d) as [|x rows IH]; [reflexivity|].
    cbn [existsb filter]. rewrite Hhit.
    destruct (of_user target x); [reflexivity | exact IH]. }
  rewrite Hmap, Hex, retarget_count.
  destruct (List.length (filter (of_user target) (tbl_user_roles d))) as [|[|n]];
    reflexivity.
Qed.

(** X15. When an administrator changes the role of a user who has exactly
    one role row and the request is answered, that row takes the new role:
    the user then resolves to the new role and holds no other, the roles of
    every other user are as before, and the success toast is shown. *)
Theorem role_change_takes_effect :
  forall (w : World) (st : State) (target : UserWithRole) (new_role : app_role)
         (a : UUID) (x : user_role_row),
    selectedUser st = Some target ->
    newRole st = Some new_role ->
    session w = RLS.login a ->
    has_role (tbl_user_roles (db w)) a admin = true ->
    filter (of_user (user_id target)) (tbl_user_roles (db w)) = [x] ->
    hd false (outages w) = false ->
    let roles' := tbl_user_roles (db (fst (run handleRoleChange w st))) in
    get_user_role roles' (user_id target) = Some new_role
    /\ (forall r, has_role roles' (user_id target) r = true <-> r = new_role)
    /\ (forall u r, u <> user_id target ->
                    has_role roles' u r = has_role (tbl_user_roles (db w)) u r)
    /\ In (ToastSuccess (role_updated_message target new_role))
          (trace (fst (run handleRoleChange w st))).
Proof.
  intros w st target new_role a x Hsel Hnew Hs Ha Hone Hup. cbn zeta.
  rewrite (handleRoleChange_run w st target new_role Hsel Hnew). cbn zeta.
  rewrite Hup, (update_statement_of_admin (session w) (db w) (user_id target) new_role)
    by (intros r; now apply (admin_reaches_rows _ _ a)).
  rewrite Hone. cbn [List.length Nat.leb].
  match goal with
  | |- context [run fetchUsers ?w1 ?st1] =>
      destruct (fetchUsers_effect w1 st1) as (Hdb & _ & _ & _ & _ & _ & evs & Htr & _)
  end.
  cbn [fst snd]. rewrite Hdb, Htr. cbn [db trace Provisioning.set_user_roles tbl_user_roles].
  assert (Hrows : filter (of_user (user_id target))
                    (map (retarget (user_id target) new_role) (tbl_user_roles (db w)))
                  = [with_role x new_role])
    by (now rewrite retarget_rows, Hone).
  split.
  { unfold get_user_role, get_user_role_rows. fold (of_user (user_id target)).
    now rewrite Hrows. }
  split.
  { intros r. rewrite <- has_role_own_rows. fold (of_user (user_id target)).
    rewrite Hrows. unfold has_role. cbn. rewrite orb_false_r.
    assert (Hx : In x (filter (of_user (user_id target)) (tbl_user_roles (db w))))
      by (rewrite Hone; now left).
    apply filter_In in Hx. destruct Hx as [_ Hx]. unfold of_user in Hx. rewrite Hx. cbn.
    rewrite app_role_beq_eq. split; congruence. }
  split; [intros u r Hu; now apply retarget_others|].
  apply in_or_app. left. apply in_or_app. right. now left.
Qed.

Lemma role_change_takes_effect_witness :
  get_user_role
    (tbl_user_roles (db (fst (run handleRoleChange sample_role_world sample_role_state))))
    "u-new2" = Some gestor.
Proof.
  destruct (role_change_takes_effect sample_role_world sample_role_state
              sample_role_target gestor "u-adm"
              {| ur_id := "r-1"; ur_user_id := "u-new2"; ur_role := visualizador;
                 ur_created_at := 1000%Z |}
              eq_refl eq_refl eq_refl eq_refl eq_refl eq_refl) as (H & _).
  exact H.
Defined.

(** X16. A user with two or more role rows cannot be given a role through
    the dialog: the update would write the same (user, role) pair twice, the
    unique constraint rejects it, nothing is written and the error toast is
    shown, whichever role is chosen. *)
Theorem role_change_fails_on_several_rows :
  forall (w : World) (st : State) (target : UserWithRole) (new_role : app_role)
         (a : UUID),
    selectedUser st = Some target ->
    newRole st = Some new_role ->
    session w = RLS.login a ->
    has_role (tbl_user_roles (db w)) a admin = true ->
    2 <= List.length (filter (of_user (user_id target)) (tbl_user_roles (db w))) ->
    hd false (outages w) = false ->
    db (fst (run handleRoleChange w st)) = db w
    /\ trace (fst (run handleRoleChange w st))
       = trace w ++ [Requested (ReqUpdate RLS.user_roles (user_id target));
                     ConsoleError "Error updating role:";
                     ToastError "Erro ao atualizar permissão"]
    /\ isDialogOpen (snd (run handleRoleChange w st)) = isDialogOpen st.
Proof.
  intros w st target new_role a Hsel Hnew Hs Ha Hmany Hup.
  rewrite (handleRoleChange_run w st target new_role Hsel Hnew). cbn zeta.
  rewrite Hup, (update_statement_of_admin (session w) (db w) (user_id target) new_role)
    by (intros r; now apply (admin_reaches_rows _ _ a)).
  apply Nat.leb_le in Hmany. rewrite Hmany. cbn.
  rewrite <- app_assoc. auto.
Qed.

Lemma role_change_fails_on_several_rows_witness :
  db (fst (run handleRoleChange sample_two_roles_world sample_dialog_state))
  = db sample_two_roles_world.
Proof.
  destruct (role_change_fails_on_several_rows sample_two_roles_world sample_dialog_state
              sample_new_entry gestor "u-adm" eq_refl eq_refl eq_refl eq_refl) as (H & _).
  - vm_compute. lia.
  - reflexivity.
  - exact H.
Defined.

Lemma existsb_all_false {A : Type} (f : A -> bool) (l : list A) :
  (forall x, f x = false) -> existsb f l = false.
Proof.
  intros H. induction l as [|a l IH]; cbn; [reflexivity|]. now rewrite H, IH.
Qed.

(** X17. The update policy of [user_roles] is silent: when the session's
    user does not hold [admin], an answered role change reaches no row and
    writes nothing, yet the handler shows the success toast, closes the
    dialog and reports no error of the update. *)
Theorem role_change_by_non_admin_changes_nothing :
  forall (w : World) (st : State) (target : UserWithRole) (new_role : app_role),
    selectedUser st = Some target ->
    newRole st = Some new_role ->
    match RLS.auth_uid (session w) with
    | Some u => has_role (tbl_user_roles (db w)) u admin = false
    | None => True
    end ->
    hd false (outages w) = false ->
    db (fst (run handleRoleChange w st)) = db w
    /\ isDialogOpen (snd (run handleRoleChange w st)) = false
    /\ exists evs,
         trace (fst (run handleRoleChange w st))
         = trace w ++ [Requested (ReqUpdate RLS.user_roles (user_id target));
                       ToastSuccess (role_updated_message target new_role);
                       Requested (ReqSelect RLS.profiles)] ++ evs
         /\ ~ In (ToastError "Erro ao atualizar permissão") evs.
Proof.
  intros w st target new_role Hsel Hnew Hs Hup.
  rewrite (handleRoleChange_run w st target new_role Hsel Hnew). cbn zeta. rewrite Hup.
  assert (Hstmt : update_user_role_statement (user_id target) new_role (session w) (db w)
                  = (inr tt, db w)).
  { unfold update_user_role_statement.
    pose proof (fun r => non_admin_reaches_no_row (session w) (db w) (user_id target) r Hs)
      as Hno.
    assert (Hmap : map (fun r => if role_row_hit (session w) (db w) (user_id target) r
                                 then with_role r new_role else r) (tbl_user_roles (db w))
                   = tbl_user_roles (db w)).
    { rewrite <- (map_id (tbl_user_roles (db w))) at 2. apply map_ext. intros r.
      now rewrite Hno. }
    rewrite Hmap, (existsb_all_false _ _ Hno). cbn [andb]. now destruct (db w). }
  rewrite Hstmt.
  match goal with
  | |- context [run fetchUsers ?w1 ?st1] =>
      destruct (fetchUsers_effect w1 st1) as (Hdb & _ & _ & _ & Hd & _ & evs & Htr & Hkind)
  end.
  cbn [fst snd]. rewrite Hdb, Htr. cbn [db trace].
  split; [reflexivity|]. split; [exact Hd|].
  exists evs. split; [now rewrite <- !app_assoc|].
  intros Hin. destruct (Hkind _ Hin) as [H | [H | H]]; discriminate H.
Qed.

Lemma role_change_by_non_admin_changes_nothing_witness :
  db (fst (run handleRoleChange
             {| db := db sample_role_world; session := RLS.login "u-new2";
                outages := []; trace := [] |}
             sample_role_state))
  = db sample_role_world.
Proof.
  destruct (role_change_by_non_admin_changes_nothing
              {| db := db sample_role_world; session := RLS.login "u-new2";
                 outages := []; trace := [] |}
              sample_role_state sample_role_target gestor
              eq_refl eq_refl eq_refl eq_refl) as (H & _).
  exact H.
Defined.

End RoleChanges.

Section Documents.
Import Client DocumentUpload Samples.

Arguments documents_of : simpl never.
Arguments storage_upload_statement : simpl never.
Arguments insert_document_statement : simpl never.
Arguments storage_remove_statement : simpl never.
Arguments delete_document_statement : simpl never.

(** The two ways [fetchDocuments] ends. *)
Lemma fetchDocuments_run (props : Props) (w : World) (st : State) :
  run (fetchDocuments props) w st
  = if hd false (outages w) then
      ({| db := db w; session := session w; outages := tl (outages w);
          trace := trace w ++ [Requested (ReqSelect RLS.documents);
                               ConsoleError "Error fetching documents:"] |},
       setLoading false st)
    else
      ({| db := db w; session := session w; outages := tl (outages w);
          trace := trace w ++ [Requested (ReqSelect RLS.documents)] |},
       setLoading false
         (setDocuments (documents_of (contractId props) (session w) (db w)) st)).
Proof.
  destruct w as [d s o tr].
  unfold run, fetchDocuments, try_catch_finally, bind, await, select_documents, request,
    effect, emit, set, throw_if_error, throw, ret.
  destruct o as [|[|] o]; cbn; rewrite <- ?app_assoc; reflexivity.
Qed.

(** X18. A fetch of the documents of a contract shows, when answered, the
    rows of that contract only, newest first, provided their sizes are
    integers a JavaScript number holds exactly (magnitude at most 2^53; the
    column is a BIGINT and a larger value reaches the list rounded); when the
    fetch fails the list stays and the failure is written to the console
    only: no toast is shown. The database is never written. *)
Theorem document_list_fetch :
  forall (props : Props) (w : World) (st : State),
    let w' := fst (run (fetchDocuments props) w st) in
    let st' := snd (run (fetchDocuments props) w st) in
    db w' = db w
    /\ loading st' = false
    /\ (forall m, In (ToastError m) (trace w') -> In (ToastError m) (trace w))
    /\ (hd false (outages w) = true -> documents st' = documents st)
    /\ (hd false (outages w) = false ->
        RLS.sess_role (session w) = RLS.authenticated ->
        (forall d n, In d (tbl_documents (db w)) -> d_contract_id d = contractId props ->
           d_file_size d = Some n -> (Z.abs n <= 2 ^ 53)%Z) ->
        (forall d, In d (documents st')
                   <-> In d (tbl_documents (db w)) /\ d_contract_id d = contractId props)
        /\ StronglySorted (fun a b => (d_created_at b <= d_created_at a)%Z) (documents st')).
Proof.
  intros props w st. cbn zeta. rewrite fetchDocuments_run.
  destruct (hd false (outages w)); cbn [fst snd db trace documents loading setLoading
                                         setDocuments].
  - split; [reflexivity|]. split; [reflexivity|]. split.
    + intros m Hin. apply in_app_or in Hin. destruct Hin as [Hin | [Hin | [Hin | []]]];
        [exact Hin | discriminate Hin | discriminate Hin].
    + split; [reflexivity | discriminate].
  - split; [reflexivity|]. split; [reflexivity|]. split.
    + intros m Hin. apply in_app_or in Hin. destruct Hin as [Hin | [Hin | []]];
        [exact Hin | discriminate Hin].
    + split; [discriminate|]. intros _ Hs _. split.
      * intros d. unfold documents_of. rewrite sort_by_In, filter_In.
        unfold permitted, RLS.rls_allows, RLS.applies. rewrite Hs. cbn.
        rewrite andb_true_r, String.eqb_eq. tauto.
      * unfold documents_of.
        eapply StronglySorted_weaken; [|apply sort_by_sorted].
        -- intros a b H. now apply Z.leb_le.
        -- intros a b. rewrite Z.leb_gt, Z.leb_le. lia.
        -- intros a b c. rewrite !Z.leb_le. lia.
Qed.

Lemma document_list_fetch_witness :
  documents (snd (run (fetchDocuments sample_props) sample_documents_world
                    sample_documents_state))
  = [sample_document]
  /\ forall d, In d (documents (snd (run (fetchDocuments sample_props)
                                       sample_documents_world sample_documents_state)))
               <-> In d (tbl_documents (db sample_documents_world))
                   /\ d_contract_id d = "c-1".
Proof.
  split; [reflexivity|].
  destruct (document_list_fetch sample_props sample_documents_world sample_documents_state)
    as (_ & _ & _ & _ & H).
  destruct (H eq_refl eq_refl) as [Hrows _].
  - intros d n [<- | []] _ Hn. injection Hn as <-. cbn. lia.
  - exact Hrows.
Defined.

(** X19. The checks of an upload: without a file nothing happens; a file
    that is not a PDF, or a PDF of more than 50 MB (52428800 bytes), only
    raises its error toast, and no request is sent; a PDF of exactly
    52428800 bytes passes and the upload request is sent. *)
Theorem upload_checks :
  forall (props : Props) (user : option UUID) (clock : Clock) (w : World) (st : State),
    run (handleUpload props user clock None) w st = (w, st)
    /\ (forall f, type f <> "application/pdf" ->
          run (handleUpload props user clock (Some f)) w st
          = (emit (ToastError "Apenas arquivos PDF são permitidos") w, st))
    /\ (forall f, type f = "application/pdf" -> (52428800 < size f)%Z ->
          run (handleUpload props user clock (Some f)) w st
          = (emit (ToastError "O arquivo deve ter no máximo 50MB") w, st))
    /\ (forall f, type f = "application/pdf" -> (size f <= 52428800)%Z ->
          exists evs,
            trace (fst (run (handleUpload props user clock (Some f)) w st))
            = trace w ++ Requested (ReqStorageUpload (filePath props clock f)) :: evs).
Proof.
  intros props user clock w st. split; [reflexivity|]. split; [|split].
  - intros f Hf. unfold run, handleUpload.
    destruct (String.eqb_spec (type f) "application/pdf") as [H | _]; [contradiction|].
    reflexivity.
  - intros f Hf Hsize. unfold run, handleUpload. rewrite Hf, String.eqb_refl. cbn [negb].
    assert (Hlt : (50 * 1024 * 1024 <? size f)%Z = true) by (apply Z.ltb_lt; lia).
    rewrite Hlt. reflexivity.
  - intros f Hf Hsize.
    rewrite (handleUpload_run props user clock f w st Hf) by lia. cbn zeta.
    pose proof (request_trace (ReqStorageUpload (filePath props clock f))
                  (storage_upload_statement (filePath props clock f)) w) as Htr1.
    fold (storage_upload (filePath props clock f)) in Htr1.
    destruct (storage_upload (filePath props clock f) w) as [uploaded w1].
    cbn [snd] in Htr1.
    destruct (error uploaded) as [e|].
    + cbn. rewrite Htr1, <- !app_assoc. eexists. reflexivity.
    + pose proof (request_trace (ReqInsert RLS.documents)
                    (insert_document_statement (new_document props user clock f)) w1)
        as Htr2.
      fold (insert_document (new_document props user clock f)) in Htr2.
      destruct (insert_document (new_document props user clock f) w1) as [inserted w2].
      cbn [snd] in Htr2.
      destruct (error inserted) as [e|].
      * cbn. rewrite Htr2, Htr1, <- !app_assoc. eexists. reflexivity.
      * cbn [fst]. rewrite fetchDocuments_run.
        destruct (hd false (outages _)); cbn; rewrite Htr2, Htr1, <- !app_assoc;
          eexists; reflexivity.
Qed.

Lemma upload_statement (a : UUID) (d : Database) (path : string) :
  storage_upload_statement path (RLS.login a) d
  = if negb (has_role (tbl_user_roles d) a admin || has_role (tbl_user_roles d) a gestor)
    then (inl "new row violates row-level security policy", d)
    else if existsb (fun x => String.eqb (so_bucket_id x) RLS.docs_bucket
                              && String.eqb (so_name x) path) (tbl_storage_objects d)
    then (inl "The resource already exists", d)
    else (inr tt,
          set_storage_objects d
            (tbl_storage_objects d
             ++ [ {| so_bucket_id := RLS.docs_bucket; so_name := path |} ])).
Proof.
  unfold storage_upload_statement, permitted, RLS.rls_allows. cbn.
  now rewrite orb_false_r.
Qed.

Lemma insert_statement (a : UUID) (d : Database) (row : document_row) :
  insert_document_statement row (RLS.login a) d
  = if negb (has_role (tbl_user_roles d) a admin || has_role (tbl_user_roles d) a gestor)
    then (inl "new row violates row-level security policy for table documents", d)
    else if existsb (fun x => String.eqb (d_id x) (d_id row)) (tbl_documents d)
    then (inl "duplicate key value violates unique constraint documents_pkey", d)
    else (inr tt, set_documents d (tbl_documents d ++ [row])).
Proof.
  unfold insert_document_statement, permitted, RLS.rls_allows. cbn.
  now rewrite orb_false_r.
Qed.

Lemma remove_statement (a : UUID) (d : Database) (path : string) :
  storage_remove_statement [path] (RLS.login a) d
  = (inr tt,
     set_storage_objects d
       (filter (fun o => negb (String.eqb (so_bucket_id o) RLS.docs_bucket
                               && String.eqb (so_name o) path
                               && has_role (tbl_user_roles d) a admin))
          (tbl_storage_objects d))).
Proof.
  unfold storage_remove_statement. f_equal. f_equal. apply filter_ext. intros o.
  unfold object_hit, permitted, RLS.rls_allows, object_ctx. cbn.
  rewrite !orb_false_r.
  destruct (String.eqb (so_bucket_id o) RLS.docs_bucket) eqn:Hb; cbn; [|reflexivity].
  now rewrite andb_true_r.
Qed.

Lemma delete_statement (a : UUID) (d : Database) (id : UUID) :
  delete_document_statement id (RLS.login a) d
  = (inr tt,
     set_documents d
       (filter (fun x => negb (String.eqb (d_id x) id
                               && has_role (tbl_user_roles d) a admin))
          (tbl_documents d))).
Proof.
  unfold delete_document_statement. f_equal. f_equal. apply filter_ext. intros x.
  unfold document_hit, permitted, RLS.rls_allows. cbn.
  now rewrite !orb_false_r, andb_true_r.
Qed.

Arguments fetchDocuments : simpl never.
Arguments new_document : simpl never.
Arguments filePath : simpl never.

(** An upload whose checks pass and whose three requests are answered. *)
Lemma handleUpload_succeeds (props : Props) (user : option UUID) (clock : Clock) (f : File)
    (w : World) (st : State) (a : UUID) :
  type f = "application/pdf" ->
  (size f <= 50 * 1024 * 1024)%Z ->
  session w = RLS.login a ->
  has_role (tbl_user_roles (db w)) a admin || has_role (tbl_user_roles (db w)) a gestor
  = true ->
  existsb (fun x => String.eqb (so_bucket_id x) RLS.docs_bucket
                    && String.eqb (so_name x) (filePath props clock f))
    (tbl_storage_objects (db w)) = false ->
  existsb (fun x => String.eqb (d_id x) (gen_document_id clock)) (tbl_documents (db w))
  = false ->
  hd false (outages w) = false ->
  hd false (tl (outages w)) = false ->
  hd false (tl (tl (outages w))) = false ->
  run (handleUpload props user clock (Some f)) w st
  = let d' := set_documents
                (set_storage_objects (db w)
                   (tbl_storage_objects (db w)
                    ++ [ {| so_bucket_id := RLS.docs_bucket;
                            so_name := filePath props clock f |} ]))
                (tbl_documents (db w) ++ [new_document props user clock f]) in
    ({| db := d'; session := session w; outages := tl (tl (tl (outages w)));
        trace := trace w ++ [Requested (ReqStorageUpload (filePath props clock f));
                             Requested (ReqInsert RLS.documents);
                             ToastSuccess "Documento enviado com sucesso!";
                             Requested (ReqSelect RLS.documents)] |},
     setUploading false
       (setLoading false
          (setDocuments (documents_of (contractId props) (session w) d')
             (setUploading true st)))).
Proof.
  intros Htype Hsize Hs Hed Hpath Hid H1 H2 H3. cbn zeta.
  rewrite (handleUpload_run props user clock f w st Htype Hsize). cbn zeta.
  destruct w as [d s o tr]. cbn [session db outages trace] in *. subst s.
  unfold storage_upload. rewrite request_answered by exact H1.
  cbn [session db outages trace]. rewrite upload_statement, Hed, Hpath. cbn [negb error succeeded].
  unfold insert_document. rewrite request_answered by exact H2.
  cbn [session db outages trace]. rewrite insert_statement.
  assert (Hid' : existsb (fun x => String.eqb (d_id x)
                                     (d_id (new_document props user clock f)))
                   (tbl_documents d) = false) by exact Hid.
  cbn [tbl_user_roles tbl_documents set_storage_objects]. rewrite Hed, Hid'.
  cbn [negb error succeeded fst snd]. rewrite fetchDocuments_run.
  cbn [emit session db outages trace]. rewrite H3.
  cbn [fst snd]. now rewrite <- !app_assoc.
Qed.

(** X20. An upload by an administrator or manager whose three requests are
    answered, for a path and a row id not in use, stores exactly one object
    under [contractId/timestamp_name] in the documents bucket and one row
    that points to it, shows the success toast, and the refetched list
    contains the new document. *)
Theorem upload_stores_object_and_row :
  forall (props : Props) (user : option UUID) (clock : Clock) (f : File)
         (w : World) (st : State) (a : UUID),
    type f = "application/pdf" ->
    (size f <= 50 * 1024 * 1024)%Z ->
    session w = RLS.login a ->
    has_role (tbl_user_roles (db w)) a admin || has_role (tbl_user_roles (db w)) a gestor
    = true ->
    existsb (fun x => String.eqb (so_bucket_id x) RLS.docs_bucket
                      && String.eqb (so_name x) (filePath props clock f))
      (tbl_storage_objects (db w)) = false ->
    existsb (fun x => String.eqb (d_id x) (gen_document_id clock)) (tbl_documents (db w))
    = false ->
    hd false (outages w) = false ->
    hd false (tl (outages w)) = false ->
    hd false (tl (tl (outages w))) = false ->
    let w' := fst (run (handleUpload props user clock (Some f)) w st) in
    let st' := snd (run (handleUpload props user clock (Some f)) w st) in
    tbl_storage_objects (db w')
    = tbl_storage_objects (db w)
      ++ [ {| so_bucket_id := "contracts-documents";
              so_name := (contractId props ++ "/" ++ decimal (Date_now clock) ++ "_"
                          ++ name f)%string |} ]
    /\ tbl_documents (db w') = tbl_documents (db w) ++ [new_document props user clock f]
    /\ d_file_path (new_document props user clock f)
       = (contractId props ++ "/" ++ decimal (Date_now clock) ++ "_" ++ name f)%string
    /\ In (new_document props user clock f) (documents st')
    /\ uploading st' = false
    /\ trace w' = trace w ++ [Requested (ReqStorageUpload (filePath props clock f));
                              Requested (ReqInsert RLS.documents);
                              ToastSuccess "Documento enviado com sucesso!";
                              Requested (ReqSelect RLS.documents)].
Proof.
  intros props user clock f w st a Htype Hsize Hs Hed Hpath Hid H1 H2 H3. cbn zeta.
  rewrite (handleUpload_succeeds props user clock f w st a Htype Hsize Hs Hed Hpath Hid
             H1 H2 H3).
  cbn [fst snd db trace tbl_storage_objects tbl_documents set_documents set_storage_objects
       documents uploading setUploading setLoading setDocuments].
  split; [reflexivity|]. split; [reflexivity|]. split; [reflexivity|].
  split; [|split; reflexivity].
  unfold documents_of. rewrite sort_by_In, filter_In. split.
  - cbn [tbl_documents set_documents]. apply in_or_app. right. now left.
  - unfold permitted, RLS.rls_allows. rewrite Hs. cbn. unfold new_document. cbn.
    now rewrite String.eqb_refl.
Qed.

(** A confirmed delete whose two requests are answered: each statement
    removes what the session's user may remove. *)
Lemma handleDelete_answered (doc : document_row) (w : World) (st : State) (a : UUID) :
  session w = RLS.login a ->
  hd false (outages w) = false ->
  hd false (tl (outages w)) = false ->
  run (handleDelete true doc) w st
  = let may := has_role (tbl_user_roles (db w)) a admin in
    ({| db := set_documents
                (set_storage_objects (db w)
                   (filter (fun o => negb (String.eqb (so_bucket_id o) RLS.docs_bucket
                                           && String.eqb (so_name o) (d_file_path doc)
                                           && may))
                      (tbl_storage_objects (db w))))
                (filter (fun x => negb (String.eqb (d_id x) (d_id doc) && may))
                   (tbl_documents (db w)));
        session := session w; outages := tl (tl (outages w));
        trace := trace w ++ [Requested (ReqStorageRemove [d_file_path doc]);
                             Requested (ReqDelete RLS.documents (d_id doc));
                             ToastSuccess "Documento excluído com sucesso!"] |},
     setDeleting None
       (setDocuments
          (filter (fun x => negb (String.eqb (d_id x) (d_id doc))) (documents st))
          (setDeleting (Some (d_id doc)) st))).
Proof.
  intros Hs H1 H2. rewrite handleDelete_run. cbn zeta.
  destruct w as [d s o tr]. cbn [session db outages trace] in *. subst s.
  unfold storage_remove. rewrite request_answered by exact H1.
  cbn [session db outages trace]. rewrite remove_statement. cbn [error succeeded].
  unfold delete_document. rewrite request_answered by exact H2.
  cbn [session db outages trace]. rewrite delete_statement.
  cbn [error succeeded tbl_user_roles tbl_documents set_storage_objects]. unfold emit.
  cbn [trace db session outages]. rewrite <- !app_assoc. reflexivity.
Qed.

Lemma filter_snoc_out {A : Type} (f g : A -> bool) (l : list A) (a : A) :
  existsb g l = false ->
  (forall x, f x = negb (g x)) ->
  g a = true ->
  filter f (l ++ [a]) = l.
Proof.
  intros Hl Hf Ha. rewrite filter_app. cbn. rewrite (Hf a), Ha. cbn.
  rewrite app_nil_r. apply filter_all. intros x Hx. rewrite Hf.
  destruct (g x) eqn:Hg; [|reflexivity].
  assert (existsb g l = true) by (apply existsb_exists; eauto). congruence.
Qed.

(** X21. Upload followed by delete is a round trip for an administrator:
    when all five requests are answered, deleting the document just uploaded
    leaves the database exactly as it was before the upload, and the
    document is no longer listed. *)
Theorem upload_then_delete_restores_database :
  forall (props : Props) (user : option UUID) (clock : Clock) (f : File)
         (w : World) (st : State) (a : UUID),
    type f = "application/pdf" ->
    (size f <= 50 * 1024 * 1024)%Z ->
    session w = RLS.login a ->
    has_role (tbl_user_roles (db w)) a admin = true ->
    existsb (fun x => String.eqb (so_bucket_id x) RLS.docs_bucket
                      && String.eqb (so_name x) (filePath props clock f))
      (tbl_storage_objects (db w)) = false ->
    existsb (fun x => String.eqb (d_id x) (gen_document_id clock)) (tbl_documents (db w))
    = false ->
    outages w = [] ->
    let uploaded := run (handleUpload props user clock (Some f)) w st in
    let deleted := run (handleDelete true (new_document props user clock f))
                     (fst uploaded) (snd uploaded) in
    db (fst uploaded) <> db w
    /\ db (fst deleted) = db w
    /\ ~ In (new_document props user clock f) (documents (snd deleted)).
Proof.
  intros props user clock f w st a Htype Hsize Hs Ha Hpath Hid Hout. cbn zeta.
  assert (Hed : has_role (tbl_user_roles (db w)) a admin
                || has_role (tbl_user_roles (db w)) a gestor = true) by (now rewrite Ha).
  rewrite (handleUpload_succeeds props user clock f w st a Htype Hsize Hs Hed Hpath Hid)
    by (rewrite Hout; reflexivity).
  cbn zeta. cbn [fst snd]. split.
  { intros Heq. apply (f_equal (fun x => List.length (tbl_documents x))) in Heq.
    cbn [tbl_documents set_documents db] in Heq. rewrite length_app in Heq. cbn in Heq. lia. }
  rewrite (handleDelete_answered _ _ _ a) by (cbn; rewrite ?Hout; auto).
  cbn zeta. cbn [fst snd db session tbl_user_roles tbl_documents tbl_storage_objects
                 set_documents set_storage_objects documents setDeleting setDocuments].
  rewrite Ha. split.
  - assert (Hobj : filter (fun o => negb (String.eqb (so_bucket_id o) RLS.docs_bucket
                                          && String.eqb (so_name o)
                                               (d_file_path (new_document props user clock f))
                                          && true))
                     (tbl_storage_objects (db w)
                      ++ [ {| so_bucket_id := RLS.docs_bucket;
                              so_name := filePath props clock f |} ])
                   = tbl_storage_objects (db w)).
    { apply (filter_snoc_out _ (fun x => String.eqb (so_bucket_id x) RLS.docs_bucket
                                         && String.eqb (so_name x) (filePath props clock f))).
      - exact Hpath.
      - intros x. now rewrite andb_true_r.
      - cbn. now rewrite String.eqb_refl. }
    assert (Hrow : filter (fun x => negb (String.eqb (d_id x)
                                            (d_id (new_document props user clock f)) && true))
                     (tbl_documents (db w) ++ [new_document props user clock f])
                   = tbl_documents (db w)).
    { apply (filter_snoc_out _ (fun x => String.eqb (d_id x) (gen_document_id clock))).
      - exact Hid.
      - intros x. now rewrite andb_true_r.
      - apply String.eqb_refl. }
    rewrite Hobj, Hrow. now destruct (db w).
  - rewrite filter_In. intros [_ H]. rewrite String.eqb_refl in H. discriminate H.
Qed.

(** X22. The delete policies are silent: when the session's user does not
    hold [admin] (a manager, who is shown the delete button, included), an
    answered delete removes neither the object nor the row, yet the success
    toast is shown and the document leaves the list on screen. *)
Theorem delete_by_non_admin_removes_nothing :
  forall (doc : document_row) (w : World) (st : State) (a : UUID),
    session w = RLS.login a ->
    has_role (tbl_user_roles (db w)) a admin = false ->
    hd false (outages w) = false ->
    hd false (tl (outages w)) = false ->
    let w' := fst (run (handleDelete true doc) w st) in
    let st' := snd (run (handleDelete true doc) w st) in
    db w' = db w
    /\ trace w' = trace w ++ [Requested (ReqStorageRemove [d_file_path doc]);
                              Requested (ReqDelete RLS.documents (d_id doc));
                              ToastSuccess "Documento excluído com sucesso!"]
    /\ documents st'
       = filter (fun x => negb (String.eqb (d_id x) (d_id doc))) (documents st).
Proof.
  intros doc w st a Hs Ha H1 H2. cbn zeta.
  rewrite (handleDelete_answered doc w st a Hs H1 H2). cbn zeta. rewrite Ha.
  cbn [fst snd db trace documents setDeleting setDocuments].
  split; [|split; reflexivity].
  rewrite !filter_all.
  - now destruct (db w).
  - intros x _. now rewrite andb_false_r.
  - intros x _. now rewrite andb_false_r.
Qed.

(** X23. An upload is decided at its first step: for a user who is neither
    administrator nor manager the storage policy refuses the object, and for
    a path already in use the storage refuses the name; either way the error
    is shown, nothing is stored and the request that inserts the row is
    never sent. *)
Theorem upload_refused_at_storage :
  forall (props : Props) (user : option UUID) (clock : Clock) (f : File)
         (w : World) (st : State) (a : UUID),
    type f = "application/pdf" ->
    (size f <= 50 * 1024 * 1024)%Z ->
    session w = RLS.login a ->
    hd false (outages w) = false ->
    let editor := has_role (tbl_user_roles (db w)) a admin
                  || has_role (tbl_user_roles (db w)) a gestor in
    let taken := existsb (fun x => String.eqb (so_bucket_id x) RLS.docs_bucket
                                   && String.eqb (so_name x) (filePath props clock f))
                   (tbl_storage_objects (db w)) in
    editor = false \/ taken = true ->
    let w' := fst (run (handleUpload props user clock (Some f)) w st) in
    let st' := snd (run (handleUpload props user clock (Some f)) w st) in
    db w' = db w
    /\ documents st' = documents st
    /\ trace w'
       = trace w ++ [Requested (ReqStorageUpload (filePath props clock f));
                     ConsoleError "Error uploading document:";
                     ToastError (if editor then "The resource already exists"
                                 else "new row violates row-level security policy")].
Proof.
  intros props user clock f w st a Htype Hsize Hs H1. cbn zeta. intros Hwhy.
  rewrite (handleUpload_run props user clock f w st Htype Hsize). cbn zeta.
  destruct w as [d s o tr]. cbn [session db outages trace] in *. subst s.
  unfold storage_upload. rewrite request_answered by exact H1.
  cbn [session db outages trace]. rewrite upload_statement.
  destruct (has_role (tbl_user_roles d) a admin || has_role (tbl_user_roles d) a gestor);
    cbn [negb].
  - destruct Hwhy as [Hwhy | Hwhy]; [discriminate Hwhy|]. rewrite Hwhy.
    cbn. rewrite <- !app_assoc. auto.
  - cbn. rewrite <- !app_assoc. auto.
Qed.

Lemma upload_stores_object_and_row_witness :
  tbl_storage_objects
    (db (fst (run (handleUpload sample_props (Some "u-ges") sample_clock (Some sample_file))
                (sample_open_world (RLS.login "u-ges")) sample_documents_state)))
  = [ {| so_bucket_id := "contracts-documents"; so_name := "c-1/1700000000000_termo.pdf" |};
      {| so_bucket_id := "contracts-documents";
         so_name := "c-1/1700000000123_aditivo.pdf" |} ].
Proof.
  assert (Hsize : (DocumentUpload.size sample_file <= 50 * 1024 * 1024)%Z)
    by (vm_compute; discriminate).
  destruct (upload_stores_object_and_row sample_props (Some "u-ges") sample_clock sample_file
              (sample_open_world (RLS.login "u-ges")) sample_documents_state "u-ges"
              eq_refl Hsize eq_refl eq_refl eq_refl eq_refl eq_refl eq_refl eq_refl)
    as (H & _).
  exact H.
Defined.

Lemma upload_then_delete_restores_database_witness :
  db (fst (run (handleDelete true
                  (new_document sample_props (Some "u-adm") sample_clock sample_file))
             (fst (run (handleUpload sample_props (Some "u-adm") sample_clock
                          (Some sample_file))
                     (sample_open_world (RLS.login "u-adm")) sample_documents_state))
             (snd (run (handleUpload sample_props (Some "u-adm") sample_clock
                          (Some sample_file))
                     (sample_open_world (RLS.login "u-adm")) sample_documents_state))))
  = db (sample_open_world (RLS.login "u-adm")).
Proof.
  assert (Hsize : (DocumentUpload.size sample_file <= 50 * 1024 * 1024)%Z)
    by (vm_compute; discriminate).
  destruct (upload_then_delete_restores_database sample_props (Some "u-adm") sample_clock
              sample_file (sample_open_world (RLS.login "u-adm")) sample_documents_state
              "u-adm" eq_refl Hsize eq_refl eq_refl eq_refl eq_refl eq_refl)
    as (_ & H & _).
  exact H.
Defined.

Lemma delete_by_non_admin_removes_nothing_witness :
  db (fst (run (handleDelete true sample_document)
             (sample_open_world (RLS.login "u-ges")) sample_documents_state))
  = db (sample_open_world (RLS.login "u-ges"))
  /\ documents (snd (run (handleDelete true sample_document)
                      (sample_open_world (RLS.login "u-ges")) sample_documents_state))
     = [].
Proof.
  destruct (delete_by_non_admin_removes_nothing sample_document
              (sample_open_world (RLS.login "u-ges")) sample_documents_state "u-ges"
              eq_refl eq_refl eq_refl eq_refl)
    as (Hdb & _ & Hlist).
  split; [exact Hdb | exact Hlist].
Defined.

Lemma upload_refused_at_storage_witness :
  db (fst (run (handleUpload sample_props (Some "u-vis") sample_clock (Some sample_file))
             (sample_open_world (RLS.login "u-vis")) sample_documents_state))
  = db (sample_open_world (RLS.login "u-vis")).
Proof.
  assert (Hsize : (DocumentUpload.size sample_file <= 50 * 1024 * 1024)%Z)
    by (vm_compute; discriminate).
  destruct (upload_refused_at_storage sample_props (Some "u-vis") sample_clock sample_file
              (sample_open_world (RLS.login "u-vis")) sample_documents_state "u-vis"
              eq_refl Hsize eq_refl eq_refl (or_introl eq_refl))
    as (H & _).
  exact H.
Defined.

End Documents.

Section Labels.
Import UsersPage AppSidebar.

(** X24. The sidebar badge and the users view name the roles alike, and a
    session without a resolved role is badged as a viewer. *)
Theorem role_badge_matches_role_labels :
  (forall r : app_role, getRoleBadge (Some r) = roleLabels r)
  /\ getRoleBadge None = roleLabels visualizador
  /\ (forall r r' : app_role, roleLabels r = roleLabels r' -> r = r').
Proof.
  split; [intros []; reflexivity|]. split; [reflexivity|].
  intros [] [] H; try reflexivity; discriminate H.
Qed.

End Labels.

Section CNPJ.
Import SupplierForm.

Arguments is_digit : simpl never.
Arguments Ascii.eqb : simpl never.

Lemma digit_is_no_separator (c : ascii) :
  is_digit c = true ->
  Ascii.eqb c "." = false /\ Ascii.eqb c "/" = false /\ Ascii.eqb c "-" = false.
Proof.
  intros H.
  assert (Hne : forall x, is_digit x = false -> Ascii.eqb c x = false).
  { intros x Hx. destruct (Ascii.eqb_spec c x) as [-> | _]; [congruence | reflexivity]. }
  repeat split; apply Hne; reflexivity.
Qed.

Lemma separators :
  is_digit "." = false /\ is_digit "/" = false /\ is_digit "-" = false
  /\ Ascii.eqb "." "." = true /\ Ascii.eqb "/" "/" = true /\ Ascii.eqb "-" "-" = true
  /\ Ascii.eqb "." "/" = false /\ Ascii.eqb "." "-" = false
  /\ Ascii.eqb "/" "." = false /\ Ascii.eqb "/" "-" = false
  /\ Ascii.eqb "-" "." = false /\ Ascii.eqb "-" "/" = false.
Proof. repeat split; reflexivity. Qed.

Ltac use_digits :=
  repeat match goal with
         | H : is_digit ?c = true |- context [is_digit ?c] => rewrite H
         | H : is_digit ?c = true |- context [Ascii.eqb ?c "."] =>
             rewrite (proj1 (digit_is_no_separator c H))
         | H : is_digit ?c = true |- context [Ascii.eqb ?c "/"] =>
             rewrite (proj1 (proj2 (digit_is_no_separator c H)))
         | H : is_digit ?c = true |- context [Ascii.eqb ?c "-"] =>
             rewrite (proj2 (proj2 (digit_is_no_separator c H)))
         end.

Ltac use_separators :=
  destruct separators as (S1 & S2 & S3 & S4 & S5 & S6 & S7 & S8 & S9 & S10 & S11 & S12);
  repeat (progress (unfold replace_at_start; cbn; use_digits;
                    rewrite ?S1, ?S2, ?S3, ?S4, ?S5, ?S6, ?S7, ?S8, ?S9, ?S10, ?S11, ?S12));
  clear S1 S2 S3 S4 S5 S6 S7 S8 S9 S10 S11 S12.

Ltac next_digit ds H :=
  let c := fresh "c" in
  let Hd := fresh "Hd" in
  destruct ds as [|c ds];
  [ | cbn [all_digits] in H; apply andb_true_iff in H; destruct H as [Hd H] ].

Lemma mask_is_layout (ds : string) :
  all_digits ds = true -> mask ds = layout ds.
Proof.
  intros H. unfold mask, layout, D2, D3, D4.
  do 14 (next_digit ds H; [use_separators; reflexivity|]).
  destruct ds as [|c14 ds]; use_separators; reflexivity.
Qed.

Lemma strip_gives_digits (value : string) : all_digits (strip_non_digits value) = true.
Proof.
  induction value as [|c value IH]; [reflexivity|]. cbn [strip_non_digits].
  destruct (is_digit c) eqn:Hc; [|exact IH]. cbn [all_digits]. now rewrite Hc, IH.
Qed.

Lemma layout_keeps_fourteen (ds : string) :
  all_digits ds = true -> strip_non_digits (layout ds) = slice0 14 ds.
Proof.
  intros H. unfold layout.
  do 14 (next_digit ds H; [use_separators; reflexivity|]).
  destruct ds as [|c14 ds]; use_separators; reflexivity.
Qed.

Lemma layout_of_fourteen (ds : string) : layout (slice0 14 ds) = layout ds.
Proof.
  unfold layout. do 14 (destruct ds as [|? ds]; [reflexivity|]).
  destruct ds; reflexivity.
Qed.

Lemma layout_accepted (ds : string) :
  all_digits ds = true ->
  cnpj_accepted (layout ds)
  = ((String.length ds =? 0) || (14 <=? String.length ds))%nat.
Proof.
  intros H. unfold layout, cnpj_accepted, cnpj_pattern, D2, D3, D4.
  do 14 (next_digit ds H; [use_separators; reflexivity|]).
  destruct ds as [|c14 ds]; use_separators; reflexivity.
Qed.

(** X25. [formatCNPJ] lays out the digits of its input and nothing else: a
    dot in front of the third and of the sixth digit, a slash in front of
    the ninth, a dash in front of the thirteenth, no separator that no digit
    follows, and at most the first fourteen digits. *)
Theorem formatCNPJ_lays_out_digits :
  forall value : string,
    formatCNPJ value = layout (strip_non_digits value)
    /\ strip_non_digits (formatCNPJ value) = slice0 14 (strip_non_digits value)
    /\ String.length (formatCNPJ value) <= 18.
Proof.
  intros value.
  assert (Hl : formatCNPJ value = layout (strip_non_digits value)).
  { change (formatCNPJ value) with (mask (strip_non_digits value)).
    apply mask_is_layout, strip_gives_digits. }
  split; [exact Hl|]. split.
  - rewrite Hl. apply layout_keeps_fourteen, strip_gives_digits.
  - unfold formatCNPJ.
    generalize (replace_first (D4 ++ [Digit]) 4 "-"
                  (replace_first (Lit "." :: D3 ++ [Digit]) 4 "/"
                     (replace_at_start (D2 ++ Lit "." :: D3 ++ [Digit]) 6 "."
                        (replace_at_start (D2 ++ [Digit]) 2 "."
                           (strip_non_digits value))))).
    generalize 18. intros n s. revert s.
    induction n as [|n IH]; intros [|c s]; cbn; try lia.
    specialize (IH s). lia.
Qed.

(** X26. The field mask and the schema agree: what [formatCNPJ] returns
    passes the [cnpj] rule of the supplier schema exactly when the input
    holds no digit at all or at least fourteen digits. *)
Theorem formatCNPJ_accepted_by_schema :
  forall value : string,
    cnpj_accepted (formatCNPJ value) = true
    <-> strip_non_digits value = ""
        \/ 14 <= String.length (strip_non_digits value).
Proof.
  intros value.
  change (formatCNPJ value) with (mask (strip_non_digits value)).
  rewrite (mask_is_layout _ (strip_gives_digits value)),
    (layout_accepted _ (strip_gives_digits value)).
  rewrite orb_true_iff, Nat.eqb_eq, Nat.leb_le.
  destruct (strip_non_digits value); cbn; split; intros [H | H];
    auto; try discriminate H; try lia.
Qed.

(** X27. Formatting is idempotent: the field shows [formatCNPJ] of whatever
    is typed into it, and formatting a formatted value changes nothing. *)
Theorem formatCNPJ_idempotent :
  forall value : string, formatCNPJ (formatCNPJ value) = formatCNPJ value.
Proof.
  intros value.
  change (formatCNPJ (formatCNPJ value))
    with (mask (strip_non_digits (formatCNPJ value))).
  rewrite (mask_is_layout _ (strip_gives_digits (formatCNPJ value))).
  change (formatCNPJ value) with (mask (strip_non_digits value)).
  rewrite (mask_is_layout _ (strip_gives_digits value)).
  rewrite (layout_keeps_fourteen _ (strip_gives_digits value)).
  apply layout_of_fourteen.
Qed.

Example formatCNPJ_examples :
  formatCNPJ "12345678000195" = "12.345.678/0001-95"
  /\ formatCNPJ "12.345.678/0001-95" = "12.345.678/0001-95"
  /\ formatCNPJ "1234567800019599" = "12.345.678/0001-95"
  /\ formatCNPJ "123" = "12.3"
  /\ formatCNPJ "12a34" = "12.34"
  /\ formatCNPJ "abc" = ""
  /\ cnpj_accepted "12.345.678/0001-95" = true
  /\ cnpj_accepted "12.345.678/0001" = false
  /\ cnpj_accepted "" = true.
Proof. repeat split; reflexivity. Qed.

End CNPJ.

Section UserFilter.
Import Client UsersPage.

Variable toLowerCase : string -> string.

(** X28. The role selector and the counters of the users view agree: with
    an empty search box, choosing a role lists as many users as the counter
    of that role shows, and choosing "all" lists every user. *)
Theorem role_filter_matches_counters :
  toLowerCase "" = "" ->
  forall st : State,
    List.length (filteredUsers toLowerCase (setFilters "" "admin" st)) = admins (stats st)
    /\ List.length (filteredUsers toLowerCase (setFilters "" "gestor" st))
       = gestors (stats st)
    /\ List.length (filteredUsers toLowerCase (setFilters "" "visualizador" st))
       = viewers (stats st)
    /\ filteredUsers toLowerCase (setFilters "" "all" st) = users st.
Proof.
  intros Hlower st.
  assert (Hsearch : forall u, matchesSearch toLowerCase "" u = true).
  { intros u. unfold matchesSearch.
    now rewrite Hlower, (includes_empty (toLowerCase (full_name u))). }
  unfold filteredUsers, stats, count_role.
  cbn [users searchTerm roleFilter setFilters admins gestors viewers].
  repeat split.
  1-3: f_equal; apply filter_ext; intros u; rewrite Hsearch; unfold matchesRole;
       destruct (role u); reflexivity.
  apply filter_all. intros u _. now rewrite Hsearch.
Qed.

End UserFilter.

Section UserFilterInstance.
Import Client UsersPage Samples.

Lemma role_filter_matches_counters_witness :
  List.length (filteredUsers ascii_toLowerCase
                 (setFilters "" "admin"
                    (snd (run fetchUsers sample_users_world initial)))) = 1.
Proof.
  destruct (role_filter_matches_counters ascii_toLowerCase eq_refl
              (snd (run fetchUsers sample_users_world initial))) as (H & _).
  exact H.
Defined.

End UserFilterInstance.
